(** * Market data aggregator: cleaning pipeline, storage engine, indicators

    A shallow embedding of [src/data_cleaner.py], [src/database.py] and
    [src/indicators.py].  pandas objects live in a heap and are handled by
    reference, as Python does; [print] appends to a log; exceptions are an
    explicit outcome.  The behaviour of pandas, of Python name lookup and of
    the PostgreSQL table is written out in the modules [Pandas], [Python] and
    [Postgres]; the three source files are the modules [DataCleaner],
    [Database] and [Indicators]. *)

From Stdlib Require Import QArith Qround Qabs Qpower ZArith Lia Lqa.
From stdpp Require Import gmap strings list sorting.

Local Open Scope Z_scope.

(** ** Scalars *)

(** pandas.Timestamp without time zone: a day number and the nanosecond of
    the day, or NaT. *)
Inductive Timestamp :=
| NaT
| Stamp (day : Z) (ns : Z).

(** The Python objects found in a cell of a DataFrame or in an index.
    [VNum] is a float (or int), [VDec] a decimal.Decimal, [VNone] stands for
    None / NaN / pd.NA, [VDate] is a datetime.date (day number).  Numbers are
    exact rationals; the infinities are not modelled. *)
Inductive Cell :=
| VNone
| VNum (x : Q)
| VDec (x : Q)
| VStr (s : string)
| VTime (t : Timestamp)
| VDate (d : Z).

#[global] Instance Q_eq_dec : EqDecision Q.
Proof. solve_decision. Defined.
#[global] Instance Timestamp_eq_dec : EqDecision Timestamp.
Proof. solve_decision. Defined.
#[global] Instance Cell_eq_dec : EqDecision Cell.
Proof. solve_decision. Defined.

(** The string parsers of pandas are taken as given: [None] means that the
    text cannot be parsed.  [parse_numeric] returns the float read from the
    text. *)
Class Parsers := {
  parse_numeric : string → option Q;
  parse_datetime : string → option Timestamp;
  datetime_of_number : Q → option Timestamp
}.

(** ** IEEE 754 binary64, on the rationals (normal range) *)
Module Float.

Definition pow2 (e : Z) : Q := (2 ^ e)%Q.

Definition Qlt_bool (x y : Q) : bool := negb (Qle_bool y x).

(** Round to the nearest integer, ties to even. *)
Definition round_half_even (x : Q) : Z :=
  let f := Qfloor x in
  match Qcompare (x - inject_Z f) (1 # 2) with
  | Lt => f
  | Gt => f + 1
  | Eq => if Z.even f then f else f + 1
  end.

(** floor (log2 a), for a > 0. *)
Definition binade (a : Q) : Z :=
  let e := Z.log2 (Qnum a) - Z.log2 (Zpos (Qden a)) in
  if Qle_bool (pow2 e) a then e else e - 1.

(** 53 significant bits. *)
Definition round_pos (a : Q) : Q :=
  let u := pow2 (binade a - 52) in
  (inject_Z (round_half_even (a / u)) * u)%Q.

(** float(x) for a Decimal x: the nearest binary64 number. *)
Definition float64 (x : Q) : Q :=
  match Qcompare x 0 with
  | Eq => 0%Q
  | Gt => round_pos x
  | Lt => (- round_pos (- x))%Q
  end.

End Float.

(** ** DataFrames *)

Abbreviation Row := (gmap string Cell).

Inductive IndexClass := DatetimeIndex | RangeIndex | ObjectIndex.

(** A DataFrame: the class and name of its index, its column labels in
    order, and its rows, each with its index label.  A cell that a row does
    not hold reads as NaN. *)
Record DataFrame := mkDF {
  index_class : IndexClass;
  index_name : option string;
  columns : list string;
  rows : list (Cell * Row)
}.

Inductive Exn :=
| NameError (name : string)
| ValueError (msg : string)
| TypeError (msg : string)
| KeyError (key : string)
| SQLAlchemyError (msg : string).

Inductive Outcome (A : Type) :=
| Normal (a : A)
| Raised (e : Exn).
Arguments Normal {A} a.
Arguments Raised {A} e.

Module Pandas.
Section pandas.
Context `{Parsers}.

Definition inb (c : string) (cols : list string) : bool :=
  existsb (String.eqb c) cols.

Definition issubset (req cols : list string) : bool :=
  forallb (λ c, inb c cols) req.

(** [set(req) - set(cols)] *)
Definition difference (req cols : list string) : list string :=
  filter (λ c, inb c cols = false) req.

Definition cell (r : Row) (c : string) : Cell := default VNone (r !! c).

(** [df[c]] and [df.index], as the list of their values. *)
Definition column (d : DataFrame) (c : string) : list Cell :=
  (λ x, cell x.2 c) <$> rows d.
Definition index (d : DataFrame) : list Cell := fst <$> rows d.

(** [df.empty]: no row or no column. *)
Definition df_empty (d : DataFrame) : bool :=
  match rows d, columns d with
  | [], _ => true
  | _, [] => true
  | _, _ => false
  end.

Definition empty_frame : DataFrame := mkDF RangeIndex None [] [].

Definition add_column (c : string) (cols : list string) : list string :=
  if inb c cols then cols else cols ++ [c].

(** [df[c] = vals]: the values are set by position. *)
Definition setitem (c : string) (vals : list Cell) (d : DataFrame)
  : Outcome DataFrame :=
  if bool_decide (length vals = length (rows d)) then
    Normal (mkDF (index_class d) (index_name d) (add_column c (columns d))
              (zip_with (λ x v, (x.1, <[c := v]> x.2)) (rows d) vals))
  else Raised (ValueError "Length of values does not match length of index").

Definition is_time (c : Cell) : bool :=
  match c with VTime _ => true | _ => false end.

Definition class_of (labels : list Cell) : IndexClass :=
  if forallb is_time labels then DatetimeIndex else ObjectIndex.

(** [df.index = labels] *)
Definition set_index_labels (labels : list Cell) (d : DataFrame)
  : Outcome DataFrame :=
  if bool_decide (length labels = length (rows d)) then
    Normal (mkDF (class_of labels) (index_name d) (columns d)
              (zip_with (λ x v, (v, x.2)) (rows d) labels))
  else Raised (ValueError "Length mismatch").

(** [df.set_index(c, drop=False)] *)
Definition set_index (c : string) (d : DataFrame) : Outcome DataFrame :=
  if inb c (columns d) then
    Normal (mkDF (class_of (column d c)) (Some c) (columns d)
              ((λ x, (cell x.2 c, x.2)) <$> rows d))
  else Raised (KeyError c).

(** [pd.to_datetime] on one value; [None] when it raises. *)
Definition to_datetime_scalar (c : Cell) : option Timestamp :=
  match c with
  | VNone => Some NaT
  | VTime t => Some t
  | VDate d => Some (Stamp d 0)
  | VStr s => parse_datetime s
  | VNum x | VDec x => datetime_of_number x
  end.

Definition to_datetime (cs : list Cell) : Outcome (list Cell) :=
  match mapM to_datetime_scalar cs with
  | Some ts => Normal (VTime <$> ts)
  | None => Raised (ValueError "Unknown datetime string format")
  end.

(** [.dt.date] on one value. *)
Definition date_part (c : Cell) : Cell :=
  match c with
  | VTime (Stamp d _) => VDate d
  | _ => VTime NaT
  end.

(** [pd.to_numeric(..., errors='coerce')] on one value: the float, or
    [None] for NaN. *)
Definition to_numeric_scalar (c : Cell) : option Q :=
  match c with
  | VNum x => Some x
  | VDec x => Some (Float.float64 x)
  | VStr s => parse_numeric s
  | VNone | VTime _ | VDate _ => None
  end.

Definition to_numeric (cs : list Cell) : list Cell :=
  (λ c, from_option VNum VNone (to_numeric_scalar c)) <$> cs.

Definition isna (c : Cell) : bool :=
  match c with VNone | VTime NaT => true | _ => false end.

(** [df.dropna(subset=cols)] *)
Definition dropna (subset : list string) (d : DataFrame) : DataFrame :=
  mkDF (index_class d) (index_name d) (columns d)
    (filter (λ x, forallb (λ c, negb (isna (cell x.2 c))) subset = true)
       (rows d)).

(** Comparisons of float cells; a comparison with NaN is False. *)
Definition num_lt (a b : Cell) : bool :=
  match a, b with
  | VNum x, VNum y => Float.Qlt_bool x y
  | _, _ => false
  end.
Definition num_eq (a b : Cell) : bool :=
  match a, b with
  | VNum x, VNum y => Qeq_bool x y
  | _, _ => false
  end.

(** [df[c] = v] for a scalar [v] *)
Definition setitem_scalar (c : string) (v : Cell) (d : DataFrame)
  : Outcome DataFrame :=
  Normal (mkDF (index_class d) (index_name d) (add_column c (columns d))
            ((λ x, (x.1, <[c := v]> x.2)) <$> rows d)).

Definition isinstance_DatetimeIndex (d : DataFrame) : bool :=
  match index_class d with DatetimeIndex => true | _ => false end.

(** [df[mask]] *)
Definition where_ (mask : Row → bool) (d : DataFrame) : DataFrame :=
  mkDF (index_class d) (index_name d) (columns d)
    (filter (λ x, mask x.2 = true) (rows d)).

(** [df.reset_index()]: the index becomes a column, named after the index
    ("index", or "level_0" when "index" is taken, for an unnamed index);
    inserting a label that is already a column raises. *)
Definition reset_index (d : DataFrame) : Outcome DataFrame :=
  let name :=
    match index_name d with
    | Some n => n
    | None => if inb "index" (columns d) then "level_0" else "index"
    end in
  if inb name (columns d) then
    Raised (ValueError ("cannot insert " +:+ name +:+ ", already exists"))
  else
    Normal (mkDF RangeIndex None (name :: columns d)
              (imap (λ i x, (VNum (inject_Z (Z.of_nat i)), <[name := x.1]> x.2))
                 (rows d))).

(** [df[cols]] with a list of labels. *)
Definition select (cols : list string) (d : DataFrame) : Outcome DataFrame :=
  match filter (λ c, inb c (columns d) = false) cols with
  | [] =>
      Normal (mkDF (index_class d) (index_name d) cols
                ((λ x, (x.1, list_to_map ((λ c, (c, cell x.2 c)) <$> cols)))
                   <$> rows d))
  | c :: _ => Raised (KeyError c)
  end.

End pandas.
End Pandas.

(** ** The PostgreSQL table [ohlcv_data] *)
Module Postgres.

(** One stored row; the nullable columns hold [None] for NULL. *)
Record Record_ := mkRecord {
  ticker : string;
  date : Z;
  open : option Q;
  high : option Q;
  low : option Q;
  close : option Q;
  volume : option Q
}.

Record Database := mkDatabase {
  online : bool;
  ohlcv_data : list Record_
}.

Definition key (r : Record_) : string * Z := (ticker r, date r).

Definition round_half_away (x : Q) : Z :=
  if Qle_bool 0 x then Qfloor (x + (1 # 2)) else - Qfloor ((- x) + (1 # 2)).

(** A value written to a NUMERIC(precision, scale) column is rounded to the
    scale; [None] is the error "numeric field overflow". *)
Definition numeric (precision scale : Z) (x : Q) : option Q :=
  let n := round_half_away (x * inject_Z (10 ^ scale)) in
  if Z.abs n <? 10 ^ precision then
    Some (Qred (inject_Z n / inject_Z (10 ^ scale)))
  else None.

(** The bound parameter for a nullable NUMERIC column. *)
Definition numeric_param (precision scale : Z) (c : Cell) : option (option Q) :=
  match c with
  | VNone => Some None
  | VNum x | VDec x => Some <$> numeric precision scale x
  | _ => None
  end.

(** One dictionary of [data_to_insert] as a row of the table: [None] when
    the server rejects it (NOT NULL, VARCHAR(15), DATE, NUMERIC). *)
Definition row_of_dict (r : Row) : option Record_ :=
  t ← match Pandas.cell r "ticker" with
      | VStr s => if bool_decide (String.length s ≤ 15)%nat then Some s else None
      | _ => None
      end;
  d ← match Pandas.cell r "date" with
      | VDate d | VTime (Stamp d _) => Some d
      | _ => None
      end;
  o ← numeric_param 19 8 (Pandas.cell r "open");
  h ← numeric_param 19 8 (Pandas.cell r "high");
  l ← numeric_param 19 8 (Pandas.cell r "low");
  c ← numeric_param 19 8 (Pandas.cell r "close");
  v ← numeric_param 25 4 (Pandas.cell r "volume");
  Some (mkRecord t d o h l c v).

(** INSERT ... ON CONFLICT (ticker, date) DO UPDATE SET open =
    excluded.open, ..., volume = excluded.volume, for one proposed row. *)
Fixpoint upsert_row (new : Record_) (tbl : list Record_) : list Record_ :=
  match tbl with
  | [] => [new]
  | r :: tbl =>
      if bool_decide (key r = key new) then
        mkRecord (ticker r) (date r)
          (open new) (high new) (low new) (close new) (volume new) :: tbl
      else r :: upsert_row new tbl
  end.

(** The whole statement inside its transaction: all rows or none.  Two
    proposed rows with one key make the statement fail. *)
Definition execute_upsert (values : list Row) (db : Database)
  : Outcome Database :=
  if negb (online db) then Raised (SQLAlchemyError "OperationalError") else
  match mapM row_of_dict values with
  | None => Raised (SQLAlchemyError "DataError")
  | Some batch =>
      if bool_decide (NoDup (key <$> batch)) then
        Normal (mkDatabase (online db)
                  (foldl (λ tbl r, upsert_row r tbl) (ohlcv_data db) batch))
      else Raised (SQLAlchemyError "CardinalityViolation")
  end.

(** A SELECT on the table: its WHERE clauses and whether it has
    ORDER BY date. *)
Record Select := mkSelect {
  where_clauses : list (Record_ → bool);
  order_by_date : bool
}.

Definition date_le (a b : Record_) : Prop := date a ≤ date b.
#[global] Instance date_le_dec : RelDecision date_le :=
  λ a b, Z_le_dec (date a) (date b).

Definition execute_select (stmt : Select) (db : Database)
  : Outcome (list Record_) :=
  if negb (online db) then Raised (SQLAlchemyError "OperationalError") else
  let hits :=
    filter (λ r, forallb (λ p, p r) (where_clauses stmt) = true)
      (ohlcv_data db) in
  Normal (if order_by_date stmt then merge_sort date_le hits else hits).

End Postgres.

(** ** Python: heap of objects, output, exceptions *)

Inductive Msg :=
| CleanerNoData (ticker : string)
| CleanerCleaning (ticker : string) (n : nat)
| CleanerMissingColumns (ticker : string) (missing : list string)
| CleanerUsedIndex (ticker : string)
| CleanerNeedsDate (ticker : string)
| CleanerNoDatetimeIndex (ticker : string)
| CleanerDropped (ticker : string) (n : nat)
| CleanerBecameEmpty (ticker : string)
| CleanerHighLow (ticker : string) (n : nat)
| CleanerCloseOpen (ticker : string) (n_close n_open : nat)
| CleanerZeroVolume (ticker : string) (n : nat)
| CleanerNegative (ticker : string)
| CleanerFinished (ticker : string) (n : nat)
| CleanerDateLost (ticker : string)
| DbNoEngine
| DbNoData
| DbMissingColumns (missing : list string)
| DbNothingToInsert
| DbInserted (n : nat) (tickers : list Cell)
| DbError (e : Exn)
| DbUnexpected (e : Exn)
| DbFetched (n : nat) (ticker : string)
| IndicatorInvalid
| IndicatorShort (n : nat) (window : Z)
| IndicatorCalculated (window : Z).

Module Python.

Definition loc := positive.

(** The state a call runs in: the pandas objects by reference, what was
    printed, the module-level [engine] of database.py ([false] when
    [create_engine] failed and [engine] is None) and the database behind
    it. *)
Record World := mkWorld {
  heap : gmap loc DataFrame;
  stdout : list Msg;
  engine : bool;
  database : Postgres.Database
}.

Definition Py (A : Type) : Type := World → Outcome A * World.

#[export] Instance Py_ret : MRet Py := λ A a w, (Normal a, w).
#[export] Instance Py_bind : MBind Py := λ A B k c w,
  match c w with
  | (Normal a, w') => k a w'
  | (Raised e, w') => (Raised e, w')
  end.

Definition raise {A} (e : Exn) : Py A := λ w, (Raised e, w).

Definition lift {A} (o : Outcome A) : Py A := λ w, (o, w).

Definition print (m : Msg) : Py unit := λ w,
  (Normal (), mkWorld (heap w) (stdout w ++ [m]) (engine w) (database w)).

(** try: body / except <classes>: handler *)
Definition try_except {A} (body : Py A) (classes : Exn → bool)
    (handler : Exn → Py A) : Py A := λ w,
  match body w with
  | (Raised e, w') => if classes e then handler e w' else (Raised e, w')
  | r => r
  end.

Definition deref (l : loc) : Py DataFrame := λ w,
  match heap w !! l with
  | Some d => (Normal d, w)
  | None => (Raised (ValueError "dangling reference"), w)
  end.

Definition assign (l : loc) (d : DataFrame) : Py unit := λ w,
  (Normal (), mkWorld (<[l := d]> (heap w)) (stdout w) (engine w) (database w)).

(** A new object. *)
Definition new (d : DataFrame) : Py loc := λ w,
  let l := fresh (dom (heap w)) in
  (Normal l, mkWorld (<[l := d]> (heap w)) (stdout w) (engine w) (database w)).

(** An operation that changes the object in place. *)
Definition inplace (l : loc) (f : DataFrame → Outcome DataFrame) : Py unit :=
  d ← deref l; d' ← lift (f d); assign l d'.

(** An operation that returns a new object. *)
Definition fresh_from (l : loc) (f : DataFrame → Outcome DataFrame) : Py loc :=
  d ← deref l; d' ← lift (f d); new d'.

Fixpoint for_each {A} (xs : list A) (body : A → Py unit) : Py unit :=
  match xs with
  | [] => mret ()
  | x :: xs => body x;; for_each xs body
  end.

(** Evaluation of a global name of a module: NameError when the module
    does not bind it. *)
Definition load_global (globals : list string) (name : string) : Py unit :=
  if Pandas.inb name globals then mret () else raise (NameError name).

Definition except_Exception (e : Exn) : bool := true.

(** [wp c Q w]: the run of [c] from [w] ends in an outcome and a world
    that satisfy [Q]. *)
Definition wp {A} (c : Py A) (Q : Outcome A → World → Prop) (w : World)
  : Prop := Q (c w).1 (c w).2.

End Python.

(** ** src/data_cleaner.py *)
Module DataCleaner.
Section data_cleaner.
Context `{Parsers}.
Import Python Pandas.

(** The names the module binds: [import pandas as pd], [import numpy as
    np] and its one function. *)
Definition globals : list string := ["pd"; "np"; "clean_ohlcv_data"].
Definition pd : Py unit := load_global globals "pd".

Definition required_cols : list string :=
  ["open"; "high"; "low"; "close"; "volume"].
Definition final_cols : list string :=
  ["ticker"; "date"; "open"; "high"; "low"; "close"; "volume"].

Definition except_TypeError_ValueError (e : Exn) : bool :=
  match e with TypeError _ | ValueError _ => true | _ => false end.

Definition when (b : bool) (c : Py unit) : Py unit :=
  if b then c else mret ().

Definition clean_ohlcv_data (df : option loc) (ticker : string)
  : Py (option loc) :=
  match df with
  | None => print (CleanerNoData ticker);; mret None
  | Some df =>
  d ← deref df;
  if df_empty d then print (CleanerNoData ticker);; mret None else
  print (CleanerCleaning ticker (length (rows d)));;
  df_cleaned ← fresh_from df Normal;
  d ← deref df_cleaned;
  if negb (issubset required_cols (columns d)) then
    print (CleanerMissingColumns ticker (difference required_cols (columns d)));;
    mret None
  else
  (* 1. the index *)
  indexed ←
    (pd;;
     if isinstance_DatetimeIndex d then
       inplace df_cleaned (setitem "date" (index d));;
       mret (Some df_cleaned)
     else if inb "date" (columns d) then
       pd;;
       dates ← lift (to_datetime (column d "date"));
       inplace df_cleaned (setitem "date" dates);;
       df_cleaned ← fresh_from df_cleaned (set_index "date");
       mret (Some df_cleaned)
     else
       try_except
         (pd;;
          labels ← lift (to_datetime (index d));
          inplace df_cleaned (set_index_labels labels);;
          d ← deref df_cleaned;
          inplace df_cleaned (setitem "date" (index d));;
          print (CleanerUsedIndex ticker);;
          mret (Some df_cleaned))
         except_TypeError_ValueError
         (λ _, print (CleanerNeedsDate ticker);; mret None));
  match indexed with
  | None => mret None
  | Some df_cleaned =>
  pd;;
  d ← deref df_cleaned;
  if negb (isinstance_DatetimeIndex d) then
    print (CleanerNoDatetimeIndex ticker);; mret None
  else
  (* 2. numeric columns *)
  for_each required_cols (λ col,
    pd;;
    d ← deref df_cleaned;
    inplace df_cleaned (setitem col (to_numeric (column d col))));;
  (* 3. missing values *)
  d ← deref df_cleaned;
  let initial_rows := length (rows d) in
  inplace df_cleaned (λ d, Normal (dropna required_cols d));;
  d ← deref df_cleaned;
  let rows_dropped := (initial_rows - length (rows d))%nat in
  when (bool_decide (0 < rows_dropped)%nat)
    (print (CleanerDropped ticker rows_dropped));;
  if df_empty d then print (CleanerBecameEmpty ticker);; mret None else
  (* 4. validation *)
  let invalid_hl := where_ (λ r, num_lt (cell r "high") (cell r "low")) d in
  when (negb (df_empty invalid_hl))
    (print (CleanerHighLow ticker (length (rows invalid_hl))));;
  let invalid_c :=
    where_ (λ r, num_lt (cell r "high") (cell r "close")
                 || num_lt (cell r "close") (cell r "low")) d in
  let invalid_o :=
    where_ (λ r, num_lt (cell r "high") (cell r "open")
                 || num_lt (cell r "open") (cell r "low")) d in
  when (negb (df_empty invalid_c) || negb (df_empty invalid_o))
    (print (CleanerCloseOpen ticker (length (rows invalid_c))
              (length (rows invalid_o))));;
  let zero_vol := where_ (λ r, num_eq (cell r "volume") (VNum 0)) d in
  when (negb (df_empty zero_vol))
    (print (CleanerZeroVolume ticker (length (rows zero_vol))));;
  when (existsb (λ col,
          existsb (λ x, num_lt (cell x.2 col) (VNum 0)) (rows d))
          required_cols)
    (print (CleanerNegative ticker));;
  print (CleanerFinished ticker (length (rows d)));;
  (* the shape for insertion *)
  pd;;
  when (isinstance_DatetimeIndex d) (inplace df_cleaned reset_index);;
  d ← deref df_cleaned;
  if negb (inb "date" (columns d)) then
    print (CleanerDateLost ticker);; mret None
  else
  pd;;
  dates ← lift (to_datetime (column d "date"));
  inplace df_cleaned (setitem "date" (date_part <$> dates));;
  inplace df_cleaned (setitem_scalar "ticker" (VStr ticker));;
  result ← fresh_from df_cleaned (select final_cols);
  mret (Some result)
  end
  end.

End data_cleaner.
End DataCleaner.

(** ** src/database.py *)
Module Database.
Section database.
Context `{Parsers}.
Import Python Pandas.

(** The names the module binds: its imports (sqlalchemy, [pandas as pd],
    [DATABASE_URI]) and its top-level definitions. *)
Definition globals : list string :=
  ["create_engine"; "MetaData"; "Table"; "Column"; "String"; "Date";
   "Numeric"; "PrimaryKeyConstraint"; "Index"; "pg_insert";
   "SQLAlchemyError"; "pd"; "DATABASE_URI"; "engine"; "metadata";
   "ohlcv_table"; "create_db_tables"; "insert_ohlcv_data";
   "fetch_ohlcv_data"].
Definition pd : Py unit := load_global globals "pd".
Definition np : Py unit := load_global globals "np".

Definition required_cols : list string :=
  ["ticker"; "date"; "open"; "high"; "low"; "close"; "volume"].
Definition numeric_cols : list string :=
  ["open"; "high"; "low"; "close"; "volume"].

Definition get_engine : Py bool := λ w, (Normal (engine w), w).

(** with engine.connect() as connection: with connection.begin():
    connection.execute(stmt) *)
Definition execute (stmt : Postgres.Database → Outcome Postgres.Database)
  : Py unit := λ w,
  match stmt (database w) with
  | Normal db => (Normal (), mkWorld (heap w) (stdout w) (engine w) db)
  | Raised e => (Raised e, w)
  end.

Definition is_SQLAlchemyError (e : Exn) : bool :=
  match e with SQLAlchemyError _ => true | _ => false end.

(** except SQLAlchemyError as e: ... except Exception as e: ... *)
Definition report (e : Exn) : Msg :=
  if is_SQLAlchemyError e then DbError e else DbUnexpected e.

(** [.replace({pd.NA: None, np.nan: None})]: every missing value is
    [VNone] already. *)
Definition replace_na (d : DataFrame) : Outcome DataFrame := Normal d.

Definition insert_ohlcv_data (df : option loc) : Py unit :=
  eng ← get_engine;
  if negb eng then print DbNoEngine else
  match df with
  | None => print DbNoData
  | Some df =>
  d ← deref df;
  if df_empty d then print DbNoData else
  if negb (issubset required_cols (columns d)) then
    print (DbMissingColumns (difference required_cols (columns d)))
  else
  df_copy ← fresh_from df Normal;
  pd;;
  d ← deref df_copy;
  dates ← lift (to_datetime (column d "date"));
  inplace df_copy (setitem "date" (date_part <$> dates));;
  selected ← fresh_from df_copy (select required_cols);
  pd;;
  np;;
  replaced ← fresh_from selected replace_na;
  d ← deref replaced;
  let data_to_insert := snd <$> rows d in
  match data_to_insert with
  | [] => print DbNothingToInsert
  | _ =>
  try_except
    (execute (Postgres.execute_upsert data_to_insert);;
     d ← deref df;
     print (DbInserted (length data_to_insert)
              (remove_dups (column d "ticker"))))
    except_Exception
    (λ e, print (report e))
  end
  end.

(** Truth value of an argument in [if start_date:]. *)
Definition truthy (c : Cell) : bool :=
  match c with
  | VNone => false
  | VStr s => negb (String.eqb s "")
  | VNum x | VDec x => negb (Qeq_bool x 0)
  | VTime _ | VDate _ => true
  end.

(** [pd.to_datetime(x).date()] *)
Definition to_date (c : Cell) : Py Z :=
  pd;;
  match to_datetime_scalar c with
  | Some (Stamp d _) => mret d
  | Some NaT => raise (TypeError "NaT is not a date")
  | None => raise (ValueError "Unknown datetime string format")
  end.

Definition where_ (p : Postgres.Record_ → bool) (stmt : Postgres.Select)
  : Postgres.Select :=
  Postgres.mkSelect (Postgres.where_clauses stmt ++ [p])
    (Postgres.order_by_date stmt).

Definition order_by_date (stmt : Postgres.Select) : Postgres.Select :=
  Postgres.mkSelect (Postgres.where_clauses stmt) true.

Definition float_cell (x : option Q) : Cell :=
  from_option (λ v, VNum (Float.float64 v)) VNone x.

(** The frame [pd.read_sql(stmt, connection, index_col='date',
    parse_dates=['date'])] builds from the rows of the result; with the
    default [coerce_float=True] the Decimal values arrive as floats. *)
Definition frame_of_result (rs : list Postgres.Record_) : DataFrame :=
  mkDF DatetimeIndex (Some "date")
    ["ticker"; "open"; "high"; "low"; "close"; "volume"]
    ((λ r, (VTime (Stamp (Postgres.date r) 0),
            list_to_map
              [("ticker", VStr (Postgres.ticker r));
               ("open", float_cell (Postgres.open r));
               ("high", float_cell (Postgres.high r));
               ("low", float_cell (Postgres.low r));
               ("close", float_cell (Postgres.close r));
               ("volume", float_cell (Postgres.volume r))] : Row)) <$> rs).

Definition read_sql (stmt : Postgres.Select) : Py loc := λ w,
  match Postgres.execute_select stmt (database w) with
  | Normal rs => new (frame_of_result rs) w
  | Raised e => (Raised e, w)
  end.

Definition fetch_ohlcv_data (ticker : string) (start_date end_date : Cell)
  : Py loc :=
  eng ← get_engine;
  if negb eng then print DbNoEngine;; pd;; new empty_frame else
  let stmt :=
    Postgres.mkSelect
      [λ r, bool_decide (Postgres.ticker r = ticker)] false in
  stmt ← (if truthy start_date then
            d ← to_date start_date;
            mret (where_ (λ r, bool_decide (d ≤ Postgres.date r)) stmt)
          else mret stmt);
  stmt ← (if truthy end_date then
            d ← to_date end_date;
            mret (where_ (λ r, bool_decide (Postgres.date r ≤ d)) stmt)
          else mret stmt);
  let stmt := order_by_date stmt in
  try_except
    (pd;;
     df ← read_sql stmt;
     for_each numeric_cols (λ col,
       d ← deref df;
       DataCleaner.when (inb col (columns d))
         (pd;; inplace df (setitem col (to_numeric (column d col)))));;
     d ← deref df;
     print (DbFetched (length (rows d)) ticker);;
     mret df)
    except_Exception
    (λ e, print (report e);; pd;; new empty_frame).

End database.
End Database.

(** ** src/indicators.py *)
Module Indicators.
Import Python.

(** The names the module binds. *)
Definition globals : list string := ["pd"; "calculate_sma"].
Definition pd : Py unit := load_global globals "pd".

(** A float Series: index labels and values, [None] for NaN.  The
    arithmetic on the values is exact. *)
Abbreviation Series := (list (Cell * option Q)).

Definition Qsum (xs : list Q) : Q := foldr Qplus 0%Q xs.

Definition mean (xs : list Q) : Q :=
  (Qsum xs / inject_Z (Z.of_nat (length xs)))%Q.

(** [s.rolling(window=w, min_periods=m).mean()]: at each position the
    mean of the observations among the last [w] values, NaN when there
    are fewer than [m] of them. *)
Definition rolling_mean (w m : nat) (s : Series) : Series :=
  imap (λ i x,
          let obs := omap id (drop (S i - w) (take (S i) (snd <$> s))) in
          (x.1, if bool_decide (m ≤ length obs)%nat then Some (mean obs)
                else None)) s.

Definition calculate_sma (data_series : option Series) (window : Z)
  : Py Series :=
  match data_series with
  | None => print IndicatorInvalid;; pd;; mret []
  | Some data_series =>
  if bool_decide (data_series = []) || (window <=? 0) then
    print IndicatorInvalid;; pd;; mret []
  else
  if Z.of_nat (length data_series) <? window then
    print (IndicatorShort (length data_series) window);;
    pd;;
    mret ((λ x, (x.1, None)) <$> data_series)
  else
  try_except
    (let sma :=
       rolling_mean (Z.to_nat window) (Z.to_nat window) data_series in
     print (IndicatorCalculated window);;
     mret sma)
    except_Exception
    (λ e, print IndicatorInvalid;; pd;; mret [])
  end.

End Indicators.

(** ** What the cleaner computes, row by row

    These definitions state the result of [clean_ohlcv_data] in terms of
    the rows of its input; the theorems below relate them to the code. *)
Module CleanerSpec.
Section cleaner_spec.
Context `{Parsers}.
Import Pandas.

(** The cell after numeric coercion: a float, or NaN. *)
Definition numeric_cell (r : Row) (c : string) : Cell :=
  from_option VNum VNone (to_numeric_scalar (cell r c)).

(** All five OHLCV cells of the row parse as numbers. *)
Definition complete (r : Row) : bool :=
  forallb (λ c, bool_decide (is_Some (to_numeric_scalar (cell r c))))
    DataCleaner.required_cols.

(** The calendar date of an index label. *)
Definition date_key (label : Cell) : Cell :=
  match to_datetime_scalar label with
  | Some t => date_part (VTime t)
  | None => VTime NaT
  end.

(** The canonical row made from an input row and its index label. *)
Definition canonical (ticker : string) (x : Cell * Row) : Row :=
  list_to_map
    [("ticker", VStr ticker); ("date", date_key x.1);
     ("open", numeric_cell x.2 "open"); ("high", numeric_cell x.2 "high");
     ("low", numeric_cell x.2 "low"); ("close", numeric_cell x.2 "close");
     ("volume", numeric_cell x.2 "volume")].

Definition kept (d : DataFrame) : list (Cell * Row) :=
  filter (λ x, complete x.2 = true) (rows d).

Definition cleaned (ticker : string) (d : DataFrame) : DataFrame :=
  mkDF RangeIndex None DataCleaner.final_cols
    (imap (λ i x, (VNum (inject_Z (Z.of_nat i)), canonical ticker x))
       (kept d)).

(** The anomalies, on the coerced cells of an input row. *)
Definition high_below_low (r : Row) : bool :=
  num_lt (numeric_cell r "high") (numeric_cell r "low").
Definition outside (c : string) (r : Row) : bool :=
  num_lt (numeric_cell r "high") (numeric_cell r c)
  || num_lt (numeric_cell r c) (numeric_cell r "low").
Definition zero_volume (r : Row) : bool :=
  num_eq (numeric_cell r "volume") (VNum 0).
Definition negative (r : Row) : bool :=
  existsb (λ c, num_lt (numeric_cell r c) (VNum 0)) DataCleaner.required_cols.

Definition count (p : Row → bool) (xs : list (Cell * Row)) : nat :=
  length (filter (λ x, p x.2 = true) xs).

Definition report_if (b : bool) (m : Msg) : list Msg :=
  if b then [m] else [].

(** What a run that returns a table prints. *)
Definition cleaner_log (ticker : string) (d : DataFrame) : list Msg :=
  let k := kept d in
  [CleanerCleaning ticker (length (rows d))]
  ++ report_if (negb (isinstance_DatetimeIndex d)) (CleanerUsedIndex ticker)
  ++ report_if (bool_decide (0 < length (rows d) - length k)%nat)
       (CleanerDropped ticker (length (rows d) - length k))
  ++ report_if (bool_decide (0 < count high_below_low k)%nat)
       (CleanerHighLow ticker (count high_below_low k))
  ++ report_if (bool_decide (0 < count (outside "close") k)%nat
                || bool_decide (0 < count (outside "open") k)%nat)
       (CleanerCloseOpen ticker (count (outside "close") k)
          (count (outside "open") k))
  ++ report_if (bool_decide (0 < count zero_volume k)%nat)
       (CleanerZeroVolume ticker (count zero_volume k))
  ++ report_if (existsb (λ x, negative x.2) k) (CleanerNegative ticker)
  ++ [CleanerFinished ticker (length k)].

(** The dates of a cleaned table. *)
Definition dates (d : DataFrame) : list Cell := column d "date".

(** The label under which [reset_index] inserts the index of the frame,
    once the cleaner has added the date column. *)
Definition reset_name (d : DataFrame) : string :=
  match index_name d with
  | Some n => n
  | None =>
      if inb "index" (add_column "date" (columns d)) then "level_0"
      else "index"
  end.

(** The timestamp [pd.to_datetime] gives for a value, NaT when it raises. *)
Definition stamp (c : Cell) : Timestamp := default NaT (to_datetime_scalar c).

(** The row after the five numeric coercions (lines 56-57). *)
Definition coerce (r : Row) : Row :=
  <["volume" := numeric_cell r "volume"]>
    (<["close" := numeric_cell r "close"]>
       (<["low" := numeric_cell r "low"]>
          (<["high" := numeric_cell r "high"]>
             (<["open" := numeric_cell r "open"]> r)))).

Definition clean_post (h : gmap Python.loc DataFrame) (out : list Msg) (e : bool)
    (db : Postgres.Database) (t : string) (d : DataFrame)
    (o : Outcome (option Python.loc)) (w' : Python.World) : Prop :=
  h ⊆ Python.heap w' ∧ Python.engine w' = e ∧ Python.database w' = db ∧
  ∀ l', o = Normal (Some l') →
    h !! l' = None ∧ Python.heap w' !! l' = Some (cleaned t d) ∧
    Python.stdout w' = out ++ cleaner_log t d ∧ kept d ≠ [] ∧
    inb (reset_name d) (add_column "date" (columns d)) = false ∧
    (isinstance_DatetimeIndex d = true ∨ inb "date" (columns d) = false).

(** What holds once the index has been settled (lines 32-46). *)
Definition indexed_post (h : gmap Python.loc DataFrame) (out : list Msg) (e : bool)
    (db : Postgres.Database) (t : string) (d : DataFrame)
    (o : Outcome (option Python.loc)) (w1 : Python.World) : Prop :=
  h ⊆ Python.heap w1 ∧ Python.engine w1 = e ∧ Python.database w1 = db ∧
  ∀ l1, o = Normal (Some l1) →
    h !! l1 = None ∧
    ∃ d1, Python.heap w1 !! l1 = Some d1 ∧
      issubset DataCleaner.required_cols (columns d1) = true ∧
      inb "date" (columns d1) = true ∧
      (index_name d1 = Some "date" ∨
       (index_name d1 = index_name d ∧
        columns d1 = add_column "date" (columns d) ∧
        (isinstance_DatetimeIndex d = true ∨ inb "date" (columns d) = false) ∧
        Python.stdout w1 = out ++ [CleanerCleaning t (length (rows d))]
                    ++ report_if (negb (isinstance_DatetimeIndex d))
                         (CleanerUsedIndex t) ∧
        ∃ lab : Cell → Cell,
          rows d1 = (λ x, (lab x.1, <["date" := lab x.1]> x.2)) <$> rows d ∧
          ∀ c, date_part (VTime (stamp (lab c))) = date_key c)).

End cleaner_spec.
End CleanerSpec.

(** ** What the read path returns *)
Module DatabaseSpec.

(** An optional bound passed as a date. *)
Definition date_arg (bound : option Z) : Cell :=
  match bound with
  | Some d => VDate d
  | None => VNone
  end.

(** The bound an argument of [fetch_ohlcv_data] stands for: no bound for
    None and for the empty string, the date of the argument otherwise;
    [None] when the argument is not a date. *)
Definition bound `{Parsers} (arg : Cell) : option (option Z) :=
  if Database.truthy arg then
    match Pandas.to_datetime_scalar arg with
    | Some (Stamp d _) => Some (Some d)
    | _ => None
    end
  else Some None.

(** The record is of the ticker and its date lies within the bounds. *)
Definition in_range (t : string) (lo hi : option Z) (r : Postgres.Record_)
  : bool :=
  bool_decide (Postgres.ticker r = t)
  && from_option (λ d, bool_decide (d ≤ Postgres.date r)) true lo
  && from_option (λ d, bool_decide (Postgres.date r ≤ d)) true hi.

(** The rows the statement of [fetch_ohlcv_data] selects. *)
Definition selected (t : string) (lo hi : option Z)
    (db : Postgres.Database) : list Postgres.Record_ :=
  merge_sort Postgres.date_le
    (filter (λ r, in_range t lo hi r = true) (Postgres.ohlcv_data db)).

Definition numeric_fields (r : Postgres.Record_) : list (string * option Q) :=
  [("open", Postgres.open r); ("high", Postgres.high r);
   ("low", Postgres.low r); ("close", Postgres.close r);
   ("volume", Postgres.volume r)].

End DatabaseSpec.

(** ** Concrete inputs *)
Module Examples.
Import Python Pandas.

(** A small instance of the parsers: unsigned decimal integers are
    numbers, no text is a date. *)
Fixpoint digits (s : string) (acc : Z) : option Z :=
  match s with
  | EmptyString => Some acc
  | String a s =>
      let n := Z.of_N (Ascii.N_of_ascii a) - 48 in
      if (0 <=? n) && (n <=? 9) then digits s (10 * acc + n) else None
  end.

#[export] Instance parsers : Parsers := {|
  parse_numeric := λ s,
    match s with
    | EmptyString => None
    | _ => inject_Z <$> digits s 0
    end;
  parse_datetime := λ _, None;
  datetime_of_number := λ _, None
|}.

Definition ohlcv (o h l c v : Cell) : Row :=
  list_to_map
    [("open", o); ("high", h); ("low", l); ("close", c); ("volume", v)].

Definition columns5 : list string :=
  ["open"; "high"; "low"; "close"; "volume"].

(** 2024-01-01 and 2024-01-02 as day numbers. *)
Definition jan1 : Z := 19723.
Definition jan2 : Z := 19724.

(** The scenario of the specification: the close of the first row does not
    parse. *)
Definition raw : DataFrame :=
  mkDF DatetimeIndex None columns5
    [(VTime (Stamp jan1 0),
      ohlcv (VNum 100) (VNum 105) (VNum 99) (VStr "bad") (VNum 1000));
     (VTime (Stamp jan2 0),
      ohlcv (VNum 101) (VNum 106) (VNum 100) (VNum 104) (VNum 1200))].


Definition no_database : Postgres.Database := Postgres.mkDatabase true [].

Definition world_with (d : DataFrame) (db : Postgres.Database) : World :=
  mkWorld {[ 1%positive := d ]} [] true db.

Definition canonical_row (close : Q) : Row :=
  list_to_map
    [("ticker", VStr "TST"); ("date", VDate jan2); ("open", VNum 101);
     ("high", VNum 106); ("low", VNum 100); ("close", VNum close);
     ("volume", VNum 1200)].

(** A canonical table of one record, as the cleaner returns it. *)
Definition canonical_table (close : Q) : DataFrame :=
  mkDF RangeIndex None DataCleaner.final_cols [(VNum 0, canonical_row close)].

Definition stored (close : Q) : Postgres.Record_ :=
  Postgres.mkRecord "TST" jan2 (Some 101%Q) (Some 106%Q) (Some 100%Q)
    (Some close) (Some 1200%Q).

(** The table holds the record with close 104; the frame to write has
    close 110. *)
Definition w_update : World :=
  world_with (canonical_table 110) (Postgres.mkDatabase true [stored 104]).

(** A first write into an empty table. *)
Definition w_insert : World := world_with (canonical_table 104) no_database.

(** A stored price that is not a binary fraction. *)
Definition w_tenth : World :=
  mkWorld ∅ [] true (Postgres.mkDatabase true [stored (1 # 10)]).

Definition samples : list (Cell * option Q) :=
  [(VDate jan1, Some 1%Q); (VDate jan2, Some 2%Q);
   (VDate (jan2 + 1), Some 4%Q)].

Definition w_raw : World := world_with raw no_database.
Definition w_raw' : World :=
  (DataCleaner.clean_ohlcv_data (Some 1%positive) "TST" w_raw).2.


End Examples.

(** * The rest of the program

    The exits of the cleaner as a function of its input, the fetcher
    [src/fetchers.py], table creation in [src/database.py], and the two
    scripts [scripts/run_fetch_and_store.py] and [scripts/run_visualize.py],
    which print to the console themselves and call the functions above. *)

(** ** The outcomes of the cleaner

    Which of its exits a run of [clean_ohlcv_data] takes, and what it has
    printed by then, read off the frame it is given. *)
Module CleanerCases.
Section cleaner_cases.
Context `{Parsers}.
Import Pandas CleanerSpec.

(** A frame as pandas builds it: the labels of a DatetimeIndex are
    timestamps. *)
Definition well_formed (d : DataFrame) : bool :=
  negb (isinstance_DatetimeIndex d) || forallb is_time (index d).

(** Where the dates come from (lines 32-46): the DatetimeIndex, the "date"
    column, or the labels of another index. *)
Inductive DateSource := FromIndex | FromColumn | FromLabels.

Definition date_source (d : DataFrame) : DateSource :=
  if isinstance_DatetimeIndex d then FromIndex
  else if inb "date" (columns d) then FromColumn
  else FromLabels.

(** The values that lines 37 and 41 hand to [pd.to_datetime]. *)
Definition date_values (d : DataFrame) : list Cell :=
  match date_source d with
  | FromIndex => []
  | FromColumn => column d "date"
  | FromLabels => index d
  end.

(** The label under which [reset_index] (line 99) inserts the index, and
    whether a column has it already. *)
Definition insert_label (d : DataFrame) : string :=
  match date_source d with
  | FromColumn => "date"
  | _ => reset_name d
  end.

Definition label_clash (d : DataFrame) : bool :=
  inb (insert_label d) (add_column "date" (columns d)).

(** The index label that the row gets in lines 35-42. *)
Definition date_label (d : DataFrame) (x : Cell * Row) : Cell :=
  match date_source d with
  | FromIndex => x.1
  | FromColumn => VTime (stamp (cell x.2 "date"))
  | FromLabels => VTime (stamp x.1)
  end.

(** The reports of lines 64-65 and 73-91. *)
Definition dropped_report (ticker : string) (d : DataFrame) : list Msg :=
  report_if (bool_decide (0 < length (rows d) - length (kept d))%nat)
    (CleanerDropped ticker (length (rows d) - length (kept d))).

Definition anomaly_reports (ticker : string) (d : DataFrame) : list Msg :=
  let k := kept d in
  report_if (bool_decide (0 < count high_below_low k)%nat)
    (CleanerHighLow ticker (count high_below_low k))
  ++ report_if (bool_decide (0 < count (outside "close") k)%nat
                || bool_decide (0 < count (outside "open") k)%nat)
       (CleanerCloseOpen ticker (count (outside "close") k)
          (count (outside "open") k))
  ++ report_if (bool_decide (0 < count zero_volume k)%nat)
       (CleanerZeroVolume ticker (count zero_volume k))
  ++ report_if (existsb (λ x, negative x.2) k) (CleanerNegative ticker).

Inductive Exit :=
| NoData
| MissingColumns
| DatesRaise (e : Exn)
| NeedsDate
| BecameEmpty
| ResetRaises
| ReturnsTable.

(** The exit a run on the frame takes. *)
Definition exit_of (d : DataFrame) : Exit :=
  if df_empty d then NoData else
  if negb (issubset DataCleaner.required_cols (columns d)) then MissingColumns
  else
  match to_datetime (date_values d) with
  | Raised e =>
      match date_source d with FromColumn => DatesRaise e | _ => NeedsDate end
  | Normal _ =>
      if bool_decide (kept d = []) then BecameEmpty
      else if label_clash d then ResetRaises
      else ReturnsTable
  end.

(** What the run has printed when it takes that exit. *)
Definition log_of (ticker : string) (d : DataFrame) : list Msg :=
  let start := [CleanerCleaning ticker (length (rows d))] in
  let used :=
    match date_source d with
    | FromLabels => [CleanerUsedIndex ticker]
    | _ => []
    end in
  match exit_of d with
  | NoData => [CleanerNoData ticker]
  | MissingColumns =>
      start ++ [CleanerMissingColumns ticker
                  (difference DataCleaner.required_cols (columns d))]
  | DatesRaise _ => start
  | NeedsDate => start ++ [CleanerNeedsDate ticker]
  | BecameEmpty =>
      start ++ used ++ dropped_report ticker d ++ [CleanerBecameEmpty ticker]
  | ResetRaises | ReturnsTable =>
      start ++ used ++ dropped_report ticker d ++ anomaly_reports ticker d
      ++ [CleanerFinished ticker (length (kept d))]
  end.

(** The outcome of the call for each exit; [l'] is the table returned. *)
Definition outcome_is (d : DataFrame) (o : Outcome (option Python.loc))
    (l' : option Python.loc) : Prop :=
  match exit_of d with
  | NoData | MissingColumns | NeedsDate | BecameEmpty =>
      o = Normal None ∧ l' = None
  | DatesRaise e => o = Raised e ∧ l' = None
  | ResetRaises =>
      o = Raised (ValueError ("cannot insert " +:+ insert_label d
                              +:+ ", already exists"))
      ∧ l' = None
  | ReturnsTable => ∃ l, o = Normal (Some l) ∧ l' = Some l
  end.

(** The reports of the exits at lines 49-52 and 102-104. *)
Definition unreachable_report (m : Msg) : bool :=
  match m with
  | CleanerNoDatetimeIndex _ | CleanerDateLost _ => true
  | _ => false
  end.

End cleaner_cases.
End CleanerCases.

(** ** The exits of the read path *)
Module DatabaseCases.

(** The exception of [pd.to_datetime(x).date()] (lines 127 and 129) for an
    argument that is not a date. *)
Definition bound_error `{Parsers} (arg : Cell) : Exn :=
  match Pandas.to_datetime_scalar arg with
  | Some _ => TypeError "NaT is not a date"
  | None => ValueError "Unknown datetime string format"
  end.

End DatabaseCases.

(** ** The process that runs a script

    The scripts and the functions they call besides the three modules
    above print lines of their own.  [Line] is what the console of the
    process shows: a line of the modules above, or one of these.  [Sc] is
    the monad of the scripts: the world of Python and the console. *)
Module Process.
Import Python.

Inductive Line :=
| Logged (m : Msg)
| DbCreateNoEngine
| DbCreateAttempt
| DbCreateDone
| DbCreateError (e : Exn)
| DbCreateUnexpected (e : Exn)
| FetcherFetching (ticker : string) (start_date end_date : Cell)
| FetcherNoData (ticker : string)
| FetcherFetched (n : nat) (ticker : string)
| FetcherError (ticker : string) (e : Exn)
| StoreBanner
| StoreHalting
| StoreTickers (tickers : list string)
| StoreDateRange (start_date end_date : Cell)
| StoreProcessing (ticker : string)
| StoreCleaningFailed (ticker : string)
| StoreFetchFailed (ticker : string)
| StoreUnexpected (ticker : string) (e : Exn)
| StoreFinished (ticker : string) (success : bool)
| StoreSummary (processed successful failed : nat)
| VisualizeBanner (ticker : string)
| VisualizeDateRange (start_date end_date : Cell)
| VisualizeNoData (ticker : string)
| VisualizeComplete.

Record State := mkState {
  world : World;
  console : list Line
}.

Definition Sc (A : Type) : Type := State → Outcome A * State.

#[export] Instance Sc_ret : MRet Sc := λ A a s, (Normal a, s).
#[export] Instance Sc_bind : MBind Sc := λ A B k c s,
  match c s with
  | (Normal a, s') => k a s'
  | (Raised e, s') => (Raised e, s')
  end.

(** [print] in the scripts, [fetchers.py] and [create_db_tables]. *)
Definition echo (l : Line) : Sc unit := λ s,
  (Normal (), mkState (world s) (console s ++ [l])).

(** A step of the code above: what it prints goes to the console. *)
Definition call {A} (c : Py A) : Sc A := λ s,
  let r := c (world s) in
  (r.1,
   mkState r.2
     (console s
      ++ (Logged <$> drop (length (stdout (world s))) (stdout r.2)))).

(** try: body / except <classes>: handler *)
Definition try_except {A} (body : Sc A) (classes : Exn → bool)
    (handler : Exn → Sc A) : Sc A := λ s,
  match body s with
  | (Raised e, s') => if classes e then handler e s' else (Raised e, s')
  | r => r
  end.

(** How a script ends: it runs to its last line, or [sys.exit(code)]. *)
Inductive Status := Completed | SystemExit (code : Z).

(** [holds c Q s]: the run of [c] from [s] ends in an outcome and a state
    that satisfy [Q]. *)
Definition holds {A} (c : Sc A) (Q : Outcome A → State → Prop) (s : State)
  : Prop := Q (c s).1 (c s).2.

(** The lines printed since the console was [before]. *)
Definition printed (before : list Line) (s : State) : list Line :=
  drop (length before) (console s).

End Process.

(** ** src/database.py: [create_db_tables] *)
Module DatabaseSetup.
Import Python Process.

(** [metadata.create_all(engine)]: CREATE TABLE is issued for the tables
    that do not exist.  The table [ohlcv_data] of the model is there from
    the start (empty, before any write), so a reachable database is left
    as it is. *)
Definition create_all (db : Postgres.Database) : Outcome Postgres.Database :=
  if negb (Postgres.online db) then Raised (SQLAlchemyError "OperationalError")
  else Normal db.

(** [engine] and [metadata] are set together (lines 11-18). *)
Definition create_db_tables : Sc bool :=
  eng ← call Database.get_engine;
  if negb eng then echo DbCreateNoEngine;; mret false else
  try_except
    (echo DbCreateAttempt;;
     call (Database.execute create_all);;
     echo DbCreateDone;;
     mret true)
    except_Exception
    (λ e, echo (if Database.is_SQLAlchemyError e then DbCreateError e
                else DbCreateUnexpected e);;
          mret false).

End DatabaseSetup.

(** ** src/fetchers.py *)
Module Fetchers.
Section fetchers.
Context `{Parsers}.
Import Python Pandas Process.

(** [yf.Ticker(ticker).history(start=..., end=..., interval='1d',
    auto_adjust=True)]: the answer of the service, a frame or an
    exception. *)
Context (history : string → Cell → Timestamp → Outcome DataFrame).

Definition globals : list string :=
  ["yf"; "pd"; "time"; "date"; "timedelta"; "fetch_yfinance_data"].
Definition pd : Py unit := load_global globals "pd".
Definition yf : Py unit := load_global globals "yf".
Definition time : Py unit := load_global globals "time".
Definition timedelta : Py unit := load_global globals "timedelta".

Definition required_cols : list string :=
  ["open"; "high"; "low"; "close"; "volume"].

(** [t + timedelta(days=n)] *)
Definition add_days (t : Timestamp) (n : Z) : Timestamp :=
  match t with
  | NaT => NaT
  | Stamp day ns => Stamp (day + n) ns
  end.

(** The mapping of [hist.rename(columns={...})]. *)
Definition rename_label (c : string) : string :=
  if String.eqb c "Open" then "open"
  else if String.eqb c "High" then "high"
  else if String.eqb c "Low" then "low"
  else if String.eqb c "Close" then "close"
  else if String.eqb c "Volume" then "volume"
  else c.

(** [df.rename(columns=...)]: every column keeps its cells under its new
    label.  (Two columns that get one label are two columns in pandas;
    here the first one is kept.) *)
Definition rename_columns (d : DataFrame) : DataFrame :=
  mkDF (index_class d) (index_name d) (rename_label <$> columns d)
    ((λ x, (x.1, list_to_map ((λ c, (rename_label c, cell x.2 c))
                                <$> columns d)))
       <$> rows d).

(** [df.index = values] for an array of values: the new index has no
    name. *)
Definition set_index_array (values : list Cell) (d : DataFrame)
  : Outcome DataFrame :=
  if bool_decide (length values = length (rows d)) then
    Normal (mkDF (class_of values) None (columns d)
              (zip_with (λ x v, (v, x.2)) (rows d) values))
  else Raised (ValueError "Length mismatch").

(** [df.index.name = name] *)
Definition set_index_name (name : string) (d : DataFrame) : DataFrame :=
  mkDF (index_class d) (Some name) (columns d) (rows d).

Definition fetch_yfinance_data (ticker : string) (start_date end_date : Cell)
  : Sc loc :=
  echo (FetcherFetching ticker start_date end_date);;
  try_except
    (call pd;;
     end_ts ← call (match to_datetime_scalar end_date with
                    | Some t => mret t
                    | None => raise (ValueError "Unknown datetime string format")
                    end);
     call timedelta;;
     let end_date_yf := add_days end_ts 1 in
     call yf;;
     hist ← call (answer ← lift (history ticker start_date end_date_yf);
                  new answer);
     d ← call (deref hist);
     if df_empty d then
       echo (FetcherNoData ticker);;
       call (pd;; new empty_frame)
     else
     call (inplace hist (λ d, Normal (rename_columns d)));;
     call pd;;
     d ← call (deref hist);
     stamps ← call (lift (to_datetime (index d)));
     call (inplace hist (set_index_array (date_part <$> stamps)));;
     call (inplace hist (λ d, Normal (set_index_name "date" d)));;
     d ← call (deref hist);
     let cols_to_select :=
       filter (λ col, inb col (columns d) = true) required_cols in
     hist ← call (fresh_from hist (select cols_to_select));
     d ← call (deref hist);
     echo (FetcherFetched (length (rows d)) ticker);;
     call time;;
     mret hist)
    except_Exception
    (λ e, echo (FetcherError ticker e);;
          call (pd;; new empty_frame)).

(** What the service was asked and what it answered, when the fetcher
    got a frame with data in it and dates on its index. *)
Definition answer_of (ticker : string) (start_date end_date : Cell)
  : option DataFrame :=
  match to_datetime_scalar end_date with
  | Some ts =>
      match history ticker start_date (add_days ts 1) with
      | Normal d0 =>
          if df_empty d0 then None
          else match to_datetime (index d0) with
               | Normal _ => Some d0
               | Raised _ => None
               end
      | Raised _ => None
      end
  | None => None
  end.

(** The frame that lines 34-51 make of the answer of the service. *)
Definition fetched_from (d0 : DataFrame) (d : DataFrame) : Prop :=
  ∃ stamps d2,
    to_datetime (index d0) = Normal stamps
    ∧ set_index_array (date_part <$> stamps) (rename_columns d0) = Normal d2
    ∧ select (filter (λ col, inb col (columns d2) = true) required_cols)
        (set_index_name "date" d2) = Normal d.

End fetchers.
End Fetchers.

(** ** scripts/run_fetch_and_store.py *)
Module RunFetchAndStore.
Section run_fetch_and_store.
Context `{Parsers}.
Import Python Pandas Process.

Context (history : string → Cell → Timestamp → Outcome DataFrame).

(** The body of the loop over TICKERS (lines 47-79): the value is
    [success]. *)
Definition process (START_DATE END_DATE : Cell) (ticker : string) : Sc bool :=
  echo (StoreProcessing ticker);;
  success ←
    try_except
      (raw_df ← Fetchers.fetch_yfinance_data history ticker START_DATE END_DATE;
       d ← call (deref raw_df);
       if negb (df_empty d) then
         cleaned_df ← call (DataCleaner.clean_ohlcv_data (Some raw_df) ticker);
         usable ← match cleaned_df with
                  | None => mret false
                  | Some l => d ← call (deref l); mret (negb (df_empty d))
                  end;
         if usable : bool then
           call (Database.insert_ohlcv_data cleaned_df);;
           mret true
         else
           echo (StoreCleaningFailed ticker);; mret false
       else
         echo (StoreFetchFailed ticker);; mret false)
      except_Exception
      (λ e, echo (StoreUnexpected ticker e);; mret false);
  echo (StoreFinished ticker success);;
  mret success.

(** The loop, with its two counters. *)
Fixpoint process_all (START_DATE END_DATE : Cell) (tickers : list string)
    (total_success total_fail : nat) : Sc (nat * nat) :=
  match tickers with
  | [] => mret (total_success, total_fail)
  | ticker :: tickers =>
      success ← process START_DATE END_DATE ticker;
      if success : bool then
        process_all START_DATE END_DATE tickers (S total_success) total_fail
      else
        process_all START_DATE END_DATE tickers total_success (S total_fail)
  end.

(** The script (lines 30-88), for the tickers of the configuration and
    the dates computed from today's. *)
Definition main (TICKERS : list string) (START_DATE END_DATE : Cell)
  : Sc Status :=
  echo StoreBanner;;
  created ← DatabaseSetup.create_db_tables;
  if negb created then
    echo StoreHalting;; mret (SystemExit 1)
  else
  echo (StoreTickers TICKERS);;
  echo (StoreDateRange START_DATE END_DATE);;
  totals ← process_all START_DATE END_DATE TICKERS 0 0;
  echo (StoreSummary (length TICKERS) totals.1 totals.2);;
  mret Completed.

End run_fetch_and_store.
End RunFetchAndStore.

(** ** scripts/run_visualize.py *)
Module RunVisualize.
Section run_visualize.
Context `{Parsers}.
Import Python Pandas Process.

(** The names the script binds; pandas is not among its imports. *)
Definition globals : list string :=
  ["sys"; "os"; "date"; "timedelta"; "argparse"; "DEFAULT_SMA_WINDOW";
   "fetch_ohlcv_data"; "calculate_sma"; "plot_ohlc_with_indicator";
   "print_summary"; "parser"; "args"; "TICKER_TO_PLOT"; "SMA_WINDOW";
   "START_DATE"; "END_DATE"].
Definition pd : Py unit := load_global globals "pd".

(** The parsed command line. *)
Record Args := mkArgs {
  ticker : string;
  days : Z;
  window : Z;
  start : option string;
  end_ : option string
}.

(** [str.upper], on ASCII letters. *)
Definition upper_ascii (a : Ascii.ascii) : Ascii.ascii :=
  let n := Ascii.N_of_ascii a in
  if ((97 <=? n) && (n <=? 122))%N then Ascii.ascii_of_N (n - 32) else a.

Fixpoint upper (s : string) : string :=
  match s with
  | EmptyString => EmptyString
  | String a s => String (upper_ascii a) (upper s)
  end.

(** [if args.start:] *)
Definition given (arg : option string) : bool :=
  match arg with
  | Some s => negb (String.eqb s "")
  | None => false
  end.

(** Today's date, and [d.strftime('%Y-%m-%d')]. *)
Context (today : Z) (strftime : Z → string).

(** What the script does once [pd] has been looked up: the rest of lines
    35-37 (from END_DATE and [args.days] to the two dates), and the rest
    of lines 53-69 (the index, the indicator, the plot and the
    summary). *)
Context (dates_from_days : Cell → Z → Sc (Cell * Cell)).
Context (plot_and_summarize : loc → string → Z → Cell → Cell → Sc unit).

(** Lines 30-37. *)
Definition date_range (args : Args) : Sc (Cell * Cell) :=
  if given (start args) then
    let START_DATE := VStr (default "" (start args)) in
    let END_DATE :=
      if given (end_ args) then VStr (default "" (end_ args))
      else VStr (strftime today) in
    mret (START_DATE, END_DATE)
  else
    let END_DATE :=
      if given (end_ args) then VStr (default "" (end_ args))
      else VDate today in
    call pd;;
    dates_from_days END_DATE (days args).

Definition main (args : Args) : Sc Status :=
  let TICKER_TO_PLOT := upper (ticker args) in
  let SMA_WINDOW := window args in
  range ← date_range args;
  let START_DATE := range.1 in
  let END_DATE := range.2 in
  echo (VisualizeBanner TICKER_TO_PLOT);;
  echo (VisualizeDateRange START_DATE END_DATE);;
  df ← call (Database.fetch_ohlcv_data TICKER_TO_PLOT START_DATE END_DATE);
  d ← call (deref df);
  if df_empty d then
    echo (VisualizeNoData TICKER_TO_PLOT);; mret (SystemExit 1)
  else
  call pd;;
  plot_and_summarize df TICKER_TO_PLOT SMA_WINDOW START_DATE END_DATE;;
  echo VisualizeComplete;;
  mret Completed.

End run_visualize.
End RunVisualize.

(** ** More concrete inputs *)
Module Scenarios.
Import Python Pandas Process Examples.

Definition bar : Row :=
  ohlcv (VNum 101) (VNum 106) (VNum 100) (VNum 104) (VNum 1200).

(** A frame as the fetcher returns it: dates on an index named "date". *)
Definition fetched : DataFrame :=
  mkDF ObjectIndex (Some "date") columns5 [(VDate jan2, bar)].

(** A frame with its dates in a "date" column. *)
Definition dated : DataFrame :=
  mkDF RangeIndex None ("date" :: columns5)
    [(VNum 0, <["date" := VDate jan2]> bar)].

(** A frame without the volume. *)
Definition no_volume : DataFrame :=
  mkDF DatetimeIndex None ["open"; "high"; "low"; "close"]
    [(VTime (Stamp jan2 0), bar)].

(** A frame with no row. *)
Definition no_rows : DataFrame := mkDF DatetimeIndex None columns5 [].

(** A frame whose index labels are not dates. *)
Definition unlabelled : DataFrame :=
  mkDF ObjectIndex None columns5 [(VStr "first", bar)].

Definition w_fetched : World := world_with fetched no_database.
Definition w_dated : World := world_with dated no_database.
Definition w_no_volume : World := world_with no_volume no_database.
Definition w_no_rows : World := world_with no_rows no_database.
Definition w_unlabelled : World := world_with unlabelled no_database.

(** The state with no engine. *)
Definition w_no_engine : World :=
  mkWorld {[ 1%positive := canonical_table 104 ]} [] false no_database.
Definition w_no_engine' : World :=
  mkWorld {[ 1%positive := canonical_table 104 ]} [DbNoEngine] false
    no_database.

(** The database cannot be reached. *)
Definition w_offline : World :=
  mkWorld ∅ [] true (Postgres.mkDatabase false [stored 104]).

(** A series with a gap. *)
Definition gapped : list (Cell * option Q) :=
  [(VDate jan1, Some 1%Q); (VDate jan2, None); (VDate (jan2 + 1), Some 4%Q);
   (VDate (jan2 + 2), Some 6%Q)].

(** An answer of the service: the columns of yfinance, a DatetimeIndex
    named "Date". *)
Definition quotes : DataFrame :=
  mkDF DatetimeIndex (Some "Date")
    ["Open"; "High"; "Low"; "Close"; "Volume"; "Dividends"]
    [(VTime (Stamp jan2 0),
      list_to_map
        [("Open", VNum 101); ("High", VNum 106); ("Low", VNum 100);
         ("Close", VNum 104); ("Volume", VNum 1200); ("Dividends", VNum 0)])].

Definition service (ticker : string) (start_date : Cell) (end_date : Timestamp)
  : Outcome DataFrame := Normal quotes.

Definition s_start : State := mkState (mkWorld ∅ [] true no_database) [].
Definition s_fetched : State :=
  (Fetchers.fetch_yfinance_data service "TST" (VDate jan1) (VDate jan2)
     s_start).2.

End Scenarios.

(** * binary64 rounding *)

Section float.
Import Float.
Local Open Scope Q_scope.

Lemma round_half_even_error x :
  Qabs (inject_Z (round_half_even x) - x) <= 1 # 2.
Proof.
  unfold round_half_even.
  pose proof (Qfloor_le x) as Hlo. pose proof (Qlt_floor x) as Hhi.
  rewrite inject_Z_plus in Hhi. change (inject_Z 1) with 1 in Hhi.
  apply Qabs_Qle_condition.
  destruct (x - inject_Z (Qfloor x) ?= 1 # 2) eqn:E.
  - apply Qeq_alt in E. destruct (Z.even (Qfloor x));
      rewrite ?inject_Z_plus; change (inject_Z 1) with 1; split; lra.
  - apply Qlt_alt in E. split; lra.
  - apply Qgt_alt in E. rewrite inject_Z_plus. change (inject_Z 1) with 1.
    split; lra.
Qed.

Lemma pow2_pos e : 0 < pow2 e.
Proof. apply Qpower_0_lt. reflexivity. Qed.

Lemma binade_le a : 0 < a -> pow2 (binade a) <= a.
Proof.
  intros Ha. unfold binade.
  set (ln := Z.log2 (Qnum a)). set (ld := Z.log2 (Z.pos (Qden a))).
  destruct (Qle_bool (pow2 (ln - ld)) a) eqn:E; [now apply Qle_bool_iff|].
  clear E. destruct a as [n d]. cbn [Qnum Qden] in *.
  assert (Hn : (0 < n)%Z) by (unfold Qlt in Ha; simpl in Ha; lia).
  assert (Hln : (0 <= ln)%Z) by apply Z.log2_nonneg.
  assert (Hld : (0 <= ld)%Z) by apply Z.log2_nonneg.
  destruct (Z.log2_spec n Hn) as [Hn1 _]. fold ln in Hn1.
  destruct (Z.log2_spec (Z.pos d) (Pos2Z.is_pos d)) as [_ Hd2]. fold ld in Hd2.
  replace (ln - ld - 1)%Z with (ln - (ld + 1))%Z by lia.
  unfold pow2. rewrite Qpower_minus by discriminate.
  rewrite <- !(Zpower_Qpower 2) by lia.
  assert (HB : (0 < 2 ^ (ld + 1))%Z) by (apply Z.pow_pos_nonneg; lia).
  apply Qle_shift_div_r.
  { change 0 with (inject_Z 0). rewrite <- Zlt_Qlt. exact HB. }
  unfold Qle. cbn [Qnum Qden Qmult inject_Z].
  rewrite Pos.mul_1_r, Z.mul_1_r.
  transitivity (n * Z.pos d)%Z; [nia|].
  apply Z.mul_le_mono_nonneg_l; lia.
Qed.

Lemma pow2_split e : pow2 e == pow2 (e - 52) * (4503599627370496 # 1).
Proof.
  unfold pow2. replace e with ((e - 52) + 52)%Z at 1 by lia.
  rewrite Qpower_plus by discriminate. reflexivity.
Qed.

Lemma round_pos_error a :
  0 < a -> Qabs (round_pos a - a) <= a * (1 # 9007199254740992).
Proof.
  intros Ha. unfold round_pos.
  pose proof (binade_le a Ha) as Hb. rewrite pow2_split in Hb.
  pose proof (pow2_pos (binade a - 52)) as Hu.
  set (u := pow2 (binade a - 52)) in *.
  pose proof (round_half_even_error (a / u)) as Hr.
  set (m := inject_Z (round_half_even (a / u))) in *.
  assert (Hx : a / u * u == a) by (field; lra).
  set (x := a / u) in *.
  apply Qabs_Qle_condition in Hr. apply Qabs_Qle_condition.
  split; nra.
Qed.

Lemma float64_error x :
  Qabs (float64 x - x) <= Qabs x * (1 # 9007199254740992).
Proof.
  unfold float64. destruct (x ?= 0) eqn:E.
  - apply Qeq_alt in E. rewrite E. discriminate.
  - apply Qlt_alt in E.
    assert (Hx : 0 < - x) by lra.
    pose proof (round_pos_error (- x) Hx) as Hr.
    rewrite (Qabs_neg x) by lra.
    apply Qabs_Qle_condition in Hr. apply Qabs_Qle_condition. split; lra.
  - apply Qgt_alt in E. rewrite (Qabs_pos x) by lra.
    apply round_pos_error. lra.
Qed.


End float.

(** * Reasoning about runs *)

Section run.
Import Python.

Lemma wp_bind {A B} (c : Py A) (k : A → Py B) Q w :
  wp c (λ o w', match o with
                | Normal a => wp (k a) Q w'
                | Raised e => Q (Raised e) w'
                end) w →
  wp (c ≫= k) Q w.
Proof.
  unfold wp, mbind, Py_bind. destruct (c w) as [[a|e] w']; simpl; auto.
Qed.

Lemma wp_ret {A} (a : A) (Q : Outcome A → World → Prop) w :
  Q (Normal a) w → wp (mret a) Q w.
Proof. done. Qed.

Lemma wp_lift {A} (o : Outcome A) (Q : Outcome A → World → Prop) w :
  Q o w → wp (lift o) Q w.
Proof. done. Qed.

Lemma wp_print m (Q : Outcome unit → World → Prop) w :
  Q (Normal ()) (mkWorld (heap w) (stdout w ++ [m]) (engine w) (database w)) →
  wp (print m) Q w.
Proof. done. Qed.

Lemma wp_deref l d (Q : Outcome DataFrame → World → Prop) w :
  heap w !! l = Some d → Q (Normal d) w → wp (deref l) Q w.
Proof. intros Hl HQ. unfold wp, deref. by rewrite Hl. Qed.

Lemma wp_new d (Q : Outcome loc → World → Prop) w :
  (∀ l, heap w !! l = None →
        Q (Normal l)
          (mkWorld (<[l := d]> (heap w)) (stdout w) (engine w) (database w))) →
  wp (new d) Q w.
Proof.
  intros HQ. unfold wp, new. simpl. apply HQ.
  apply not_elem_of_dom, is_fresh.
Qed.

Lemma wp_inplace l f d (Q : Outcome unit → World → Prop) w :
  heap w !! l = Some d →
  match f d with
  | Normal d' =>
      Q (Normal ())
        (mkWorld (<[l := d']> (heap w)) (stdout w) (engine w) (database w))
  | Raised e => Q (Raised e) w
  end →
  wp (inplace l f) Q w.
Proof.
  intros Hl HQ. unfold wp, inplace, mbind, Py_bind, deref, lift, assign.
  rewrite Hl. by destruct (f d).
Qed.

Lemma wp_fresh_from l f d (Q : Outcome loc → World → Prop) w :
  heap w !! l = Some d →
  match f d with
  | Normal d' =>
      ∀ l', heap w !! l' = None →
        Q (Normal l')
          (mkWorld (<[l' := d']> (heap w)) (stdout w) (engine w) (database w))
  | Raised e => Q (Raised e) w
  end →
  wp (fresh_from l f) Q w.
Proof.
  intros Hl HQ. unfold wp, fresh_from, mbind, Py_bind, deref, lift.
  rewrite Hl. destruct (f d) as [d'|e]; [|done]. exact (wp_new d' Q w HQ).
Qed.

Lemma wp_try_except {A} (body : Py A) (cls : Exn → bool) (h : Exn → Py A) (Q : Outcome A → World → Prop) w :
  wp body (λ o w', match o with
                   | Normal a => Q (Normal a) w'
                   | Raised e => if cls e then wp (h e) Q w' else Q (Raised e) w'
                   end) w →
  wp (try_except body cls h) Q w.
Proof.
  unfold wp, try_except. destruct (body w) as [[a|e] w']; simpl; [done|].
  by destruct (cls e).
Qed.

Lemma wp_load_global (globals : list string) (name : string) (Q : Outcome unit → World → Prop) w :
  (if Pandas.inb name globals then Q (Normal ()) w
   else Q (Raised (NameError name)) w) →
  wp (load_global globals name) Q w.
Proof. unfold wp, load_global. by destruct (Pandas.inb name globals). Qed.

Lemma wp_when (b : bool) (c : Py unit) (Q : Outcome unit → World → Prop) w :
  (if b then wp c Q w else Q (Normal ()) w) → wp (DataCleaner.when b c) Q w.
Proof. by destruct b. Qed.

Lemma wp_run {A} (c : Py A) (Q : Outcome A → World → Prop) w o w' :
  wp c Q w → c w = (o, w') → Q o w'.
Proof. unfold wp. intros HQ Hc. by rewrite Hc in HQ. Qed.

End run.

Ltac wp_proj := cbn [Python.heap Python.stdout Python.engine Python.database].
Ltac wp_seq := apply wp_bind.
Ltac wp_pd :=
  apply wp_bind; apply wp_load_global; cbn [Pandas.inb existsb String.eqb Ascii.eqb Bool.eqb orb].

(** * Frames: the pandas operations on rows *)

Section frames.
Context `{Parsers}.
Import Pandas CleanerSpec.

Lemma inb_spec c cols : inb c cols = true ↔ c ∈ cols.
Proof.
  unfold inb. rewrite existsb_exists. split.
  - intros (x & Hx & Heq). apply String.eqb_eq in Heq as ->.
    by apply list_elem_of_In.
  - intros Hc. exists c. split; [by apply list_elem_of_In|apply String.eqb_refl].
Qed.

Lemma inb_false c cols : inb c cols = false ↔ c ∉ cols.
Proof. rewrite <- inb_spec. by destruct (inb c cols). Qed.

Lemma add_column_present c cols : inb c cols = true → add_column c cols = cols.
Proof. unfold add_column. by intros ->. Qed.

Lemma inb_add_column c c' cols :
  inb c cols = true → inb c (add_column c' cols) = true.
Proof.
  unfold add_column. destruct (inb c' cols); [done|].
  rewrite !inb_spec. set_solver.
Qed.

Lemma inb_add_column_same c cols : inb c (add_column c cols) = true.
Proof.
  unfold add_column. destruct (inb c cols) eqn:E; [done|].
  rewrite inb_spec. set_solver.
Qed.

Lemma issubset_spec req cols :
  issubset req cols = true ↔ ∀ c, c ∈ req → inb c cols = true.
Proof.
  unfold issubset. rewrite forallb_forall. split.
  - intros Hs c Hc. by apply Hs, list_elem_of_In.
  - intros Hs c Hc. by apply Hs, list_elem_of_In.
Qed.

Lemma issubset_add_column req c cols :
  issubset req cols = true → issubset req (add_column c cols) = true.
Proof.
  rewrite !issubset_spec. intros Hs c' Hc'. by apply inb_add_column, Hs.
Qed.

Lemma setitem_fmap c (f : Cell * Row → Cell) d :
  setitem c (f <$> rows d) d =
  Normal (mkDF (index_class d) (index_name d) (add_column c (columns d))
            ((λ x, (x.1, <[c := f x]> x.2)) <$> rows d)).
Proof.
  unfold setitem. rewrite bool_decide_true by apply length_fmap.
  by rewrite zip_with_fmap_r, zip_with_diag.
Qed.

Lemma setitem_fmap_mk c (f : Cell * Row → Cell) ic iname cols rs :
  setitem c (f <$> rs) (mkDF ic iname cols rs) =
  Normal (mkDF ic iname (add_column c cols)
            ((λ x, (x.1, <[c := f x]> x.2)) <$> rs)).
Proof. apply (setitem_fmap c f (mkDF ic iname cols rs)). Qed.

Lemma to_numeric_column d c :
  to_numeric (column d c) = (λ x, numeric_cell x.2 c) <$> rows d.
Proof. unfold to_numeric, column. by rewrite <- list_fmap_compose. Qed.

Lemma mapM_default {A B} (f : A → option B) (dflt : B) l k :
  mapM f l = Some k →
  k = (λ x, default dflt (f x)) <$> l ∧ Forall (λ x, is_Some (f x)) l.
Proof.
  intros Hm. apply mapM_Some_1 in Hm.
  induction Hm as [|x y l k Hxy _ [IH1 IH2]]; [done|].
  split; [|by constructor; [rewrite Hxy|]].
  simpl. by rewrite Hxy, IH1.
Qed.

Lemma to_datetime_Normal cs out :
  to_datetime cs = Normal out →
  out = (λ c, VTime (stamp c)) <$> cs
  ∧ Forall (λ c, is_Some (to_datetime_scalar c)) cs.
Proof.
  unfold to_datetime. destruct (mapM _ cs) as [ts|] eqn:Hm; [|done].
  intros [= <-]. apply (mapM_default _ NaT) in Hm as [-> ?].
  split; [|done]. by rewrite <- list_fmap_compose.
Qed.

Lemma select_subset cols d :
  issubset cols (columns d) = true →
  select cols d =
  Normal (mkDF (index_class d) (index_name d) cols
            ((λ x, (x.1, list_to_map ((λ c, (c, cell x.2 c)) <$> cols)))
               <$> rows d)).
Proof.
  intros Hsub. unfold select.
  destruct (filter _ cols) as [|c rest] eqn:Hf; [done|].
  assert (Hc : c ∈ filter (λ c, inb c (columns d) = false) cols)
    by (rewrite Hf; left).
  apply list_elem_of_filter in Hc as [Hc Hin].
  rewrite issubset_spec in Hsub. by rewrite (Hsub c Hin) in Hc.
Qed.

End frames.

Section cleaner_run.
Context `{Parsers}.
Import Python Pandas CleanerSpec DataCleaner.

Lemma wp_mono {A} (c : Py A) (Q1 Q2 : Outcome A → World → Prop) w :
  wp c Q1 w → (∀ o w', Q1 o w' → Q2 o w') → wp c Q2 w.
Proof. unfold wp. auto. Qed.

Lemma wp_when_print b m (Q : Outcome unit → World → Prop) w :
  Q (Normal ())
    (mkWorld (heap w) (stdout w ++ report_if b m) (engine w) (database w)) →
  wp (when b (print m)) Q w.
Proof.
  destruct b; [done|]. destruct w. unfold report_if. wp_proj.
  by rewrite app_nil_r.
Qed.



Ltac close_post :=
  wp_proj;
  repeat match goal with
  | |- _ ∧ _ => split
  | |- ∀ _, _ = Normal (Some _) → _ => by intros ? [=]
  | |- _ ⊆ <[_ := _]> _ => apply insert_subseteq_r; [done|]
  | |- _ => done
  end.

Lemma index_block t l1 d h out e db :
  h !! l1 = None →
  issubset required_cols (columns d) = true →
  wp
    (pd;;
     if isinstance_DatetimeIndex d then
       inplace l1 (setitem "date" (index d));;
       mret (Some l1)
     else if inb "date" (columns d) then
       pd;;
       dates ← lift (to_datetime (column d "date"));
       inplace l1 (setitem "date" dates);;
       df_cleaned ← fresh_from l1 (set_index "date");
       mret (Some df_cleaned)
     else
       try_except
         (pd;;
          labels ← lift (to_datetime (index d));
          inplace l1 (set_index_labels labels);;
          d ← deref l1;
          inplace l1 (setitem "date" (index d));;
          print (CleanerUsedIndex t);;
          mret (Some l1))
         except_TypeError_ValueError
         (λ _, print (CleanerNeedsDate t);; mret None))
    (indexed_post h out e db t d)
    (mkWorld (<[l1 := d]> h) (out ++ [CleanerCleaning t (length (rows d))]) e db).
Proof.
  intros Hl1 Hsub.
  wp_pd.
  destruct (isinstance_DatetimeIndex d) eqn:Hdt.
  - (* the index is a DatetimeIndex *)
    wp_seq. eapply wp_inplace; [apply lookup_insert_eq|].
    unfold index. rewrite setitem_fmap. wp_proj. rewrite insert_insert_eq.
    apply wp_ret. unfold indexed_post. wp_proj.
    split; [by apply insert_subseteq_r|]. do 2 (split; [done|]).
    intros ? [= <-]. split; [done|]. eexists. split; [apply lookup_insert_eq|].
    cbn [columns rows index_name].
    split; [by apply issubset_add_column|].
    split; [apply inb_add_column_same|]. right.
    split; [done|]. split; [done|]. split; [by left|].
    split; [by rewrite Hdt|].
    exists id. split; [done|]. intros c. unfold date_key, stamp, id.
    by destruct (to_datetime_scalar c).
  - destruct (inb "date" (columns d)) eqn:Hdate.
    + (* a date column *)
      wp_pd. wp_seq. apply wp_lift.
      destruct (to_datetime (column d "date")) as [dates|ex] eqn:Hdates.
      2:{ unfold indexed_post. close_post. }
      apply to_datetime_Normal in Hdates as [-> _].
      unfold column. rewrite <- list_fmap_compose.
      wp_seq. eapply wp_inplace; [apply lookup_insert_eq|].
      rewrite setitem_fmap. wp_proj. rewrite insert_insert_eq.
      wp_seq. eapply wp_fresh_from; [apply lookup_insert_eq|].
      unfold set_index. cbn [columns rows index_name index_class].
      rewrite add_column_present by done. rewrite Hdate.
      intros l2 Hl2. wp_proj. cbn [heap] in Hl2. apply lookup_insert_None in Hl2 as [Hl2 Hne].
      apply wp_ret. unfold indexed_post. wp_proj.
      split; [do 2 (apply insert_subseteq_r; [done|]); done|].
      do 2 (split; [done|]).
      intros ? [= <-]. split; [done|]. eexists. split; [apply lookup_insert_eq|].
      cbn [columns rows index_name]. do 2 (split; [done|]). by left.
    + (* the index itself *)
      apply wp_try_except. wp_pd. wp_seq. apply wp_lift.
      destruct (to_datetime (index d)) as [labels|ex] eqn:Hlabels.
      2:{ unfold to_datetime in Hlabels.
          destruct (mapM _ _); [done|]. injection Hlabels as <-.
          cbn [except_TypeError_ValueError].
          wp_seq. apply wp_print. apply wp_ret.
          unfold indexed_post. close_post. }
      apply to_datetime_Normal in Hlabels as [-> _].
      unfold index. rewrite <- list_fmap_compose.
      wp_seq. eapply wp_inplace; [apply lookup_insert_eq|].
      unfold set_index_labels.
      rewrite bool_decide_true by apply length_fmap.
      rewrite zip_with_fmap_r, zip_with_diag.
      wp_proj. rewrite insert_insert_eq.
      wp_seq. eapply wp_deref; [apply lookup_insert_eq|].
      wp_seq. eapply wp_inplace; [apply lookup_insert_eq|].
      match goal with |- context [setitem "date" (fst <$> rows ?d')] =>
        rewrite (setitem_fmap "date" fst d') end.
      cbn [columns rows index_name index_class].
      wp_proj. rewrite insert_insert_eq.
      wp_seq. apply wp_print. wp_proj. apply wp_ret.
      unfold indexed_post. wp_proj.
      split; [by apply insert_subseteq_r|]. do 2 (split; [done|]).
      intros ? [= <-]. split; [done|]. eexists. split; [apply lookup_insert_eq|].
      cbn [columns rows index_name].
      split; [by apply issubset_add_column|].
      split; [apply inb_add_column_same|]. right.
      split; [done|]. split; [done|]. split; [by right|].
      split; [by rewrite Hdt, <- app_assoc|].
      exists (λ c, VTime (stamp c)). split.
      * rewrite <- list_fmap_compose. by apply list_fmap_ext.
      * intros c. unfold date_key, stamp at 1. cbn [to_datetime_scalar default].
        unfold stamp. by destruct (to_datetime_scalar c).
Qed.



Lemma issubset_required cols :
  issubset required_cols cols = true →
  inb "open" cols = true ∧ inb "high" cols = true ∧ inb "low" cols = true
  ∧ inb "close" cols = true ∧ inb "volume" cols = true.
Proof.
  rewrite issubset_spec. intros Hs. unfold required_cols in Hs.
  repeat split; apply Hs; set_solver.
Qed.

Lemma wp_numeric_loop l1 d1 (Q : Outcome unit → World → Prop) w :
  heap w !! l1 = Some d1 →
  issubset required_cols (columns d1) = true →
  Q (Normal ())
    (mkWorld
       (<[l1 := mkDF (index_class d1) (index_name d1) (columns d1)
                  ((λ x, (x.1, coerce x.2)) <$> rows d1)]> (heap w))
       (stdout w) (engine w) (database w)) →
  wp (for_each required_cols (λ col,
        pd;;
        d ← deref l1;
        inplace l1 (setitem col (to_numeric (column d col))))) Q w.
Proof.
  intros Hl1 Hsub HQ.
  destruct (issubset_required _ Hsub) as (Ho & Hh & Hlo & Hc & Hv).
  unfold required_cols. cbn [for_each].
  wp_seq. wp_pd. wp_seq. eapply wp_deref; [done|].
  eapply wp_inplace; [done|].
  rewrite to_numeric_column, setitem_fmap, add_column_present by done.
  wp_proj.
  do 4 (wp_seq; wp_pd; wp_seq; (eapply wp_deref; [apply lookup_insert_eq|]);
        (eapply wp_inplace; [apply lookup_insert_eq|]);
        rewrite to_numeric_column, setitem_fmap;
        cbn [columns rows index_name index_class];
        rewrite add_column_present by done;
        wp_proj; rewrite insert_insert_eq).
  apply wp_ret.
  rewrite <- !list_fmap_compose.
  erewrite list_fmap_ext; [exact HQ|].
  intros i [lab r] _. simpl. f_equal. unfold coerce, numeric_cell, cell.
  by rewrite !lookup_insert_ne by done.
Qed.



Lemma filter_fmap' {A B} (P : B → Prop) `{∀ x, Decision (P x)}
    (f : A → B) (l : list A) :
  filter P (f <$> l) = f <$> filter (λ x, P (f x)) l.
Proof.
  induction l as [|x l IH]; [done|]. rewrite fmap_cons, !filter_cons.
  destruct (decide (P (f x))); by rewrite IH.
Qed.

Lemma cell_coerce_date r v c :
  c ∈ required_cols →
  cell (coerce (<["date" := v]> r)) c = numeric_cell r c.
Proof.
  unfold required_cols. intros Hc. unfold coerce, numeric_cell, cell.
  repeat (apply elem_of_cons in Hc as [->|Hc]);
    [..|by apply elem_of_nil in Hc];
    repeat first [ rewrite lookup_insert_eq | rewrite lookup_insert_ne by done ];
    done.
Qed.

Lemma isna_numeric_cell r c :
  negb (isna (numeric_cell r c))
  = bool_decide (is_Some (to_numeric_scalar (cell r c))).
Proof.
  unfold numeric_cell. destruct (to_numeric_scalar (cell r c));
    cbn [from_option isna negb].
  - by rewrite bool_decide_true.
  - rewrite bool_decide_false; [done|]. by intros [? ?].
Qed.

Lemma in_required c :
  c = "open" ∨ c = "high" ∨ c = "low" ∨ c = "close" ∨ c = "volume" →
  c ∈ required_cols.
Proof.
  unfold required_cols.
  intros [->|[->|[->|[->| ->]]]]; repeat constructor.
Qed.

Lemma notna_coerce_date r v :
  forallb (λ c, negb (isna (cell (coerce (<["date" := v]> r)) c))) required_cols
  = complete r.
Proof.
  unfold complete, required_cols. cbn [forallb].
  rewrite !cell_coerce_date by (apply in_required; tauto).
  by rewrite !isna_numeric_cell.
Qed.

Lemma df_empty_length d :
  columns d ≠ [] → negb (df_empty d) = bool_decide (0 < length (rows d))%nat.
Proof.
  unfold df_empty. intros Hc.
  destruct (rows d), (columns d); done.
Qed.

Lemma inb_nonempty c cols : inb c cols = true → cols ≠ [].
Proof. by destruct cols. Qed.

Lemma existsb_swap {A B} (f : A → B → bool) (xs : list A) (ys : list B) :
  existsb (λ x, existsb (λ y, f x y) ys) xs
  = existsb (λ y, existsb (λ x, f x y) xs) ys.
Proof.
  apply Bool.eq_iff_eq_true. rewrite !existsb_exists. split.
  - intros (x & Hx & Hy). apply existsb_exists in Hy as (y & Hy & Hf).
    exists y. split; [done|]. apply existsb_exists. eauto.
  - intros (y & Hy & Hx). apply existsb_exists in Hx as (x & Hx & Hf).
    exists x. split; [done|]. apply existsb_exists. eauto.
Qed.

Lemma existsb_pointwise {A} (f g : A → bool) (l : list A) :
  (∀ x, f x = g x) → existsb f l = existsb g l.
Proof. intros Hfg. induction l as [|x l IH]; [done|]. simpl. by rewrite Hfg, IH. Qed.

Lemma existsb_fmap {A B} (p : B → bool) (f : A → B) (l : list A) :
  existsb p (f <$> l) = existsb (λ x, p (f x)) l.
Proof. induction l as [|x l IH]; [done|]. simpl. by rewrite <- IH. Qed.



Lemma cell_insert_eq r k v : cell (<[k := v]> r) k = v.
Proof. unfold cell. by rewrite lookup_insert_eq. Qed.

Lemma cell_insert_ne r k v c : k ≠ c → cell (<[k := v]> r) c = cell r c.
Proof. intros Hne. unfold cell. by rewrite lookup_insert_ne. Qed.

Lemma cell_coerce_other r c :
  c ∉ required_cols → cell (coerce r) c = cell r c.
Proof.
  unfold required_cols, coerce. intros Hc.
  rewrite !cell_insert_ne; [done|intros <-; apply Hc; repeat constructor..].
Qed.

Lemma inb_ne c c' cols : inb c cols = false → inb c' cols = true → c ≠ c'.
Proof. intros Hc Hc' ->. by rewrite Hc in Hc'. Qed.

Lemma count_where (m p : Row → bool) (g : Cell * Row → Cell * Row) d6 l :
  rows d6 = g <$> l →
  (∀ x, m (g x).2 = p x.2) →
  length (rows (where_ m d6)) = count p l.
Proof.
  intros Hr Hm. unfold where_, count. cbn [rows]. rewrite Hr, filter_fmap', length_fmap.
  f_equal. apply list_filter_iff. intros x. by rewrite Hm.
Qed.

Lemma clean_spec t l d h out e db :
  h !! l = Some d →
  wp (clean_ohlcv_data (Some l) t) (clean_post h out e db t d)
    (mkWorld h out e db).
Proof.
  intros Hl. unfold clean_ohlcv_data.
  wp_seq. eapply wp_deref; [done|].
  destruct (df_empty d) eqn:Hempty.
  { wp_seq. apply wp_print. apply wp_ret. unfold clean_post. close_post. }
  wp_seq. apply wp_print. wp_proj.
  wp_seq. eapply wp_fresh_from; [done|]. intros l0 Hl0. wp_proj.
  cbn [heap] in Hl0.
  wp_seq. eapply wp_deref; [wp_proj; apply lookup_insert_eq|].
  destruct (issubset required_cols (columns d)) eqn:Hsub; cbn [negb].
  2:{ wp_seq. apply wp_print. apply wp_ret. unfold clean_post. close_post. }
  wp_seq. eapply wp_mono; [by apply index_block|].
  intros o w1 (Hh & He & Hdb & Hidx).
  destruct o as [[l1|]|ex];
    [|apply wp_ret; unfold clean_post; close_post
     |unfold clean_post; close_post].
  destruct (Hidx l1 eq_refl) as (Hl1 & d1 & Hd1 & Hsub1 & Hdate1 & Hlive).
  clear Hidx.
  wp_pd. wp_seq. eapply wp_deref; [done|].
  destruct (isinstance_DatetimeIndex d1) eqn:Hdt1; cbn [negb].
  2:{ wp_seq. apply wp_print. apply wp_ret. unfold clean_post. close_post. }
  wp_seq. apply wp_numeric_loop with (d1 := d1); [done..|]. wp_proj.
  wp_seq. eapply wp_deref; [apply lookup_insert_eq|].
  wp_seq. eapply wp_inplace; [apply lookup_insert_eq|].
  cbn [columns rows index_name index_class].
  match goal with |- context [dropna required_cols ?d5] =>
    remember (dropna required_cols d5) as d6 eqn:Hd6 end.
  assert (Hcls6 : isinstance_DatetimeIndex d6 = true) by by subst d6.
  assert (Hcols6 : columns d6 = columns d1) by by subst d6.
  assert (Hname6 : index_name d6 = index_name d1) by by subst d6.
  assert (Hrows6 : rows d6 =
    filter (λ x, forallb (λ c, negb (isna (cell x.2 c))) required_cols = true)
      ((λ x, (x.1, coerce x.2)) <$> rows d1)) by by subst d6.
  clear Hd6. rewrite length_fmap.
  wp_proj. rewrite insert_insert_eq.
  wp_seq. eapply wp_deref; [apply lookup_insert_eq|].
  wp_seq. apply wp_when_print. wp_proj.
  destruct (df_empty d6) eqn:Hempty6.
  { wp_seq. apply wp_print. apply wp_ret. unfold clean_post. close_post. }
  do 4 (wp_seq; apply wp_when_print; wp_proj).
  wp_seq. apply wp_print. wp_proj.
  wp_pd. rewrite Hcls6. wp_seq. apply wp_when.
  eapply wp_inplace; [apply lookup_insert_eq|].
  unfold reset_index. rewrite Hname6, Hcols6.
  match goal with |- context [inb ?n (columns d1)] =>
    remember n as name eqn:Hn; destruct (inb name (columns d1)) eqn:Hname end.
  { unfold clean_post. close_post. }
  wp_proj. rewrite insert_insert_eq.
  wp_seq. eapply wp_deref; [apply lookup_insert_eq|].
  cbn [columns rows index_name index_class].
  replace (inb "date" (name :: columns d1)) with true
    by (cbn [inb existsb]; fold (inb "date" (columns d1));
        by rewrite Hdate1, orb_true_r).
  cbn [negb].
  wp_pd. wp_seq. apply wp_lift.
  match goal with |- context [to_datetime ?cs] =>
    destruct (to_datetime cs) as [dates|ex] eqn:Hdates end.
  2:{ unfold clean_post. close_post. }
  apply to_datetime_Normal in Hdates as [-> _].
  unfold column. cbn [rows]. rewrite <- !list_fmap_compose.
  wp_seq. eapply wp_inplace; [apply lookup_insert_eq|].
  rewrite setitem_fmap_mk.
  wp_proj. rewrite insert_insert_eq.
  wp_seq. eapply wp_inplace; [apply lookup_insert_eq|].
  unfold setitem_scalar. cbn [columns rows index_name index_class].
  wp_proj. rewrite insert_insert_eq.
  wp_seq. eapply wp_fresh_from; [apply lookup_insert_eq|].
  unfold select. cbn [columns rows index_name index_class].
  match goal with |- context [filter ?P final_cols] =>
    destruct (filter P final_cols) end.
  2:{ unfold clean_post. close_post. }
  intros l3 Hl3. cbn [heap] in Hl3. apply lookup_insert_None in Hl3 as [Hl3 Hne].
  wp_proj. apply wp_ret. unfold clean_post. wp_proj.
  split; [do 2 (apply insert_subseteq_r; [by eapply lookup_weaken_None|]); done|].
  do 2 (split; [done|]). intros ? [= <-].
  split; [by eapply lookup_weaken_None|].
  rewrite lookup_insert_eq.
  destruct Hlive as [Hdead|(Hname1 & Hcols1 & Hsrc & Hout & lab & Hrows1 & Hlab)].
  { rewrite Hdead in Hn. subst name. by rewrite Hdate1 in Hname. }
  set (g := λ x : Cell * Row, (lab x.1, coerce (<["date" := lab x.1]> x.2))).
  assert (Hkept : rows d6 = g <$> kept d).
  { rewrite Hrows6, Hrows1, <- list_fmap_compose, filter_fmap'. unfold kept.
    f_equal. apply list_filter_iff. intros x. unfold g. cbn [compose fst snd].
    by rewrite notna_coerce_date. }
  destruct (issubset_required _ Hsub1) as (Ho & Hhi & Hlo & Hc & Hv).
  assert (Hcols : columns d6 ≠ []) by (rewrite Hcols6; by eapply inb_nonempty).
  split; [|split; [|split; [|split]]].
  - f_equal. unfold cleaned. f_equal. rewrite Hkept.
    rewrite !fmap_imap, imap_fmap. apply imap_ext. intros i [lab0 r] _.
    unfold g. cbn [compose fst snd]. f_equal.
    unfold canonical, final_cols. cbn [fmap list_fmap fst snd].
    rewrite !cell_insert_eq.
    rewrite (cell_insert_ne _ "ticker" _ "date") by done.
    rewrite cell_insert_eq, (cell_insert_ne _ name _ "date")
      by by eapply inb_ne.
    rewrite cell_coerce_other, cell_insert_eq, Hlab by by apply inb_false.
    rewrite !(cell_insert_ne _ "ticker") by done.
    rewrite !(cell_insert_ne _ "date" _ _) by done.
    rewrite !(cell_insert_ne _ name) by by eapply inb_ne.
    by rewrite !cell_coerce_date by (apply in_required; tauto).
  - assert (Hlen1 : length (rows d1) = length (rows d))
      by by rewrite Hrows1, length_fmap.
    assert (Hlen6 : length (rows d6) = length (kept d))
      by by rewrite Hkept, length_fmap.
    rewrite !df_empty_length by done.
    rewrite (count_where _ high_below_low g d6 (kept d) Hkept).
    2:{ intros x. unfold g, high_below_low. cbn [snd].
        by rewrite !cell_coerce_date by (apply in_required; tauto). }
    rewrite (count_where _ (outside "close") g d6 (kept d) Hkept).
    2:{ intros x. unfold g, outside. cbn [snd].
        by rewrite !cell_coerce_date by (apply in_required; tauto). }
    rewrite (count_where _ (outside "open") g d6 (kept d) Hkept).
    2:{ intros x. unfold g, outside. cbn [snd].
        by rewrite !cell_coerce_date by (apply in_required; tauto). }
    rewrite (count_where _ zero_volume g d6 (kept d) Hkept).
    2:{ intros x. unfold g, zero_volume. cbn [snd].
        by rewrite !cell_coerce_date by (apply in_required; tauto). }
    rewrite Hlen1, Hlen6, Hout.
    rewrite existsb_swap, Hkept, existsb_fmap.
    rewrite (existsb_pointwise _ (λ x, negative x.2)).
    2:{ intros x. unfold g, negative, required_cols. cbn [snd existsb].
        by rewrite !cell_coerce_date by (apply in_required; tauto). }
    unfold cleaner_log. cbv zeta. by rewrite <- !app_assoc.
  - intros Hk. rewrite Hk in Hkept. unfold df_empty in Hempty6.
    by rewrite Hkept in Hempty6.
  - unfold reset_name. by rewrite <- Hname1, <- Hcols1, <- Hn.
  - done.
Qed.

Lemma clean_none t h out e db :
  wp (clean_ohlcv_data None t) (clean_post h out e db t (mkDF RangeIndex None [] []))
    (mkWorld h out e db).
Proof.
  unfold clean_ohlcv_data. wp_seq. apply wp_print. apply wp_ret.
  unfold clean_post. close_post.
Qed.


Lemma issubset_final cols name :
  issubset required_cols cols = true →
  issubset final_cols
    (add_column "ticker" (add_column "date" (name :: cols))) = true.
Proof.
  intros Hsub. destruct (issubset_required _ Hsub) as (Ho & Hh & Hl & Hc & Hv).
  assert (Hin : ∀ c, inb c cols = true →
            inb c (add_column "ticker" (add_column "date" (name :: cols))) = true).
  { intros c Hc'. do 2 apply inb_add_column. cbn [inb existsb].
    fold (inb c cols). by rewrite Hc', orb_true_r. }
  unfold final_cols. cbn [issubset forallb].
  rewrite inb_add_column_same, (inb_add_column "date"), !Hin
    by (done || apply inb_add_column_same). done.
Qed.


End cleaner_run.

(** * The cleaning pipeline *)

Section cleaner_theorems.
Context `{Parsers}.
Import Python Pandas CleanerSpec DataCleaner.

Lemma clean_returns_table t l d w l' w' :
  heap w !! l = Some d →
  clean_ohlcv_data (Some l) t w = (Normal (Some l'), w') →
  heap w !! l' = None ∧ heap w' !! l' = Some (cleaned t d)
  ∧ stdout w' = stdout w ++ cleaner_log t d ∧ kept d ≠ []
  ∧ inb (reset_name d) (add_column "date" (columns d)) = false
  ∧ (isinstance_DatetimeIndex d = true ∨ inb "date" (columns d) = false).
Proof.
  destruct w as [h out e db]. cbn [heap stdout]. intros Hl Hrun.
  pose proof (clean_spec t l d h out e db Hl) as Hwp.
  eapply wp_run in Hwp; [|exact Hrun].
  destruct Hwp as (_ & _ & _ & Hs). by apply Hs.
Qed.

(** [reset_index] raises when the label of the index is taken by a
    column: a frame whose index is named "date" gets no table. *)
Lemma index_named_date_no_table t l d w l' w' :
  heap w !! l = Some d →
  index_name d = Some "date" →
  clean_ohlcv_data (Some l) t w ≠ (Normal (Some l'), w').
Proof.
  intros Hl Hname Hrun.
  destruct (clean_returns_table _ _ _ _ _ _ Hl Hrun) as (_ & _ & _ & _ & Hfree & _).
  unfold reset_name in Hfree. rewrite Hname in Hfree.
  by rewrite inb_add_column_same in Hfree.
Qed.

(** Nor does a frame that holds its dates in a "date" column:
    [set_index("date", drop=False)] keeps the column and names the index
    after it. *)
Lemma date_column_no_table t l d w l' w' :
  heap w !! l = Some d →
  isinstance_DatetimeIndex d = false →
  inb "date" (columns d) = true →
  clean_ohlcv_data (Some l) t w ≠ (Normal (Some l'), w').
Proof.
  intros Hl Hdt Hcol Hrun.
  destruct (clean_returns_table _ _ _ _ _ _ Hl Hrun)
    as (_ & _ & _ & _ & _ & [Hsrc|Hsrc]); congruence.
Qed.

Lemma complete_spec r :
  complete r = true ↔
  ∀ c, c ∈ required_cols → is_Some (to_numeric_scalar (cell r c)).
Proof.
  unfold complete. rewrite forallb_forall. split.
  - intros Hc c Hin. apply list_elem_of_In, Hc in Hin.
    by apply bool_decide_eq_true in Hin.
  - intros Hc c Hin. apply bool_decide_eq_true, Hc. by apply list_elem_of_In.
Qed.

Lemma incomplete_spec r :
  (∃ c, c ∈ required_cols ∧ to_numeric_scalar (cell r c) = None) →
  complete r = false.
Proof.
  intros (c & Hin & Hnone). destruct (complete r) eqn:Hc; [|done].
  rewrite complete_spec in Hc. destruct (Hc c Hin) as [x Hx]. congruence.
Qed.



Lemma canonical_ticker t x : cell (canonical t x) "ticker" = VStr t.
Proof. done. Qed.

Lemma rows_cleaned t d : snd <$> rows (cleaned t d) = canonical t <$> kept d.
Proof.
  unfold cleaned. cbn [rows]. rewrite fmap_imap.
  rewrite (imap_ext _ (λ _, canonical t)) by done.
  exact (imap_const (canonical t) _).
Qed.

Lemma dates_cleaned t d :
  dates (cleaned t d) = (λ x, date_key x.1) <$> kept d.
Proof.
  unfold dates, column, cleaned. cbn [rows]. rewrite fmap_imap.
  rewrite (imap_ext _ (λ _ x, date_key x.1)) by done.
  exact (imap_const (λ x, date_key x.1) _).
Qed.



Lemma report_if_In b m : b = true → m ∈ report_if b m.
Proof. intros ->. apply list_elem_of_here. Qed.





(** C9. Cleaning does not mutate its argument: whatever the argument and
    whatever the outcome (a table, None or an exception), every DataFrame
    that existed before the call, the caller's one among them, holds the
    same index, columns and rows after it; the cleaner writes to objects
    it has created only. *)
Theorem argument_not_mutated df t w :
  heap w ⊆ heap (clean_ohlcv_data df t w).2.
Proof.
  destruct w as [h out e db]. destruct df as [l|]; [|done].
  destruct (h !! l) as [d|] eqn:Hl.
  - by destruct (clean_spec t l d h out e db Hl) as (Hh & _).
  - unfold clean_ohlcv_data, mbind, Py_bind, deref. cbn [heap]. by rewrite Hl.
Qed.

(** C10. Cleaning never returns an empty table: when [clean_ohlcv_data]
    returns a table, the table has at least one row (and columns), so
    [df.empty] is False for it. *)
Theorem never_an_empty_table df t w l' w' :
  clean_ohlcv_data df t w = (Normal (Some l'), w') →
  ∃ out, heap w' !! l' = Some out ∧ rows out ≠ [] ∧ df_empty out = false.
Proof.
  intros Hrun. destruct df as [l|].
  2:{ by destruct w. }
  destruct (heap w !! l) as [d|] eqn:Hl.
  2:{ unfold clean_ohlcv_data, mbind, Py_bind, deref in Hrun.
      by rewrite Hl in Hrun. }
  destruct (clean_returns_table _ _ _ _ _ _ Hl Hrun) as (_ & Hout & _ & Hk & _).
  exists (cleaned t d). split; [done|].
  assert (Hr : rows (cleaned t d) ≠ []).
  { intros Hr. apply Hk. apply (f_equal (fmap snd)) in Hr.
    rewrite rows_cleaned in Hr. by destruct (kept d). }
  split; [done|]. unfold df_empty. by destruct (rows (cleaned t d)).
Qed.

End cleaner_theorems.

Section cleaner_examples.
Import Python Pandas CleanerSpec DataCleaner Examples.



(** The scenario of the specification: the row of 2024-01-01, whose close
    does not parse, is dropped; the row of 2024-01-02 is the one row of
    the table. *)
Example raw_run :
  clean_ohlcv_data (Some 1%positive) "TST" w_raw
  = (Normal (Some 3%positive), w_raw')
  ∧ stdout w_raw'
    = [CleanerCleaning "TST" 2; CleanerDropped "TST" 1;
       CleanerFinished "TST" 1]
  ∧ (dates <$> heap w_raw' !! 3%positive) = Some [VDate jan2].
Proof.
  split; [vm_compute; reflexivity|].
  split; vm_compute; reflexivity.
Qed.






Lemma never_an_empty_table_witness :
  clean_ohlcv_data (Some 1%positive) "TST" w_raw = (Normal (Some 3%positive), w_raw')
  ∧ ∃ out, heap w_raw' !! 3%positive = Some out ∧ rows out ≠ []
           ∧ df_empty out = false.
Proof.
  split; [vm_compute; reflexivity|].
  apply (never_an_empty_table (Some 1%positive) "TST" w_raw 3%positive w_raw').
  vm_compute; reflexivity.
Defined.

End cleaner_examples.

(** * The indicator *)

Section indicators.
Import Python Indicators Examples.

Lemma length_omap_id {A} (l : list (option A)) :
  (length (omap id l) ≤ length l)%nat.
Proof. induction l as [|[x|] l IH]; cbn; lia. Qed.



Lemma rolling_mean_lookup w m s i :
  (snd <$> rolling_mean w m s) !! i =
  (λ _, let obs := omap id (drop (S i - w) (take (S i) (snd <$> s))) in
        if bool_decide (m ≤ length obs)%nat then Some (mean obs) else None)
    <$> s !! i.
Proof.
  unfold rolling_mean. rewrite list_lookup_fmap, list_lookup_imap.
  by destruct (s !! i).
Qed.

Lemma drop_take_window {A} (w i : nat) (l : list A) :
  (w ≤ S i)%nat →
  drop (S i - w) (take (S i) l) = take w (drop (S i - w) l).
Proof.
  intros Hw. rewrite take_drop_commute.
  by replace (S i - w + w)%nat with (S i) by lia.
Qed.



Lemma calculate_sma_rolling s window w :
  s ≠ [] → 0 < window → window ≤ Z.of_nat (length s) →
  (calculate_sma (Some s) window w).1
  = Normal (rolling_mean (Z.to_nat window) (Z.to_nat window) s).
Proof.
  intros Hs Hw Hlen. unfold calculate_sma.
  rewrite bool_decide_false by done.
  assert (Hle : (window <=? 0) = false) by by apply Z.leb_gt.
  assert (Hlt : (Z.of_nat (length s) <? window) = false) by by apply Z.ltb_ge.
  rewrite Hle, Hlt. done.
Qed.


Example sma_run w :
  (calculate_sma (Some samples) 2 w).1
  = Normal [(VDate Examples.jan1, None);
            (VDate Examples.jan2, Some ((1 + (2 + 0)) / 2)%Q);
            (VDate (Examples.jan2 + 1), Some ((2 + (4 + 0)) / 2)%Q)].
Proof. reflexivity. Qed.



End indicators.

(** * The storage engine *)

Section database_theorems.
Context `{Parsers}.
Import Python Pandas Database.

Lemma wp_get_engine (Q : Outcome bool → World → Prop) w :
  Q (Normal (engine w)) w → wp get_engine Q w.
Proof. done. Qed.

(** The write path stops at the lookup of [np], before the statement is
    built: database.py does not import numpy. *)
Lemma insert_raises_NameError l d w dates :
  engine w = true →
  heap w !! l = Some d →
  df_empty d = false →
  issubset required_cols (columns d) = true →
  to_datetime (column d "date") = Normal dates →
  ∃ w', insert_ohlcv_data (Some l) w = (Raised (NameError "np"), w')
        ∧ database w' = database w ∧ stdout w' = stdout w
        ∧ heap w ⊆ heap w'.
Proof.
  intros He Hl Hempty Hsub Hdates.
  enough (Hwp : wp (insert_ohlcv_data (Some l))
            (λ o w', o = Raised (NameError "np") ∧ database w' = database w
                     ∧ stdout w' = stdout w ∧ heap w ⊆ heap w') w).
  { unfold wp in Hwp. destruct (insert_ohlcv_data (Some l) w) as [o w'].
    cbn [fst snd] in Hwp. destruct Hwp as (-> & ?). by exists w'. }
  unfold insert_ohlcv_data.
  wp_seq. apply wp_get_engine. rewrite He. cbn [negb].
  wp_seq. eapply wp_deref; [done|]. rewrite Hempty, Hsub. cbn [negb].
  wp_seq. eapply wp_fresh_from; [done|]. intros l1 Hl1. wp_proj.
  wp_pd. wp_seq. eapply wp_deref; [apply lookup_insert_eq|].
  wp_seq. apply wp_lift. rewrite Hdates.
  wp_seq. eapply wp_inplace; [apply lookup_insert_eq|].
  destruct (setitem "date" (date_part <$> dates) d) as [d2|ex] eqn:Hset.
  2:{ apply to_datetime_Normal in Hdates as [-> _].
      unfold setitem, column in Hset.
      by rewrite bool_decide_true in Hset by by rewrite !length_fmap. }
  wp_proj. rewrite insert_insert_eq.
  wp_seq. eapply wp_fresh_from; [apply lookup_insert_eq|].
  rewrite select_subset.
  2:{ unfold setitem in Hset. destruct (bool_decide _); [|done].
      injection Hset as <-. by apply issubset_add_column. }
  intros l2 Hl2. wp_proj. cbn [heap] in Hl2.
  apply lookup_insert_None in Hl2 as [Hl2 _].
  wp_pd. wp_seq. apply wp_load_global.
  cbn [Pandas.inb existsb String.eqb Ascii.eqb Bool.eqb orb globals].
  wp_proj. repeat split; try done.
  do 2 (apply insert_subseteq_r; [done|]). done.
Qed.

(** ** The upsert statement *)




(** Writing the same record twice is writing it once. *)
Lemma upsert_row_idem new tbl :
  Postgres.upsert_row new (Postgres.upsert_row new tbl)
  = Postgres.upsert_row new tbl.
Proof.
  induction tbl as [|r tbl IH]; cbn [Postgres.upsert_row].
  - rewrite bool_decide_true by done. by destruct new.
  - case_bool_decide as Hk; cbn [Postgres.upsert_row].
    + rewrite bool_decide_true; [done|].
      unfold Postgres.key in *. by cbn.
    + rewrite bool_decide_false by done. by rewrite IH.
Qed.

(** A later write of the same key replaces the values of the earlier one. *)
Lemma upsert_row_last_wins new1 new2 tbl :
  Postgres.key new1 = Postgres.key new2 →
  Postgres.upsert_row new2 (Postgres.upsert_row new1 tbl)
  = Postgres.upsert_row new2 tbl.
Proof.
  intros Hkey. induction tbl as [|r tbl IH]; cbn [Postgres.upsert_row].
  - rewrite bool_decide_true by done.
    destruct new1, new2. unfold Postgres.key in Hkey. cbn in *. by simplify_eq.
  - case_bool_decide as Hk; cbn [Postgres.upsert_row].
    + rewrite !bool_decide_true; [done|congruence|].
      unfold Postgres.key in *. cbn. congruence.
    + rewrite !bool_decide_false by congruence. by rewrite IH.
Qed.


(** ** The read path *)
Import DatabaseSpec.

Lemma bound_date_arg b : bound (date_arg b) = Some b.
Proof. by destruct b. Qed.

Lemma wp_bound arg b (f : Z → Postgres.Select) stmt
    (Q : Outcome Postgres.Select → World → Prop) w :
  bound arg = Some b →
  Q (Normal (from_option f stmt b)) w →
  wp (if truthy arg then d ← to_date arg; mret (f d) else mret stmt) Q w.
Proof.
  unfold bound. intros Hb HQ. destruct (truthy arg); [|by simplify_eq].
  wp_seq. unfold to_date. wp_pd.
  destruct (to_datetime_scalar arg) as [[|d ns]|]; simplify_eq. by apply wp_ret.
Qed.

(** The frame read from the database holds floats already: the numeric
    conversion leaves it as it is. *)
Lemma to_numeric_frame_of_result rs col :
  col ∈ numeric_cols →
  setitem col (to_numeric (column (frame_of_result rs) col))
    (frame_of_result rs) = Normal (frame_of_result rs).
Proof.
  intros Hcol. rewrite to_numeric_column, setitem_fmap.
  unfold frame_of_result at 1 2 3 4. cbn [index_class index_name columns rows].
  f_equal. unfold frame_of_result. f_equal.
  - unfold numeric_cols in Hcol.
    repeat (apply elem_of_cons in Hcol as [->|Hcol]);
      [..|by apply elem_of_nil in Hcol]; done.
  - rewrite <- list_fmap_compose. apply list_fmap_ext. intros i r _.
    cbn [compose fst snd]. f_equal. apply insert_id.
    unfold numeric_cols in Hcol. unfold CleanerSpec.numeric_cell, float_cell.
    repeat (apply elem_of_cons in Hcol as [->|Hcol]);
      [..|by apply elem_of_nil in Hcol].
    + by destruct (Postgres.open r).
    + by destruct (Postgres.high r).
    + by destruct (Postgres.low r).
    + by destruct (Postgres.close r).
    + by destruct (Postgres.volume r).
Qed.

Lemma wp_read_sql stmt (Q : Outcome loc → World → Prop) w :
  match Postgres.execute_select stmt (database w) with
  | Normal rs =>
      ∀ l, heap w !! l = None →
        Q (Normal l)
          (mkWorld (<[l := frame_of_result rs]> (heap w)) (stdout w)
             (engine w) (database w))
  | Raised e => Q (Raised e) w
  end →
  wp (read_sql stmt) Q w.
Proof.
  intros HQ. unfold wp, read_sql.
  destruct (Postgres.execute_select stmt (database w)) as [rs|e]; [|done].
  exact (wp_new _ Q w HQ).
Qed.

Lemma fetch_spec t start_date end_date lo hi w :
  engine w = true →
  Postgres.online (database w) = true →
  bound start_date = Some lo →
  bound end_date = Some hi →
  ∃ l' w',
    fetch_ohlcv_data t start_date end_date w = (Normal l', w')
    ∧ heap w !! l' = None
    ∧ heap w' = <[l' := frame_of_result (selected t lo hi (database w))]> (heap w)
    ∧ database w' = database w.
Proof.
  intros He Hon Hlo Hhi.
  enough (Hwp : wp (fetch_ohlcv_data t start_date end_date)
            (λ o w', ∃ l', o = Normal l' ∧ heap w !! l' = None
               ∧ heap w' = <[l' := frame_of_result (selected t lo hi (database w))]> (heap w)
               ∧ database w' = database w) w).
  { unfold wp in Hwp.
    destruct (fetch_ohlcv_data t start_date end_date w) as [o w'].
    cbn [fst snd] in Hwp. destruct Hwp as (l' & -> & ?). by exists l', w'. }
  unfold fetch_ohlcv_data.
  wp_seq. apply wp_get_engine. rewrite He. cbn [negb].
  wp_seq.
  eapply wp_bound; [exact Hlo|]. wp_seq. eapply wp_bound; [exact Hhi|].
  apply wp_try_except. wp_pd. wp_seq. apply wp_read_sql.
  unfold Postgres.execute_select. rewrite Hon. cbn [negb].
  intros l' Hl'. wp_proj.
  match goal with
  | |- wp _ _ (mkWorld (<[_ := frame_of_result ?rs]> _) _ _ _) =>
    assert (Hsel : rs = selected t lo hi (database w)) end.
  { unfold selected. cbn [order_by_date Postgres.order_by_date]. f_equal.
    apply list_filter_iff. intros r. unfold in_range.
    destruct lo, hi; unfold order_by_date, where_; simpl;
      by rewrite ?andb_true_r, ?andb_assoc. }
  rewrite Hsel. clear Hsel.
  wp_seq. unfold numeric_cols. cbn [for_each].
  do 5 (wp_seq; wp_seq; (eapply wp_deref; [apply lookup_insert_eq|]);
        cbn [frame_of_result columns inb existsb String.eqb Ascii.eqb Bool.eqb orb];
        apply wp_when; wp_pd;
        (eapply wp_inplace; [apply lookup_insert_eq|]);
        change (mkDF DatetimeIndex (Some "date")
                  ["ticker"; "open"; "high"; "low"; "close"; "volume"] ?rs)
          with (frame_of_result (selected t lo hi (database w)));
        rewrite to_numeric_frame_of_result
          by (unfold numeric_cols; repeat constructor);
        wp_proj; rewrite insert_insert_eq).
  apply wp_ret.
  wp_seq. eapply wp_deref; [apply lookup_insert_eq|].
  wp_seq. apply wp_print. apply wp_ret. wp_proj.
  exists l'. done.
Qed.


#[local] Instance date_le_total : Total Postgres.date_le.
Proof. intros a b. unfold Postgres.date_le. lia. Qed.

#[local] Instance date_le_trans : Transitive Postgres.date_le.
Proof. intros a b c. unfold Postgres.date_le. lia. Qed.

Lemma in_range_spec t lo hi r :
  in_range t lo hi r = true ↔
  Postgres.ticker r = t
  ∧ (∀ d, lo = Some d → d ≤ Postgres.date r)
  ∧ (∀ d, hi = Some d → Postgres.date r ≤ d).
Proof.
  unfold in_range. rewrite !andb_true_iff, bool_decide_eq_true.
  destruct lo as [a|], hi as [b|]; cbn [from_option];
    rewrite ?bool_decide_eq_true.
  all: split;
    [intros [[Ht Hlo] Hhi]; split; [done|];
     split; intros d Hd; by inversion Hd; subst
    |intros (Ht & Hlo & Hhi); auto].
Qed.

(** C3. Range query bounds: with the engine set up and the database
    reachable, for every ticker and bounds (dates, or texts that parse as
    dates; None or the empty text for an omitted bound),
    [fetch_ohlcv_data] returns a frame built from exactly the stored
    records of the ticker whose date lies within the bounds (an omitted
    bound constrains nothing), each once, in ascending order of date,
    indexed by date; it returns normally, with a frame of no rows, when no
    stored record matches. *)
Theorem range_query t start_date end_date lo hi w :
  engine w = true →
  Postgres.online (database w) = true →
  bound start_date = Some lo →
  bound end_date = Some hi →
  ∃ l' w' sel,
    fetch_ohlcv_data t start_date end_date w = (Normal l', w')
    ∧ heap w' !! l' = Some (frame_of_result sel)
    ∧ index (frame_of_result sel)
      = (λ r, VTime (Stamp (Postgres.date r) 0)) <$> sel
    ∧ sel ≡ₚ filter (λ r, in_range t lo hi r = true)
               (Postgres.ohlcv_data (database w))
    ∧ (∀ r, r ∈ sel ↔
            r ∈ Postgres.ohlcv_data (database w)
            ∧ Postgres.ticker r = t
            ∧ (∀ d, lo = Some d → d ≤ Postgres.date r)
            ∧ (∀ d, hi = Some d → Postgres.date r ≤ d))
    ∧ StronglySorted Postgres.date_le sel
    ∧ ((∀ r, r ∈ Postgres.ohlcv_data (database w) →
             in_range t lo hi r = false) →
       rows (frame_of_result sel) = []).
Proof.
  intros He Hon Hlo Hhi.
  destruct (fetch_spec t _ _ lo hi w He Hon Hlo Hhi)
    as (l' & w' & Hrun & _ & Hheap & _).
  exists l', w', (selected t lo hi (database w)).
  assert (Hperm : selected t lo hi (database w)
                  ≡ₚ filter (λ r, in_range t lo hi r = true)
                       (Postgres.ohlcv_data (database w)))
    by apply merge_sort_Permutation.
  split; [done|]. split; [by rewrite Hheap, lookup_insert_eq|].
  split; [unfold index, frame_of_result; cbn [rows];
          by rewrite <- list_fmap_compose|].
  split; [done|]. split; [|split].
  - intros r. rewrite Hperm, list_elem_of_filter, in_range_spec. tauto.
  - apply StronglySorted_merge_sort; apply _.
  - intros Hnone. unfold frame_of_result. cbn [rows].
    destruct (selected t lo hi (database w)) as [|r sel] eqn:Hsel; [done|].
    assert (Hr : r ∈ filter (λ r, in_range t lo hi r = true)
                   (Postgres.ohlcv_data (database w)))
      by (rewrite <- Hperm; left).
    apply list_elem_of_filter in Hr as [Hr Hin]. by rewrite Hnone in Hr.
Qed.

(** C5, as amended.  Every numeric field that [fetch_ohlcv_data] returns
    is the binary64 float nearest to the stored decimal (NaN for NULL):
    it is within a relative error of 2^-53 of the stored value, and is not
    an exact decimal in general. *)
Theorem reads_are_binary64 t start_date end_date lo hi w :
  engine w = true →
  Postgres.online (database w) = true →
  bound start_date = Some lo →
  bound end_date = Some hi →
  ∃ l' w' out,
    fetch_ohlcv_data t start_date end_date w = (Normal l', w')
    ∧ heap w' !! l' = Some out
    ∧ Forall2 (λ r x, ∀ c v, (c, v) ∈ numeric_fields r →
                 match v with
                 | Some q =>
                     cell x.2 c = VNum (Float.float64 q)
                     ∧ (Qabs (Float.float64 q - q)
                        <= Qabs q * (1 # 9007199254740992))%Q
                 | None => cell x.2 c = VNone
                 end)
        (selected t lo hi (database w)) (rows out).
Proof.
  intros He Hon Hlo Hhi.
  destruct (fetch_spec t _ _ lo hi w He Hon Hlo Hhi)
    as (l' & w' & Hrun & _ & Hheap & _).
  exists l', w', (frame_of_result (selected t lo hi (database w))).
  split; [done|]. split; [by rewrite Hheap, lookup_insert_eq|].
  unfold frame_of_result. cbn [rows]. apply Forall2_fmap_r, Forall_Forall2_diag.
  apply Forall_forall. intros r _ c v Hc. unfold numeric_fields in Hc.
  cbn [snd].
  repeat (apply elem_of_cons in Hc as [[= -> ->]|Hc]);
    [..|by apply elem_of_nil in Hc].
  all: match goal with |- match ?v with _ => _ end => destruct v as [q|] end;
    [split; [done|apply float64_error]|done].
Qed.

End database_theorems.

Section database_examples.
Import Python Pandas Database DatabaseSpec Examples.

Lemma range_query_witness :
  engine w_tenth = true
  ∧ Postgres.online (database w_tenth) = true
  ∧ bound (VDate jan1) = Some (Some jan1)
  ∧ bound VNone = Some None
  ∧ ∃ l' w' sel,
    fetch_ohlcv_data "TST" (VDate jan1) VNone w_tenth = (Normal l', w')
    ∧ heap w' !! l' = Some (frame_of_result sel)
    ∧ index (frame_of_result sel)
      = (λ r, VTime (Stamp (Postgres.date r) 0)) <$> sel
    ∧ sel ≡ₚ filter (λ r, in_range "TST" (Some jan1) None r = true)
               (Postgres.ohlcv_data (database w_tenth))
    ∧ (∀ r, r ∈ sel ↔
            r ∈ Postgres.ohlcv_data (database w_tenth)
            ∧ Postgres.ticker r = "TST"
            ∧ (∀ d, Some jan1 = Some d → d ≤ Postgres.date r)
            ∧ (∀ d, None = Some d → Postgres.date r ≤ d))
    ∧ StronglySorted Postgres.date_le sel
    ∧ ((∀ r, r ∈ Postgres.ohlcv_data (database w_tenth) →
             in_range "TST" (Some jan1) None r = false) →
       rows (frame_of_result sel) = []).
Proof.
  do 4 (split; [reflexivity|]).
  apply (range_query "TST" (VDate jan1) VNone (Some jan1) None w_tenth);
    reflexivity.
Defined.

Lemma reads_are_binary64_witness :
  engine w_tenth = true
  ∧ Postgres.online (database w_tenth) = true
  ∧ bound VNone = Some None
  ∧ bound VNone = Some None
  ∧ ∃ l' w' out,
    fetch_ohlcv_data "TST" VNone VNone w_tenth = (Normal l', w')
    ∧ heap w' !! l' = Some out
    ∧ Forall2 (λ r x, ∀ c v, (c, v) ∈ numeric_fields r →
                 match v with
                 | Some q =>
                     cell x.2 c = VNum (Float.float64 q)
                     ∧ (Qabs (Float.float64 q - q)
                        <= Qabs q * (1 # 9007199254740992))%Q
                 | None => cell x.2 c = VNone
                 end)
        (selected "TST" None None (database w_tenth)) (rows out).
Proof.
  do 4 (split; [reflexivity|]).
  apply (reads_are_binary64 "TST" VNone VNone None None w_tenth);
    reflexivity.
Defined.

(** C5 as stated fails: the stored close 0.1 is read back as the double
    nearest to it, which is another number. *)
Lemma decimal_reads_counterexample :
  ∃ l' w' out,
    fetch_ohlcv_data "TST" VNone VNone w_tenth = (Normal l', w')
    ∧ heap w' !! l' = Some out
    ∧ Postgres.close <$> Postgres.ohlcv_data (database w_tenth)
      = [Some (1 # 10)%Q]
    ∧ column out "close" = [VNum (Float.float64 (1 # 10))]
    ∧ (Float.float64 (1 # 10) == 3602879701896397 # 36028797018963968)%Q
    ∧ ¬ (Float.float64 (1 # 10) == 1 # 10)%Q.
Proof.
  destruct (fetch_spec "TST" VNone VNone None None w_tenth
              eq_refl eq_refl eq_refl eq_refl)
    as (l' & w' & Hrun & _ & Hheap & _).
  exists l', w',
    (frame_of_result (selected "TST" None None (database w_tenth))).
  split; [exact Hrun|].
  split; [rewrite Hheap; apply lookup_insert_eq|].
  split; [vm_compute; reflexivity|].
  split; [vm_compute; reflexivity|].
  split; [vm_compute; reflexivity|].
  intros Hq. vm_compute in Hq. discriminate.
Qed.

(** What the statement does when it is executed: the stored row is
    overwritten. *)
Example upsert_statement_overwrites :
  Postgres.execute_upsert [canonical_row 110]
    (Postgres.mkDatabase true [stored 104])
  = Normal (Postgres.mkDatabase true [stored 110]).
Proof. vm_compute. reflexivity. Qed.

(** C1, on the code: with the record (TST, 2024-01-02, close 104) stored,
    the call of [insert_ohlcv_data] with the same key and close 110 ends in
    NameError at the lookup of [np], before the upsert statement is built:
    the stored row keeps close 104, the update is not written. *)
Theorem update_not_written :
  ∃ w', insert_ohlcv_data (Some 1%positive) w_update
        = (Raised (NameError "np"), w')
        ∧ Postgres.ohlcv_data (database w') = [stored 104].
Proof. eexists. split; [vm_compute; reflexivity|reflexivity]. Qed.

(** C6, on the code: the call of [insert_ohlcv_data] on a table of one
    canonical row raises NameError to its caller; the lookup of [np] is
    outside the try block, nothing is caught and nothing is reported. *)
Theorem insert_raises :
  ∃ w', insert_ohlcv_data (Some 1%positive) w_insert
        = (Raised (NameError "np"), w')
        ∧ database w' = no_database ∧ stdout w' = [].
Proof. eexists. split; [vm_compute; reflexivity|]. split; reflexivity. Qed.

End database_examples.

(** * Further properties: every exit of the cleaner, the storage functions,
    the moving average, the fetcher and the scripts *)

(** * The exits of the cleaner *)

Section cleaner_cases_run.
Context `{Parsers}.
Import Python Pandas CleanerSpec DataCleaner CleanerCases.

Lemma class_of_stamps {A} (f : A → Timestamp) (l : list A) :
  class_of ((λ x, VTime (f x)) <$> l) = DatetimeIndex.
Proof.
  unfold class_of. replace (forallb _ _) with true; [done|].
  symmetry. apply forallb_forall. intros c Hc.
  apply list_elem_of_In, list_elem_of_fmap in Hc as (x & -> & _). done.
Qed.

Lemma to_datetime_Raised cs ex :
  to_datetime cs = Raised ex → ex = ValueError "Unknown datetime string format".
Proof. unfold to_datetime. destruct (mapM _ cs); [done|]. by intros [= <-]. Qed.

Lemma index_cases t l1 d h out e db :
  h !! l1 = None →
  issubset required_cols (columns d) = true →
  wp
    (pd;;
     if isinstance_DatetimeIndex d then
       inplace l1 (setitem "date" (index d));;
       mret (Some l1)
     else if inb "date" (columns d) then
       pd;;
       dates ← lift (to_datetime (column d "date"));
       inplace l1 (setitem "date" dates);;
       df_cleaned ← fresh_from l1 (set_index "date");
       mret (Some df_cleaned)
     else
       try_except
         (pd;;
          labels ← lift (to_datetime (index d));
          inplace l1 (set_index_labels labels);;
          d ← deref l1;
          inplace l1 (setitem "date" (index d));;
          print (CleanerUsedIndex t);;
          mret (Some l1))
         except_TypeError_ValueError
         (λ _, print (CleanerNeedsDate t);; mret None))
    (λ o w1,
       h ⊆ heap w1 ∧ engine w1 = e ∧ database w1 = db ∧
       match to_datetime (date_values d) with
       | Raised ex =>
           match date_source d with
           | FromColumn =>
               o = Raised ex
               ∧ stdout w1 = out ++ [CleanerCleaning t (length (rows d))]
           | _ =>
               o = Normal None
               ∧ stdout w1 = out ++ [CleanerCleaning t (length (rows d))]
                               ++ [CleanerNeedsDate t]
           end
       | Normal _ =>
           ∃ l2 d1, o = Normal (Some l2) ∧ h !! l2 = None
             ∧ heap w1 !! l2 = Some d1
             ∧ stdout w1 = out ++ [CleanerCleaning t (length (rows d))]
                 ++ match date_source d with
                    | FromLabels => [CleanerUsedIndex t]
                    | _ => []
                    end
             ∧ isinstance_DatetimeIndex d1 = true
             ∧ index_name d1 = match date_source d with
                               | FromColumn => Some "date"
                               | _ => index_name d
                               end
             ∧ columns d1 = add_column "date" (columns d)
             ∧ rows d1 = (λ x, (date_label d x, <["date" := date_label d x]> x.2))
                           <$> rows d
       end)
    (mkWorld (<[l1 := d]> h) (out ++ [CleanerCleaning t (length (rows d))]) e db).
Proof.
  intros Hl1 Hsub. unfold date_values, date_label, date_source.
  wp_pd.
  destruct (isinstance_DatetimeIndex d) eqn:Hdt.
  - wp_seq. eapply wp_inplace; [apply lookup_insert_eq|].
    unfold index. rewrite setitem_fmap. wp_proj. rewrite insert_insert_eq.
    apply wp_ret. wp_proj.
    split; [by apply insert_subseteq_r|]. do 2 (split; [done|]).
    cbn [to_datetime mapM]. eexists l1, _.
    split; [done|]. split; [done|]. split; [apply lookup_insert_eq|].
    split; [by rewrite app_nil_r|]. done.
  - destruct (inb "date" (columns d)) eqn:Hdate.
    + wp_pd. wp_seq. apply wp_lift.
      destruct (to_datetime (column d "date")) as [dates|ex] eqn:Hdates.
      2:{ wp_proj. split; [by apply insert_subseteq_r|]. done. }
      apply to_datetime_Normal in Hdates as [-> _].
      unfold column. rewrite <- list_fmap_compose.
      wp_seq. eapply wp_inplace; [apply lookup_insert_eq|].
      rewrite setitem_fmap. wp_proj. rewrite insert_insert_eq.
      wp_seq. eapply wp_fresh_from; [apply lookup_insert_eq|].
      unfold set_index. cbn [columns rows index_name index_class].
      rewrite add_column_present by done. rewrite Hdate.
      intros l2 Hl2. wp_proj. cbn [heap] in Hl2.
      apply lookup_insert_None in Hl2 as [Hl2 Hne].
      apply wp_ret. wp_proj.
      split; [do 2 (apply insert_subseteq_r; [done|]); done|].
      do 2 (split; [done|]).
      eexists l2, _. split; [done|]. split; [done|].
      split; [apply lookup_insert_eq|]. split; [by rewrite app_nil_r|].
      cbn [columns rows index_name index_class].
      split.
      { unfold isinstance_DatetimeIndex. cbn [index_class].
        unfold column. cbn [rows]. rewrite <- list_fmap_compose.
        erewrite list_fmap_ext; [rewrite (class_of_stamps (λ x : Cell * Row, stamp (cell x.2 "date"))); done|].
        intros i x _. cbn [compose fst snd]. by rewrite cell_insert_eq. }
      split; [done|]. split; [done|].
      rewrite <- list_fmap_compose. apply list_fmap_ext.
      intros i x _. cbn [compose fst snd]. by rewrite cell_insert_eq.
    + apply wp_try_except. wp_pd. wp_seq. apply wp_lift.
      destruct (to_datetime (index d)) as [labels|ex] eqn:Hlabels.
      2:{ apply to_datetime_Raised in Hlabels as ->.
          cbn [except_TypeError_ValueError].
          wp_seq. apply wp_print. apply wp_ret. wp_proj.
          split; [by apply insert_subseteq_r|]. do 2 (split; [done|]).
          split; [done|]. by rewrite <- app_assoc. }
      apply to_datetime_Normal in Hlabels as [-> _].
      unfold index. rewrite <- list_fmap_compose.
      wp_seq. eapply wp_inplace; [apply lookup_insert_eq|].
      unfold set_index_labels.
      rewrite bool_decide_true by apply length_fmap.
      rewrite zip_with_fmap_r, zip_with_diag.
      wp_proj. rewrite insert_insert_eq.
      wp_seq. eapply wp_deref; [apply lookup_insert_eq|].
      wp_seq. eapply wp_inplace; [apply lookup_insert_eq|].
      match goal with |- context [setitem "date" (fst <$> rows ?d')] =>
        rewrite (setitem_fmap "date" fst d') end.
      cbn [columns rows index_name index_class].
      wp_proj. rewrite insert_insert_eq.
      wp_seq. apply wp_print. wp_proj. apply wp_ret. wp_proj.
      split; [by apply insert_subseteq_r|]. do 2 (split; [done|]).
      eexists l1, _. split; [done|]. split; [done|].
      split; [apply lookup_insert_eq|]. split; [by rewrite <- app_assoc|].
      cbn [columns rows index_name index_class].
      split.
      { unfold isinstance_DatetimeIndex. cbn [index_class].
        change ((λ c : Cell, VTime (stamp c)) ∘ fst)
          with (λ x : Cell * Row, VTime (stamp x.1)).
        by rewrite class_of_stamps. }
      split; [done|]. split; [done|].
      by rewrite <- list_fmap_compose.
Qed.

Lemma to_datetime_times cs :
  forallb is_time cs = true → to_datetime cs = Normal cs.
Proof.
  intros Hcs. unfold to_datetime.
  assert (Hm : mapM to_datetime_scalar cs = Some (stamp <$> cs)
               ∧ VTime <$> (stamp <$> cs) = cs).
  { induction cs as [|c cs IH]; [done|]. cbn [forallb] in Hcs.
    apply andb_true_iff in Hcs as [Hc Hcs]. destruct (IH Hcs) as [IH1 IH2].
    destruct c; try done. split.
    - cbn [mapM to_datetime_scalar]. rewrite IH1. done.
    - rewrite !fmap_cons, IH2. done. }
  destruct Hm as [-> ->]. done.
Qed.

Lemma date_label_is_time d x :
  well_formed d = true → x ∈ rows d → is_time (date_label d x) = true.
Proof.
  unfold well_formed, date_label, date_source. intros Hwf Hx.
  destruct (isinstance_DatetimeIndex d); [|by destruct (inb "date" (columns d))].
  cbn [negb orb] in Hwf. rewrite forallb_forall in Hwf.
  apply Hwf, list_elem_of_In. unfold index. apply list_elem_of_fmap. eauto.
Qed.

Lemma date_label_key d x :
  date_source d ≠ FromColumn →
  date_part (VTime (stamp (date_label d x))) = date_key x.1.
Proof.
  unfold date_label, date_key, stamp. intros Hsrc.
  destruct (date_source d); [|done|].
  - by destruct (to_datetime_scalar x.1).
  - cbn [to_datetime_scalar default]. by destruct (to_datetime_scalar x.1).
Qed.

Lemma rows_after_dropna_label (lab : Cell * Row → Cell) (rs : list (Cell * Row)) :
  filter (λ x, forallb (λ c, negb (isna (cell x.2 c))) required_cols = true)
    ((λ x, (x.1, coerce x.2))
       <$> ((λ x : Cell * Row, (lab x, <["date" := lab x]> x.2)) <$> rs))
  = (λ x, (lab x, coerce (<["date" := lab x]> x.2)))
      <$> filter (λ x, complete x.2 = true) rs.
Proof.
  rewrite <- list_fmap_compose, filter_fmap'. f_equal.
  apply list_filter_iff. intros x. cbn [compose fst snd].
  by rewrite notna_coerce_date.
Qed.

Lemma insert_label_after d d1 :
  index_name d1 = match date_source d with
                  | FromColumn => Some "date"
                  | _ => index_name d
                  end →
  columns d1 = add_column "date" (columns d) →
  match index_name d1 with
  | Some n => n
  | None => if inb "index" (columns d1) then "level_0" else "index"
  end = insert_label d.
Proof.
  intros -> ->. unfold insert_label, reset_name. by destruct (date_source d).
Qed.

Lemma label_clash_column d :
  date_source d = FromColumn → label_clash d = true.
Proof.
  unfold label_clash, insert_label. intros ->. apply inb_add_column_same.
Qed.

Ltac exit_is d X :=
  let Hexit := fresh "Hexit" in
  assert (Hexit : CleanerCases.exit_of d = X);
  [ unfold CleanerCases.exit_of
  | unfold CleanerCases.log_of, CleanerCases.outcome_is; rewrite Hexit ].

Lemma clean_run t l d h out e db :
  h !! l = Some d →
  well_formed d = true →
  wp (clean_ohlcv_data (Some l) t)
    (λ o w', h ⊆ heap w' ∧ engine w' = e ∧ database w' = db
       ∧ stdout w' = out ++ log_of t d
       ∧ ∃ r, outcome_is d o r
              ∧ ∀ l', r = Some l' →
                  h !! l' = None ∧ heap w' !! l' = Some (cleaned t d))
    (mkWorld h out e db).
Proof.
  intros Hl Hwf. unfold clean_ohlcv_data.
  wp_seq. eapply wp_deref; [done|].
  destruct (df_empty d) eqn:Hempty.
  { wp_seq. apply wp_print. apply wp_ret. wp_proj.
    exit_is d NoData; [by rewrite Hempty|].
    do 4 (split; [done|]). by exists None. }
  wp_seq. apply wp_print. wp_proj.
  wp_seq. eapply wp_fresh_from; [done|]. intros l0 Hl0. wp_proj.
  cbn [heap] in Hl0.
  wp_seq. eapply wp_deref; [wp_proj; apply lookup_insert_eq|].
  destruct (issubset required_cols (columns d)) eqn:Hsub; cbn [negb].
  2:{ wp_seq. apply wp_print. apply wp_ret. wp_proj.
      exit_is d MissingColumns; [by rewrite Hempty, Hsub|].
      split; [by apply insert_subseteq_r|]. do 2 (split; [done|]).
      split; [by rewrite <- app_assoc|]. by exists None. }
  wp_seq. eapply wp_mono; [by apply index_cases|].
  intros o w1 (Hh & He & Hdb & Hidx).
  destruct (to_datetime (date_values d)) as [vals|ex] eqn:Hvals.
  2:{ destruct (date_source d) eqn:Hsrc; destruct Hidx as [-> Hout].
      - apply wp_ret.
        exit_is d NeedsDate; [by rewrite Hempty, Hsub, Hvals, Hsrc|].
        do 3 (split; [done|]). split; [done|]. by exists None.
      - exit_is d (DatesRaise ex); [by rewrite Hempty, Hsub, Hvals, Hsrc|].
        do 3 (split; [done|]). split; [done|]. by exists None.
      - apply wp_ret.
        exit_is d NeedsDate; [by rewrite Hempty, Hsub, Hvals, Hsrc|].
        do 3 (split; [done|]). split; [done|]. by exists None. }
  destruct Hidx as (l1 & d1 & -> & Hl1 & Hd1 & Hout & Hdt1 & Hname1 & Hcols1 & Hrows1).
  wp_pd. wp_seq. eapply wp_deref; [done|]. rewrite Hdt1. cbn [negb].
  assert (Hsub1 : issubset required_cols (columns d1) = true)
    by (rewrite Hcols1; by apply issubset_add_column).
  assert (Hdate1 : inb "date" (columns d1) = true)
    by (rewrite Hcols1; apply inb_add_column_same).
  wp_seq. apply wp_numeric_loop with (d1 := d1); [done..|]. wp_proj.
  wp_seq. eapply wp_deref; [apply lookup_insert_eq|].
  wp_seq. eapply wp_inplace; [apply lookup_insert_eq|].
  cbn [columns rows index_name index_class].
  match goal with |- context [dropna required_cols ?d5] =>
    remember (dropna required_cols d5) as d6 eqn:Hd6 end.
  assert (Hcls6 : isinstance_DatetimeIndex d6 = true) by by subst d6.
  assert (Hcols6 : columns d6 = columns d1) by by subst d6.
  assert (Hname6 : index_name d6 = index_name d1) by by subst d6.
  set (g := λ x : Cell * Row,
         (date_label d x, coerce (<["date" := date_label d x]> x.2))).
  assert (Hkept : rows d6 = g <$> kept d).
  { subst d6. unfold dropna. cbn [rows]. rewrite Hrows1.
    apply rows_after_dropna_label. }
  clear Hd6. rewrite length_fmap.
  wp_proj. rewrite insert_insert_eq.
  wp_seq. eapply wp_deref; [apply lookup_insert_eq|].
  wp_seq. apply wp_when_print. wp_proj.
  assert (Hlen1 : length (rows d1) = length (rows d))
    by by rewrite Hrows1, length_fmap.
  assert (Hlen6 : length (rows d6) = length (kept d))
    by by rewrite Hkept, length_fmap.
  assert (Hcols : columns d6 ≠ []) by (rewrite Hcols6; by eapply inb_nonempty).
  rewrite Hlen1, Hlen6, Hout. fold (dropped_report t d).
  destruct (df_empty d6) eqn:Hempty6.
  { wp_seq. apply wp_print. apply wp_ret. wp_proj.
    assert (Hk : kept d = []).
    { unfold df_empty in Hempty6. destruct (rows d6) eqn:Hr6.
      - rewrite Hkept in Hr6. by destruct (kept d).
      - by destruct (columns d6). }
    exit_is d BecameEmpty;
      [by rewrite Hempty, Hsub, Hvals, bool_decide_true by done|].
    split; [by apply insert_subseteq_r|]. do 2 (split; [done|]).
    split; [by rewrite <- !app_assoc|]. by exists None. }
  assert (Hk : kept d ≠ []).
  { intros Hk. rewrite Hk in Hkept. unfold df_empty in Hempty6.
    by rewrite Hkept in Hempty6. }
  do 4 (wp_seq; apply wp_when_print; wp_proj).
  wp_seq. apply wp_print. wp_proj.
  rewrite !df_empty_length by done.
  rewrite (count_where _ high_below_low g d6 (kept d) Hkept).
  2:{ intros x. unfold g, high_below_low. cbn [snd].
      by rewrite !cell_coerce_date by (apply in_required; tauto). }
  rewrite (count_where _ (outside "close") g d6 (kept d) Hkept).
  2:{ intros x. unfold g, outside. cbn [snd].
      by rewrite !cell_coerce_date by (apply in_required; tauto). }
  rewrite (count_where _ (outside "open") g d6 (kept d) Hkept).
  2:{ intros x. unfold g, outside. cbn [snd].
      by rewrite !cell_coerce_date by (apply in_required; tauto). }
  rewrite (count_where _ zero_volume g d6 (kept d) Hkept).
  2:{ intros x. unfold g, zero_volume. cbn [snd].
      by rewrite !cell_coerce_date by (apply in_required; tauto). }
  rewrite existsb_swap, Hkept, existsb_fmap.
  rewrite (existsb_pointwise _ (λ x, negative x.2)).
  2:{ intros x. unfold g, negative, required_cols. cbn [snd existsb].
      by rewrite !cell_coerce_date by (apply in_required; tauto). }
  match goal with |- wp _ _ (mkWorld _ ?log _ _) =>
    assert (Hlog : log = out ++ [CleanerCleaning t (length (rows d))]
              ++ match date_source d with
                 | FromLabels => [CleanerUsedIndex t]
                 | _ => []
                 end
              ++ dropped_report t d ++ anomaly_reports t d
              ++ [CleanerFinished t (length (kept d))])
      by (unfold anomaly_reports; cbv zeta; by rewrite <- !app_assoc);
    rewrite Hlog; clear Hlog end.
  wp_pd. rewrite Hcls6. wp_seq. apply wp_when.
  eapply wp_inplace; [apply lookup_insert_eq|].
  unfold reset_index. rewrite Hname6, Hcols6.
  rewrite (insert_label_after d d1 Hname1 Hcols1).
  rewrite Hcols1. fold (label_clash d).
  destruct (label_clash d) eqn:Hclash.
  { wp_proj.
    exit_is d ResetRaises;
      [by rewrite Hempty, Hsub, Hvals, bool_decide_false, Hclash by done|].
    split; [by apply insert_subseteq_r|].
    do 2 (split; [done|]). split; [done|]. by exists None. }
  exit_is d ReturnsTable;
    [by rewrite Hempty, Hsub, Hvals, bool_decide_false, Hclash by done|].
  assert (Hsrc : date_source d ≠ FromColumn).
  { intros Hsrc. by rewrite label_clash_column in Hclash. }
  wp_proj. rewrite insert_insert_eq.
  wp_seq. eapply wp_deref; [apply lookup_insert_eq|].
  cbn [columns rows index_name index_class].
  set (name := insert_label d) in *.
  replace (inb "date" (name :: add_column "date" (columns d))) with true
    by (cbn [inb existsb]; fold (inb "date" (add_column "date" (columns d)));
        by rewrite inb_add_column_same, orb_true_r).
  cbn [negb].
  wp_pd. wp_seq. apply wp_lift.
  match goal with |- context [to_datetime ?cs] =>
    destruct (to_datetime cs) as [dates|ex] eqn:Hdates end.
  2:{ exfalso. rewrite to_datetime_times in Hdates; [done|].
      apply forallb_forall. intros c Hc. apply list_elem_of_In in Hc.
      unfold column in Hc. cbn [rows] in Hc.
      apply list_elem_of_fmap in Hc as (y & -> & Hy).
      apply elem_of_lookup_imap in Hy as (i & x & -> & Hx).
      cbn [snd fst]. rewrite Hkept in Hx. rewrite list_lookup_fmap in Hx.
      destruct (kept d !! i) as [x0|] eqn:Hx0; [|done]. injection Hx as <-.
      unfold g. cbn [fst snd].
      rewrite cell_insert_ne
        by (apply (inb_ne _ _ (add_column "date" (columns d))); [done|apply inb_add_column_same]).
      rewrite cell_coerce_other, cell_insert_eq by by apply inb_false.
      apply date_label_is_time; [done|].
      apply list_elem_of_lookup_2 in Hx0. unfold kept in Hx0.
      by apply list_elem_of_filter in Hx0 as [_ ?]. }
  apply to_datetime_Normal in Hdates as [-> _].
  unfold column. cbn [rows]. rewrite <- !list_fmap_compose.
  wp_seq. eapply wp_inplace; [apply lookup_insert_eq|].
  rewrite setitem_fmap_mk.
  wp_proj. rewrite insert_insert_eq.
  wp_seq. eapply wp_inplace; [apply lookup_insert_eq|].
  unfold setitem_scalar. cbn [columns rows index_name index_class].
  wp_proj. rewrite insert_insert_eq.
  wp_seq. eapply wp_fresh_from; [apply lookup_insert_eq|].
  rewrite select_subset.
  2:{ cbn [columns]. apply issubset_final. by apply issubset_add_column. }
  cbn [columns rows index_name index_class].
  intros l3 Hl3. cbn [heap] in Hl3. apply lookup_insert_None in Hl3 as [Hl3 Hne].
  wp_proj. apply wp_ret. wp_proj.
  split; [do 2 (apply insert_subseteq_r; [by eapply lookup_weaken_None|]); done|].
  do 2 (split; [done|]). split; [done|].
  exists (Some l3). split; [by exists l3|]. intros ? [= <-].
  split; [by eapply lookup_weaken_None|].
  rewrite lookup_insert_eq. f_equal. unfold cleaned. f_equal. rewrite Hkept.
  rewrite !fmap_imap, imap_fmap. apply imap_ext. intros i [lab0 r] _.
  unfold g. cbn [compose fst snd]. f_equal.
  unfold canonical, final_cols. cbn [fmap list_fmap fst snd].
  assert (Hne' : ∀ c, inb c (add_column "date" (columns d)) = true → name ≠ c)
    by (intros c; by apply inb_ne).
  destruct (issubset_required _ Hsub1) as (Ho & Hhi & Hlo & Hc & Hv).
  rewrite Hcols1 in Ho, Hhi, Hlo, Hc, Hv.
  rewrite !cell_insert_eq.
  rewrite (cell_insert_ne _ "ticker" _ "date") by done.
  rewrite cell_insert_eq, (cell_insert_ne _ name _ "date")
    by (apply Hne', inb_add_column_same).
  rewrite cell_coerce_other, cell_insert_eq by by apply inb_false.
  rewrite (date_label_key d (lab0, r)) by done.
  rewrite !(cell_insert_ne _ "ticker") by done.
  rewrite !(cell_insert_ne _ "date" _ _) by done.
  rewrite !(cell_insert_ne _ name) by by apply Hne'.
  by rewrite !cell_coerce_date by (apply in_required; tauto).
Qed.

End cleaner_cases_run.

Section cleaner_exits.
Context `{Parsers}.
Import Python Pandas CleanerSpec DataCleaner CleanerCases.

Lemma clean_exit t l d w :
  heap w !! l = Some d →
  well_formed d = true →
  ∃ r, outcome_is d (clean_ohlcv_data (Some l) t w).1 r
    ∧ stdout (clean_ohlcv_data (Some l) t w).2 = stdout w ++ log_of t d
    ∧ ∀ l', r = Some l' →
        heap w !! l' = None
        ∧ heap (clean_ohlcv_data (Some l) t w).2 !! l' = Some (cleaned t d).
Proof.
  destruct w as [h out e db]. cbn [heap stdout]. intros Hl Hwf.
  destruct (clean_run t l d h out e db Hl Hwf) as (_ & _ & _ & Hlog & r & Ho & Hr).
  by exists r.
Qed.

Lemma has_complete_row d :
  (∃ x, x ∈ rows d ∧ complete x.2 = true) → kept d ≠ [].
Proof.
  intros (x & Hx & Hc) Hk.
  assert (Hin : x ∈ kept d) by by apply list_elem_of_filter.
  rewrite Hk in Hin. by apply elem_of_nil in Hin.
Qed.

Lemma not_empty d :
  issubset required_cols (columns d) = true → kept d ≠ [] → df_empty d = false.
Proof.
  intros Hsub Hk. unfold df_empty. unfold kept in Hk.
  destruct (rows d); [done|]. destruct (columns d); [done|done].
Qed.

Lemma to_datetime_parses cs :
  Forall (λ c, is_Some (to_datetime_scalar c)) cs →
  ∃ out, to_datetime cs = Normal out.
Proof.
  intros Hcs. unfold to_datetime.
  destruct (mapM_is_Some_2 to_datetime_scalar cs Hcs) as [ts ->]. eauto.
Qed.

Lemma to_datetime_fails cs :
  Exists (λ c, to_datetime_scalar c = None) cs →
  to_datetime cs = Raised (ValueError "Unknown datetime string format").
Proof.
  intros Hcs. unfold to_datetime.
  destruct (mapM to_datetime_scalar cs) as [ts|] eqn:Hm; [|done].
  assert (Hall : Forall (λ c, is_Some (to_datetime_scalar c)) cs)
    by (apply mapM_is_Some_1; eauto).
  apply Exists_exists in Hcs as (c & Hc & Hnone).
  rewrite Forall_forall in Hall. destruct (Hall c Hc) as [? ?]. congruence.
Qed.

(** The exit of a frame that holds its dates in a "date" column and has a
    complete row: line 37 or line 99 raises. *)
Lemma date_column_exit d :
  isinstance_DatetimeIndex d = false →
  inb "date" (columns d) = true →
  issubset required_cols (columns d) = true →
  kept d ≠ [] →
  match to_datetime (column d "date") with
  | Normal _ => exit_of d = ResetRaises ∧ insert_label d = "date"
  | Raised e => exit_of d = DatesRaise e
  end.
Proof.
  intros Hdt Hdate Hsub Hk.
  assert (Hsrc : date_source d = FromColumn)
    by (unfold date_source; by rewrite Hdt, Hdate).
  unfold exit_of, date_values. rewrite (not_empty d), Hsub, Hsrc by done.
  cbn [negb]. destruct (to_datetime (column d "date")); [|done].
  rewrite bool_decide_false, label_clash_column by done.
  split; [done|]. unfold insert_label. by rewrite Hsrc.
Qed.

(** X1. A frame whose index is named "date" (and is the source of the
    dates: a DatetimeIndex, or date labels with no "date" column), with the
    five columns and a row whose five cells parse, makes
    [clean_ohlcv_data] raise ValueError at [reset_index] (line 99): the
    label "date" is taken by the column that line 35 or 42 has added. *)
Theorem index_named_date_raises t l d w :
  heap w !! l = Some d →
  well_formed d = true →
  issubset required_cols (columns d) = true →
  index_name d = Some "date" →
  isinstance_DatetimeIndex d = true ∨ inb "date" (columns d) = false →
  Forall (λ c, is_Some (to_datetime_scalar c)) (index d) →
  (∃ x, x ∈ rows d ∧ complete x.2 = true) →
  (clean_ohlcv_data (Some l) t w).1
  = Raised (ValueError "cannot insert date, already exists").
Proof.
  intros Hl Hwf Hsub Hname Hsrc Hlabels Hrow.
  apply has_complete_row in Hrow.
  destruct (clean_exit t l d w Hl Hwf) as (r & Ho & _).
  assert (Hlab : insert_label d = "date" ∧ label_clash d = true).
  { unfold label_clash, insert_label, date_source, reset_name.
    destruct Hsrc as [-> | ->]; [|destruct (isinstance_DatetimeIndex d)];
      rewrite Hname; split; try done; apply inb_add_column_same. }
  destruct Hlab as [Hlab Hclash].
  assert (Hexit : exit_of d = ResetRaises).
  { unfold exit_of. rewrite (not_empty d), Hsub by done. cbn [negb].
    assert (Hvals : ∃ out, to_datetime (date_values d) = Normal out).
    { unfold date_values, date_source.
      destruct Hsrc as [-> | ->]; [by exists []|].
      destruct (isinstance_DatetimeIndex d); [by exists []|].
      by apply to_datetime_parses. }
    destruct Hvals as [out ->].
    by rewrite bool_decide_false, Hclash by done. }
  unfold outcome_is in Ho. rewrite Hexit, Hlab in Ho. by destruct Ho as [-> _].
Qed.

(** X2. A frame that is not indexed by a DatetimeIndex and holds its dates
    in a "date" column, with the five columns and a row whose five cells
    parse, always makes [clean_ohlcv_data] raise: at line 37 when a date
    cannot be read, and otherwise at [reset_index] (line 99), with
    ValueError "cannot insert date, already exists", since
    [set_index('date', drop=False)] has named the index after the column
    it keeps. *)
Theorem date_column_raises t l d w :
  heap w !! l = Some d →
  isinstance_DatetimeIndex d = false →
  inb "date" (columns d) = true →
  issubset required_cols (columns d) = true →
  (∃ x, x ∈ rows d ∧ complete x.2 = true) →
  ∃ ex,
    (clean_ohlcv_data (Some l) t w).1 = Raised ex
    ∧ (Forall (λ c, is_Some (to_datetime_scalar c)) (column d "date") →
       ex = ValueError "cannot insert date, already exists").
Proof.
  intros Hl Hdt Hdate Hsub Hrow. apply has_complete_row in Hrow.
  assert (Hwf : well_formed d = true) by (unfold well_formed; by rewrite Hdt).
  destruct (clean_exit t l d w Hl Hwf) as (r & Ho & _).
  pose proof (date_column_exit d Hdt Hdate Hsub Hrow) as Hexit.
  unfold outcome_is in Ho.
  destruct (to_datetime (column d "date")) as [out|ex] eqn:Hdates.
  - destruct Hexit as [Hexit Hlab]. rewrite Hexit, Hlab in Ho.
    destruct Ho as [-> _]. by eexists.
  - rewrite Hexit in Ho. destruct Ho as [-> _].
    eexists. split; [done|]. intros Hall.
    apply to_datetime_parses in Hall as [out Hout]. congruence.
Qed.

Lemma complete_canonical t x : complete x.2 = true → complete (canonical t x) = true.
Proof.
  intros Hc. rewrite complete_spec in Hc. apply complete_spec. intros c Hin.
  fold (cell (canonical t x) c).
  assert (Hcell : cell (canonical t x) c = numeric_cell x.2 c).
  { unfold required_cols, canonical in *.
    repeat (apply elem_of_cons in Hin as [->|Hin]);
      [..|by apply elem_of_nil in Hin]; done. }
  rewrite Hcell. unfold numeric_cell. destruct (Hc c Hin) as [q ->]. by eexists.
Qed.

Lemma date_key_parses c : is_Some (to_datetime_scalar (date_key c)).
Proof.
  unfold date_key. destruct (to_datetime_scalar c) as [[|day ns]|]; by eexists.
Qed.

(** X3. Cleaning is not repeatable: a table returned by
    [clean_ohlcv_data] holds its dates in a "date" column, so passing it to
    [clean_ohlcv_data] again raises ValueError at [reset_index]. *)
Theorem cleaning_twice_raises t t' l d w l' w' :
  heap w !! l = Some d →
  clean_ohlcv_data (Some l) t w = (Normal (Some l'), w') →
  (clean_ohlcv_data (Some l') t' w').1
  = Raised (ValueError "cannot insert date, already exists").
Proof.
  intros Hl Hrun.
  destruct (clean_returns_table _ _ _ _ _ _ Hl Hrun) as (_ & Hout & _ & Hk & _).
  assert (Hwf : well_formed (cleaned t d) = true) by done.
  destruct (clean_exit t' l' (cleaned t d) w' Hout Hwf) as (r & Ho & _).
  assert (Hk' : kept (cleaned t d) ≠ []).
  { destruct (kept d) as [|x k] eqn:Hkd; [done|].
    apply has_complete_row. exists (VNum 0, canonical t x). split.
    - unfold cleaned. cbn [rows]. rewrite Hkd. left.
    - apply complete_canonical.
      assert (Hx : x ∈ kept d) by (rewrite Hkd; left).
      by apply list_elem_of_filter in Hx as [? _]. }
  pose proof (date_column_exit (cleaned t d) eq_refl eq_refl eq_refl Hk') as Hexit.
  destruct (to_datetime_parses (column (cleaned t d) "date")) as [out Hdates].
  { fold (dates (cleaned t d)). rewrite dates_cleaned. apply Forall_fmap.
    apply Forall_forall. intros x _. apply date_key_parses. }
  rewrite Hdates in Hexit. destruct Hexit as [Hexit Hlab].
  unfold outcome_is in Ho. rewrite Hexit, Hlab in Ho. by destruct Ho as [-> _].
Qed.


Lemma Forall_report_if (P : Msg → Prop) b m :
  (b = true → P m) → Forall P (report_if b m).
Proof.
  destruct b; [|constructor]. intros HP. repeat constructor. by apply HP.
Qed.

Lemma log_of_reachable t d :
  Forall (λ m, unreachable_report m = false) (log_of t d).
Proof.
  unfold log_of, dropped_report, anomaly_reports. cbv zeta.
  destruct (exit_of d), (date_source d);
    repeat first
      [ apply Forall_app; split
      | apply Forall_report_if; intros _
      | apply Forall_cons; split
      | apply Forall_nil ]; done.
Qed.

(** X5. The two error exits "could not establish a valid DatetimeIndex"
    (lines 49-52) and "'date' column lost" (lines 102-104) are never
    taken: whatever the argument, a run of [clean_ohlcv_data] prints
    neither report. *)
Theorem unreachable_reports df t w :
  (∀ l, df = Some l → ∃ d, heap w !! l = Some d ∧ well_formed d = true) →
  ∃ log, stdout (clean_ohlcv_data df t w).2 = stdout w ++ log
    ∧ ∀ t', (CleanerNoDatetimeIndex t' ∉ log) ∧ (CleanerDateLost t' ∉ log).
Proof.
  intros Hdf. destruct df as [l|].
  - destruct (Hdf l eq_refl) as (d & Hl & Hwf).
    destruct (clean_exit t l d w Hl Hwf) as (r & _ & Hlog & _).
    exists (log_of t d). split; [done|].
    pose proof (log_of_reachable t d) as Hall. rewrite Forall_forall in Hall.
    intros t'. split; intros Hin; by apply Hall in Hin.
  - exists [CleanerNoData t]. split; [done|].
    intros t'. split; intros Hin; apply list_elem_of_singleton in Hin; done.
Qed.

(** X6. A frame that lacks one of the five OHLCV columns is rejected
    before any processing: [clean_ohlcv_data] returns None and reports
    exactly the columns that are missing. *)
Theorem missing_columns_rejected t l d w :
  heap w !! l = Some d →
  df_empty d = false →
  issubset required_cols (columns d) = false →
  ∃ missing w',
    clean_ohlcv_data (Some l) t w = (Normal None, w')
    ∧ stdout w' = stdout w ++ [CleanerCleaning t (length (rows d));
                               CleanerMissingColumns t missing]
    ∧ missing ≠ []
    ∧ ∀ c, c ∈ missing ↔ c ∈ required_cols ∧ c ∉ columns d.
Proof.
  intros Hl Hempty Hsub.
  exists (difference required_cols (columns d)).
  assert (Hmissing : ∀ c, c ∈ difference required_cols (columns d)
                          ↔ c ∈ required_cols ∧ c ∉ columns d).
  { intros c. unfold difference. rewrite list_elem_of_filter, inb_false. tauto. }
  enough (Hwp : wp (clean_ohlcv_data (Some l) t)
            (λ o w', o = Normal None
               ∧ stdout w' = stdout w ++ [CleanerCleaning t (length (rows d));
                    CleanerMissingColumns t (difference required_cols (columns d))])
            w).
  { unfold wp in Hwp. destruct (clean_ohlcv_data (Some l) t w) as [o w'].
    cbn [fst snd] in Hwp. destruct Hwp as [-> Hout]. exists w'.
    split; [done|]. split; [done|]. split; [|done].
    intros Hnil. apply Bool.not_true_iff_false in Hsub. apply Hsub.
    apply issubset_spec. intros c Hc. apply inb_spec.
    destruct (decide (c ∈ columns d)) as [|Hnot]; [done|].
    assert (Hin : c ∈ difference required_cols (columns d)) by by apply Hmissing.
    rewrite Hnil in Hin. by apply elem_of_nil in Hin. }
  unfold clean_ohlcv_data.
  wp_seq. eapply wp_deref; [done|]. rewrite Hempty.
  wp_seq. apply wp_print. wp_proj.
  wp_seq. eapply wp_fresh_from; [done|]. intros l0 _. wp_proj.
  wp_seq. eapply wp_deref; [wp_proj; apply lookup_insert_eq|].
  rewrite Hsub. cbn [negb].
  wp_seq. apply wp_print. apply wp_ret. wp_proj.
  split; [done|]. by rewrite <- app_assoc.
Qed.

(** X7. No data: for None, and for a frame with no row or with no column,
    [clean_ohlcv_data] returns None, prints the one report "no data
    provided" and changes nothing else; it makes no copy. *)
Theorem no_data_rejected df t w :
  (∀ l, df = Some l →
        ∃ d, heap w !! l = Some d ∧ (rows d = [] ∨ columns d = [])) →
  clean_ohlcv_data df t w
  = (Normal None,
     mkWorld (heap w) (stdout w ++ [CleanerNoData t]) (engine w) (database w)).
Proof.
  intros Hdf. destruct df as [l|]; [|done].
  destruct (Hdf l eq_refl) as (d & Hl & Hd).
  assert (Hempty : df_empty d = true).
  { unfold df_empty. destruct Hd as [-> | ->]; [done|by destruct (rows d)]. }
  unfold clean_ohlcv_data, mbind, Py_bind, deref. by rewrite Hl, Hempty.
Qed.

Lemma cleaner_log_dropped t d n :
  CleanerDropped t n ∈ cleaner_log t d
  ↔ n = (length (rows d) - length (kept d))%nat ∧ (0 < n)%nat.
Proof.
  unfold cleaner_log. cbv zeta. rewrite !elem_of_app. split.
  - intros Hin.
    repeat match goal with
    | H : _ ∨ _ |- _ => destruct H as [H|H]
    | H : _ ∈ report_if ?b _ |- _ =>
        unfold report_if in H; destruct b eqn:?;
          [apply list_elem_of_singleton in H|by apply elem_of_nil in H]
    | H : _ ∈ [_] |- _ => apply list_elem_of_singleton in H
    end; try done.
    injection Hin as ->. split; [done|].
    match goal with Hb : bool_decide _ = true |- _ =>
      apply bool_decide_eq_true in Hb; exact Hb end.
  - intros [-> Hpos]. right. right. left.
    apply report_if_In. by apply bool_decide_eq_true.
Qed.

(** X8. The rows dropped are counted and reported: when
    [clean_ohlcv_data] returns a table, it has printed "dropped n rows"
    exactly for n the number of rows of the input that are not in the
    table, and only when n > 0; and it has printed the number of rows of
    the table as the result. *)
Theorem dropped_rows_reported t l d w l' w' :
  heap w !! l = Some d →
  clean_ohlcv_data (Some l) t w = (Normal (Some l'), w') →
  ∃ out log,
    heap w' !! l' = Some out
    ∧ stdout w' = stdout w ++ log
    ∧ (length (rows out) ≤ length (rows d))%nat
    ∧ (∀ n, CleanerDropped t n ∈ log
            ↔ n = (length (rows d) - length (rows out))%nat ∧ (0 < n)%nat)
    ∧ CleanerFinished t (length (rows out)) ∈ log.
Proof.
  intros Hl Hrun.
  destruct (clean_returns_table _ _ _ _ _ _ Hl Hrun) as (_ & Hout & Hlog & _).
  exists (cleaned t d), (cleaner_log t d).
  assert (Hlen : length (rows (cleaned t d)) = length (kept d)).
  { rewrite <- (length_fmap snd), rows_cleaned. apply length_fmap. }
  rewrite Hlen. split; [done|]. split; [done|]. split.
  { unfold kept. apply length_filter. }
  split; [apply cleaner_log_dropped|].
  unfold cleaner_log. cbv zeta. rewrite !elem_of_app. do 7 right.
  apply list_elem_of_singleton. done.
Qed.


(** X10. Index labels that are not dates are reported, not raised: for a
    frame with the five columns, no DatetimeIndex and no "date" column,
    one of whose index labels [pd.to_datetime] cannot read,
    [clean_ohlcv_data] catches the error, prints "needs a 'date' index or
    column" and returns None. *)
Theorem unreadable_index_rejected t l d w :
  heap w !! l = Some d →
  df_empty d = false →
  issubset required_cols (columns d) = true →
  isinstance_DatetimeIndex d = false →
  inb "date" (columns d) = false →
  Exists (λ c, to_datetime_scalar c = None) (index d) →
  (clean_ohlcv_data (Some l) t w).1 = Normal None
  ∧ stdout (clean_ohlcv_data (Some l) t w).2
    = stdout w ++ [CleanerCleaning t (length (rows d)); CleanerNeedsDate t].
Proof.
  intros Hl Hempty Hsub Hdt Hdate Hbad.
  assert (Hwf : well_formed d = true) by (unfold well_formed; by rewrite Hdt).
  destruct (clean_exit t l d w Hl Hwf) as (r & Ho & Hlog & _).
  assert (Hsrc : date_source d = FromLabels)
    by (unfold date_source; by rewrite Hdt, Hdate).
  assert (Hexit : exit_of d = NeedsDate).
  { unfold exit_of, date_values.
    by rewrite Hempty, Hsub, Hsrc, (to_datetime_fails _ Hbad). }
  unfold outcome_is in Ho. unfold log_of in Hlog. rewrite Hexit in Ho, Hlog.
  by destruct Ho as [-> _].
Qed.

End cleaner_exits.

Section cleaner_exits_examples.
Import Python Pandas CleanerSpec DataCleaner CleanerCases Examples Scenarios.

Lemma index_named_date_raises_witness :
  heap w_fetched !! 1%positive = Some fetched
  ∧ well_formed fetched = true
  ∧ issubset required_cols (columns fetched) = true
  ∧ index_name fetched = Some "date"
  ∧ (isinstance_DatetimeIndex fetched = true
     ∨ inb "date" (columns fetched) = false)
  ∧ Forall (λ c, is_Some (to_datetime_scalar c)) (index fetched)
  ∧ (∃ x, x ∈ rows fetched ∧ complete x.2 = true)
  ∧ (clean_ohlcv_data (Some 1%positive) "TST" w_fetched).1
    = Raised (ValueError "cannot insert date, already exists").
Proof.
  assert (Hlabels : Forall (λ c, is_Some (to_datetime_scalar c)) (index fetched))
    by (repeat constructor; by eexists).
  assert (Hrow : ∃ x, x ∈ rows fetched ∧ complete x.2 = true)
    by (eexists; split; [left|reflexivity]).
  do 4 (split; [reflexivity|]). split; [right; reflexivity|].
  split; [exact Hlabels|]. split; [exact Hrow|].
  apply (index_named_date_raises "TST" 1%positive fetched w_fetched);
    [reflexivity..|right; reflexivity|exact Hlabels|exact Hrow].
Defined.

Lemma date_column_raises_witness :
  heap w_dated !! 1%positive = Some dated
  ∧ isinstance_DatetimeIndex dated = false
  ∧ inb "date" (columns dated) = true
  ∧ issubset required_cols (columns dated) = true
  ∧ (∃ x, x ∈ rows dated ∧ complete x.2 = true)
  ∧ ∃ ex,
      (clean_ohlcv_data (Some 1%positive) "TST" w_dated).1 = Raised ex
      ∧ (Forall (λ c, is_Some (to_datetime_scalar c)) (column dated "date") →
         ex = ValueError "cannot insert date, already exists").
Proof.
  assert (Hrow : ∃ x, x ∈ rows dated ∧ complete x.2 = true)
    by (eexists; split; [left|reflexivity]).
  do 4 (split; [reflexivity|]). split; [exact Hrow|].
  apply (date_column_raises "TST" 1%positive dated w_dated);
    [reflexivity..|exact Hrow].
Defined.

Lemma cleaning_twice_raises_witness :
  heap w_raw !! 1%positive = Some raw
  ∧ clean_ohlcv_data (Some 1%positive) "TST" w_raw
    = (Normal (Some 3%positive), w_raw')
  ∧ (clean_ohlcv_data (Some 3%positive) "TST" w_raw').1
    = Raised (ValueError "cannot insert date, already exists").
Proof.
  assert (Hrun : clean_ohlcv_data (Some 1%positive) "TST" w_raw
                 = (Normal (Some 3%positive), w_raw'))
    by (vm_compute; reflexivity).
  split; [reflexivity|]. split; [exact Hrun|].
  apply (cleaning_twice_raises "TST" "TST" 1%positive raw w_raw 3%positive w_raw');
    [reflexivity|exact Hrun].
Defined.


Lemma unreachable_reports_witness :
  (∀ l, Some 1%positive = Some l →
        ∃ d, heap w_raw !! l = Some d ∧ well_formed d = true)
  ∧ ∃ log,
      stdout (clean_ohlcv_data (Some 1%positive) "TST" w_raw).2
      = stdout w_raw ++ log
      ∧ ∀ t', (CleanerNoDatetimeIndex t' ∉ log) ∧ (CleanerDateLost t' ∉ log).
Proof.
  assert (Hdf : ∀ l, Some 1%positive = Some l →
                ∃ d, heap w_raw !! l = Some d ∧ well_formed d = true).
  { intros l [= <-]. exists raw. split; reflexivity. }
  split; [exact Hdf|].
  exact (unreachable_reports (Some 1%positive) "TST" w_raw Hdf).
Defined.

Lemma missing_columns_rejected_witness :
  heap w_no_volume !! 1%positive = Some no_volume
  ∧ df_empty no_volume = false
  ∧ issubset required_cols (columns no_volume) = false
  ∧ ∃ missing w',
      clean_ohlcv_data (Some 1%positive) "TST" w_no_volume = (Normal None, w')
      ∧ stdout w' = stdout w_no_volume
                    ++ [CleanerCleaning "TST" (length (rows no_volume));
                        CleanerMissingColumns "TST" missing]
      ∧ missing ≠ []
      ∧ ∀ c, c ∈ missing ↔ c ∈ required_cols ∧ c ∉ columns no_volume.
Proof.
  do 3 (split; [reflexivity|]).
  apply (missing_columns_rejected "TST" 1%positive no_volume w_no_volume);
    reflexivity.
Defined.

Lemma no_data_rejected_witness :
  (∀ l, Some 1%positive = Some l →
        ∃ d, heap w_no_rows !! l = Some d ∧ (rows d = [] ∨ columns d = []))
  ∧ clean_ohlcv_data (Some 1%positive) "TST" w_no_rows
    = (Normal None,
       mkWorld (heap w_no_rows) (stdout w_no_rows ++ [CleanerNoData "TST"])
         (engine w_no_rows) (database w_no_rows)).
Proof.
  assert (Hdf : ∀ l, Some 1%positive = Some l →
                ∃ d, heap w_no_rows !! l = Some d
                     ∧ (rows d = [] ∨ columns d = [])).
  { intros l [= <-]. exists no_rows. split; [reflexivity|left; reflexivity]. }
  split; [exact Hdf|].
  exact (no_data_rejected (Some 1%positive) "TST" w_no_rows Hdf).
Defined.

Lemma dropped_rows_reported_witness :
  heap w_raw !! 1%positive = Some raw
  ∧ clean_ohlcv_data (Some 1%positive) "TST" w_raw
    = (Normal (Some 3%positive), w_raw')
  ∧ ∃ out log,
      heap w_raw' !! 3%positive = Some out
      ∧ stdout w_raw' = stdout w_raw ++ log
      ∧ (length (rows out) ≤ length (rows raw))%nat
      ∧ (∀ n, CleanerDropped "TST" n ∈ log
              ↔ n = (length (rows raw) - length (rows out))%nat ∧ (0 < n)%nat)
      ∧ CleanerFinished "TST" (length (rows out)) ∈ log.
Proof.
  assert (Hrun : clean_ohlcv_data (Some 1%positive) "TST" w_raw
                 = (Normal (Some 3%positive), w_raw'))
    by (vm_compute; reflexivity).
  split; [reflexivity|]. split; [exact Hrun|].
  apply (dropped_rows_reported "TST" 1%positive raw w_raw 3%positive w_raw');
    [reflexivity|exact Hrun].
Defined.


Lemma unreadable_index_rejected_witness :
  heap w_unlabelled !! 1%positive = Some unlabelled
  ∧ df_empty unlabelled = false
  ∧ issubset required_cols (columns unlabelled) = true
  ∧ isinstance_DatetimeIndex unlabelled = false
  ∧ inb "date" (columns unlabelled) = false
  ∧ Exists (λ c, to_datetime_scalar c = None) (index unlabelled)
  ∧ (clean_ohlcv_data (Some 1%positive) "TST" w_unlabelled).1 = Normal None
  ∧ stdout (clean_ohlcv_data (Some 1%positive) "TST" w_unlabelled).2
    = stdout w_unlabelled
      ++ [CleanerCleaning "TST" (length (rows unlabelled));
          CleanerNeedsDate "TST"].
Proof.
  assert (Hbad : Exists (λ c, to_datetime_scalar c = None) (index unlabelled))
    by (left; reflexivity).
  do 5 (split; [reflexivity|]). split; [exact Hbad|].
  apply (unreadable_index_rejected "TST" 1%positive unlabelled w_unlabelled);
    [reflexivity..|exact Hbad].
Defined.

End cleaner_exits_examples.

(** * The write path, for every argument *)

Section insert_cases.
Context `{Parsers}.
Import Python Pandas Database.

(** The guards of lines 63-74: what a call that returns has printed. *)
Lemma insert_run df w :
  wp (insert_ohlcv_data df)
    (λ o w',
       database w' = database w ∧ engine w' = engine w ∧ heap w ⊆ heap w'
       ∧ match o with
         | Normal _ =>
             heap w' = heap w
             ∧ ∃ m, stdout w' = stdout w ++ [m]
               ∧ (m = DbNoEngine ∧ engine w = false
                  ∨ m = DbNoData ∧ engine w = true
                    ∧ (df = None
                       ∨ ∃ l d, df = Some l ∧ heap w !! l = Some d
                                ∧ df_empty d = true)
                  ∨ ∃ l d, m = DbMissingColumns
                                 (difference required_cols (columns d))
                           ∧ engine w = true ∧ df = Some l
                           ∧ heap w !! l = Some d ∧ df_empty d = false
                           ∧ issubset required_cols (columns d) = false)
         | Raised ex =>
             stdout w' = stdout w ∧ engine w = true
             ∧ ∃ l, df = Some l
               ∧ match heap w !! l with
                 | None => ex = ValueError "dangling reference"
                 | Some d =>
                     df_empty d = false
                     ∧ issubset required_cols (columns d) = true
                     ∧ match to_datetime (column d "date") with
                       | Normal _ => ex = NameError "np"
                       | Raised e => ex = e
                       end
                 end
         end) w.
Proof.
  unfold insert_ohlcv_data.
  wp_seq. apply wp_get_engine. destruct (engine w) eqn:He; cbn [negb].
  2:{ apply wp_print. wp_proj. do 3 (split; [done|]). split; [done|].
      exists DbNoEngine. split; [done|]. by left. }
  destruct df as [l|].
  2:{ apply wp_print. wp_proj. do 3 (split; [done|]). split; [done|].
      exists DbNoData. split; [done|]. right. left. eauto. }
  wp_seq. destruct (heap w !! l) as [d|] eqn:Hl.
  2:{ unfold wp, deref. rewrite Hl. cbn [fst snd].
      do 3 (split; [done|]). do 2 (split; [done|]). exists l. by rewrite Hl. }
  eapply wp_deref; [done|].
  destruct (df_empty d) eqn:Hempty.
  { apply wp_print. wp_proj. do 3 (split; [done|]). split; [done|].
    exists DbNoData. split; [done|]. right. left. split; [done|].
    split; [done|]. right. eauto. }
  destruct (issubset required_cols (columns d)) eqn:Hsub; cbn [negb].
  2:{ apply wp_print. wp_proj. do 3 (split; [done|]). split; [done|].
      eexists. split; [done|]. right. right. exists l, d. done. }
  wp_seq. eapply wp_fresh_from; [done|]. intros l1 Hl1. wp_proj.
  wp_pd. wp_seq. eapply wp_deref; [apply lookup_insert_eq|].
  wp_seq. apply wp_lift.
  destruct (to_datetime (column d "date")) as [dates|ex] eqn:Hdates.
  2:{ wp_proj. split; [done|]. split; [done|].
      split; [by apply insert_subseteq_r|]. do 2 (split; [done|]).
      exists l. rewrite Hl, Hdates. done. }
  wp_seq. eapply wp_inplace; [apply lookup_insert_eq|].
  destruct (setitem "date" (date_part <$> dates) d) as [d2|ex] eqn:Hset.
  2:{ apply to_datetime_Normal in Hdates as [-> _].
      unfold setitem, column in Hset.
      by rewrite bool_decide_true in Hset by by rewrite !length_fmap. }
  wp_proj. rewrite insert_insert_eq.
  wp_seq. eapply wp_fresh_from; [apply lookup_insert_eq|].
  rewrite select_subset.
  2:{ unfold setitem in Hset. destruct (bool_decide _); [|done].
      injection Hset as <-. by apply issubset_add_column. }
  intros l2 Hl2. wp_proj. cbn [heap] in Hl2.
  apply lookup_insert_None in Hl2 as [Hl2 _].
  wp_pd. wp_seq. apply wp_load_global.
  cbn [Pandas.inb existsb String.eqb Ascii.eqb Bool.eqb orb globals].
  wp_proj. split; [done|]. split; [done|].
  split; [do 2 (apply insert_subseteq_r; [done|]); done|].
  do 2 (split; [done|]). exists l. rewrite Hl, Hdates. done.
Qed.

(** X11. [insert_ohlcv_data] never writes: for every argument and every
    state, whatever the outcome, the table [ohlcv_data] is the same after
    the call as before it, every DataFrame that existed before the call is
    unchanged, and the report "successfully inserted/updated" is not
    printed.  (The statement is never executed: line 81 raises first.) *)
Theorem insert_never_writes df w :
  database (insert_ohlcv_data df w).2 = database w
  ∧ heap w ⊆ heap (insert_ohlcv_data df w).2
  ∧ ∃ log, stdout (insert_ohlcv_data df w).2 = stdout w ++ log
      ∧ ∀ n tickers, DbInserted n tickers ∉ log.
Proof.
  destruct (insert_run df w) as (Hdb & _ & Hheap & Ho).
  split; [done|]. split; [done|].
  destruct (insert_ohlcv_data df w).1 as [[]|ex].
  - destruct Ho as (_ & m & Hout & Hm). exists [m]. split; [done|].
    intros n tickers Hin. apply list_elem_of_singleton in Hin.
    destruct Hm as [[-> _]|[[-> _]|(? & ? & -> & _)]]; done.
  - destruct Ho as (Hout & _). exists []. split; [by rewrite app_nil_r|].
    intros n tickers Hin. by apply elem_of_nil in Hin.
Qed.

(** X12. [insert_ohlcv_data] returns to its caller only from one of its
    three guards (lines 63-74): the engine is missing, there is no data
    (None, or an empty frame), or one of the seven columns is missing.  It
    has then printed the one report of that guard and changed nothing
    else. *)
Theorem insert_returns_only_from_guards df w w' :
  insert_ohlcv_data df w = (Normal (), w') →
  ∃ m, w' = mkWorld (heap w) (stdout w ++ [m]) (engine w) (database w)
    ∧ (m = DbNoEngine ∧ engine w = false
       ∨ m = DbNoData ∧ engine w = true
         ∧ (df = None
            ∨ ∃ l d, df = Some l ∧ heap w !! l = Some d ∧ df_empty d = true)
       ∨ ∃ l d missing, m = DbMissingColumns missing
           ∧ engine w = true ∧ df = Some l ∧ heap w !! l = Some d
           ∧ missing ≠ []
           ∧ ∀ c, c ∈ missing ↔ c ∈ required_cols ∧ c ∉ columns d).
Proof.
  intros Hrun. pose proof (insert_run df w) as Hwp.
  eapply wp_run in Hwp; [|exact Hrun].
  destruct Hwp as (Hdb & He & _ & Hheap & m & Hout & Hm).
  exists m. split.
  { destruct w'. cbn in *. by subst. }
  destruct Hm as [?|[?|(l & d & -> & Heng & -> & Hl & Hempty & Hsub)]];
    [by left|by right; left|].
  right. right. exists l, d, (difference required_cols (columns d)).
  do 4 (split; [done|]).
  assert (Hmissing : ∀ c, c ∈ difference required_cols (columns d)
                          ↔ c ∈ required_cols ∧ c ∉ columns d).
  { intros c. unfold difference. rewrite list_elem_of_filter, inb_false. tauto. }
  split; [|done].
  intros Hnil. apply Bool.not_true_iff_false in Hsub. apply Hsub.
  apply issubset_spec. intros c Hc. apply inb_spec.
  destruct (decide (c ∈ columns d)) as [|Hnot]; [done|].
  assert (Hin : c ∈ difference required_cols (columns d)) by by apply Hmissing.
  rewrite Hnil in Hin. by apply elem_of_nil in Hin.
Qed.

(** X13. Every frame that passes the guards makes [insert_ohlcv_data]
    raise: with the engine set up, a call on a frame that is not empty and
    has the seven columns ends in an exception, which is NameError for
    [np] (line 81) whenever the dates of the frame can be read.  It is not
    caught (lines 79 and 81 are outside the try block), nothing is
    printed, nothing is written. *)
Theorem insert_raises_past_the_guards l d w :
  engine w = true →
  heap w !! l = Some d →
  df_empty d = false →
  issubset required_cols (columns d) = true →
  ∃ ex w',
    insert_ohlcv_data (Some l) w = (Raised ex, w')
    ∧ stdout w' = stdout w ∧ database w' = database w
    ∧ (Forall (λ c, is_Some (to_datetime_scalar c)) (column d "date") →
       ex = NameError "np").
Proof.
  intros He Hl Hempty Hsub. pose proof (insert_run (Some l) w) as Hwp.
  unfold wp in Hwp. destruct (insert_ohlcv_data (Some l) w) as [o w'].
  cbn [fst snd] in Hwp. destruct Hwp as (Hdb & _ & _ & Ho).
  destruct o as [[]|ex].
  { destruct Ho as (_ & m & _ & [[_ ?]|[(_ & _ & [?|(? & ? & ? & ? & ?)])
      |(? & ? & _ & _ & ? & ? & ? & ?)]]); simplify_eq; congruence. }
  destruct Ho as (Hout & _ & l0 & [= <-] & Hex). rewrite Hl in Hex.
  destruct Hex as (_ & _ & Hex).
  exists ex, w'. do 3 (split; [done|]).
  intros Hall. apply to_datetime_parses in Hall as [out Hdates].
  by rewrite Hdates in Hex.
Qed.

End insert_cases.

(** * The read path, for every argument *)

Section fetch_cases.
Context `{Parsers}.
Import Python Pandas Database DatabaseSpec DatabaseCases.

Lemma wp_bound_cases arg (f : Z → Postgres.Select) stmt
    (Q : Outcome Postgres.Select → World → Prop) w :
  match bound arg with
  | Some b => Q (Normal (from_option f stmt b)) w
  | None => Q (Raised (bound_error arg)) w
  end →
  wp (if truthy arg then d ← to_date arg; mret (f d) else mret stmt) Q w.
Proof.
  unfold bound, bound_error. intros HQ. destruct (truthy arg); [|done].
  wp_seq. unfold to_date. wp_pd.
  by destruct (to_datetime_scalar arg) as [[|d ns]|].
Qed.

Lemma fetch_run t start_date end_date w :
  wp (fetch_ohlcv_data t start_date end_date)
    (λ o w',
       database w' = database w ∧ engine w' = engine w ∧ heap w ⊆ heap w'
       ∧ if engine w then
           match bound start_date, bound end_date with
           | Some lo, Some hi =>
               ∃ l', o = Normal l' ∧ heap w !! l' = None
                 ∧ if Postgres.online (database w) then
                     heap w' = <[l' := frame_of_result
                                         (selected t lo hi (database w))]> (heap w)
                     ∧ stdout w' = stdout w
                         ++ [DbFetched (length (selected t lo hi (database w))) t]
                   else
                     heap w' = <[l' := empty_frame]> (heap w)
                     ∧ stdout w' = stdout w
                         ++ [DbError (SQLAlchemyError "OperationalError")]
           | None, _ => o = Raised (bound_error start_date) ∧ w' = w
           | Some _, None => o = Raised (bound_error end_date) ∧ w' = w
           end
         else
           ∃ l', o = Normal l' ∧ heap w !! l' = None
             ∧ heap w' = <[l' := empty_frame]> (heap w)
             ∧ stdout w' = stdout w ++ [DbNoEngine]) w.
Proof.
  unfold fetch_ohlcv_data.
  wp_seq. apply wp_get_engine. destruct (engine w) eqn:He; cbn [negb].
  2:{ wp_seq. apply wp_print. wp_pd. apply wp_new. intros l' Hl'. wp_proj.
      cbn [heap] in Hl'. split; [done|]. split; [done|].
      split; [by apply insert_subseteq|]. exists l'. done. }
  wp_seq. apply wp_bound_cases.
  destruct (bound start_date) as [lo|].
  2:{ do 2 (split; [done|]). split; [done|]. by destruct w. }
  wp_seq. apply wp_bound_cases.
  destruct (bound end_date) as [hi|].
  2:{ do 2 (split; [done|]). split; [done|]. by destruct w. }
  apply wp_try_except. wp_pd. wp_seq. apply wp_read_sql.
  unfold Postgres.execute_select.
  destruct (Postgres.online (database w)) eqn:Hon; cbn [negb].
  2:{ cbn [except_Exception]. wp_seq. apply wp_print. wp_pd.
      apply wp_new. intros l' Hl'. wp_proj. cbn [heap] in Hl'.
      split; [done|]. split; [done|]. split; [by apply insert_subseteq|].
      exists l'. done. }
  intros l' Hl'. wp_proj.
  match goal with
  | |- wp _ _ (mkWorld (<[_ := frame_of_result ?rs]> _) _ _ _) =>
    assert (Hsel : rs = selected t lo hi (database w)) end.
  { unfold selected. cbn [order_by_date Postgres.order_by_date]. f_equal.
    apply list_filter_iff. intros r. unfold in_range.
    destruct lo, hi; unfold order_by_date, where_; simpl;
      by rewrite ?andb_true_r, ?andb_assoc. }
  rewrite Hsel. clear Hsel.
  wp_seq. unfold numeric_cols. cbn [for_each].
  do 5 (wp_seq; wp_seq; (eapply wp_deref; [apply lookup_insert_eq|]);
        cbn [frame_of_result columns inb existsb String.eqb Ascii.eqb Bool.eqb orb];
        apply wp_when; wp_pd;
        (eapply wp_inplace; [apply lookup_insert_eq|]);
        change (mkDF DatetimeIndex (Some "date")
                  ["ticker"; "open"; "high"; "low"; "close"; "volume"] ?rs)
          with (frame_of_result (selected t lo hi (database w)));
        rewrite to_numeric_frame_of_result
          by (unfold numeric_cols; repeat constructor);
        wp_proj; rewrite insert_insert_eq).
  apply wp_ret.
  wp_seq. eapply wp_deref; [apply lookup_insert_eq|].
  wp_seq. apply wp_print. apply wp_ret. wp_proj.
  split; [done|]. split; [done|]. split; [by apply insert_subseteq|].
  exists l'. do 3 (split; [done|]).
  unfold frame_of_result. cbn [rows]. by rewrite length_fmap.
Qed.

(** X14. Failures of the read path are contained: for bounds that are
    dates (or omitted), [fetch_ohlcv_data] returns a frame in every state.
    With no engine, or with the database unreachable, the frame is a new
    empty DataFrame and the one line printed is the report of the
    failure. *)
Theorem read_failures_are_contained t start_date end_date lo hi w :
  bound start_date = Some lo →
  bound end_date = Some hi →
  ∃ l' w' out,
    fetch_ohlcv_data t start_date end_date w = (Normal l', w')
    ∧ heap w !! l' = None
    ∧ heap w' !! l' = Some out
    ∧ (engine w = false →
       out = empty_frame ∧ stdout w' = stdout w ++ [DbNoEngine])
    ∧ (engine w = true → Postgres.online (database w) = false →
       out = empty_frame ∧ df_empty out = true
       ∧ stdout w' = stdout w ++ [DbError (SQLAlchemyError "OperationalError")]).
Proof.
  intros Hlo Hhi. pose proof (fetch_run t start_date end_date w) as Hwp.
  unfold wp in Hwp. destruct (fetch_ohlcv_data t start_date end_date w) as [o w'].
  cbn [fst snd] in Hwp. destruct Hwp as (_ & _ & _ & Ho).
  rewrite Hlo, Hhi in Ho. destruct (engine w).
  - destruct Ho as (l' & -> & Hl' & Ho).
    destruct (Postgres.online (database w)); destruct Ho as [Hheap Hout].
    + exists l', w', (frame_of_result (selected t lo hi (database w))).
      split; [done|]. split; [done|].
      split; [by rewrite Hheap, lookup_insert_eq|]. done.
    + exists l', w', empty_frame. split; [done|]. split; [done|].
      split; [by rewrite Hheap, lookup_insert_eq|]. done.
  - destruct Ho as (l' & -> & Hl' & Hheap & Hout).
    exists l', w', empty_frame. split; [done|]. split; [done|].
    split; [by rewrite Hheap, lookup_insert_eq|]. done.
Qed.

(** X15. A bound that cannot be read as a date is not contained: with the
    engine set up, a non-empty text that [pd.to_datetime] cannot parse,
    given as [start_date] (or as [end_date], after a good [start_date]),
    makes [fetch_ohlcv_data] raise ValueError, before the query and
    outside the try block (lines 126-129); nothing is printed and no frame
    is made. *)
Theorem unreadable_bound_raises t (text : string) start_date end_date w :
  engine w = true →
  text ≠ "" →
  parse_datetime text = None →
  start_date = VStr text
  ∨ (is_Some (bound start_date) ∧ end_date = VStr text) →
  fetch_ohlcv_data t start_date end_date w
  = (Raised (ValueError "Unknown datetime string format"), w).
Proof.
  intros He Htext Hnone Hbad.
  assert (Ht : truthy (VStr text) = true)
    by (cbn [truthy]; by apply negb_true_iff, String.eqb_neq).
  pose proof (fetch_run t start_date end_date w) as Hwp.
  unfold wp in Hwp. destruct (fetch_ohlcv_data t start_date end_date w) as [o w'].
  cbn [fst snd] in Hwp. destruct Hwp as (_ & _ & _ & Ho). rewrite He in Ho.
  destruct Hbad as [->|([lo Hlo] & ->)].
  - unfold bound, bound_error in Ho. rewrite Ht in Ho.
    cbn [to_datetime_scalar] in Ho. rewrite Hnone in Ho.
    by destruct Ho as [-> ->].
  - rewrite Hlo in Ho. unfold bound at 1, bound_error in Ho. rewrite Ht in Ho.
    cbn [to_datetime_scalar] in Ho. rewrite Hnone in Ho.
    by destruct Ho as [-> ->].
Qed.

(** X16. [fetch_ohlcv_data] reads only: for every argument and every
    state, whatever the outcome, the table is the same after the call as
    before it and every DataFrame that existed before the call is
    unchanged. *)
Theorem fetch_is_read_only t start_date end_date w :
  database (fetch_ohlcv_data t start_date end_date w).2 = database w
  ∧ heap w ⊆ heap (fetch_ohlcv_data t start_date end_date w).2.
Proof.
  destruct (fetch_run t start_date end_date w) as (Hdb & _ & Hheap & _).
  done.
Qed.

End fetch_cases.

Section storage_cases_examples.
Import Python Pandas Database DatabaseSpec DatabaseCases Examples Scenarios.

Lemma insert_returns_only_from_guards_witness :
  insert_ohlcv_data (Some 1%positive) w_no_engine = (Normal (), w_no_engine')
  ∧ ∃ m,
      w_no_engine'
      = mkWorld (heap w_no_engine) (stdout w_no_engine ++ [m])
          (engine w_no_engine) (database w_no_engine)
      ∧ (m = DbNoEngine ∧ engine w_no_engine = false
         ∨ m = DbNoData ∧ engine w_no_engine = true
           ∧ (Some 1%positive = None
              ∨ ∃ l d, Some 1%positive = Some l
                       ∧ heap w_no_engine !! l = Some d ∧ df_empty d = true)
         ∨ ∃ l d missing, m = DbMissingColumns missing
             ∧ engine w_no_engine = true ∧ Some 1%positive = Some l
             ∧ heap w_no_engine !! l = Some d
             ∧ missing ≠ []
             ∧ ∀ c, c ∈ missing ↔ c ∈ required_cols ∧ c ∉ columns d).
Proof.
  assert (Hrun : insert_ohlcv_data (Some 1%positive) w_no_engine
                 = (Normal (), w_no_engine')) by reflexivity.
  split; [exact Hrun|].
  exact (insert_returns_only_from_guards (Some 1%positive) w_no_engine
           w_no_engine' Hrun).
Defined.

Lemma insert_raises_past_the_guards_witness :
  engine w_insert = true
  ∧ heap w_insert !! 1%positive = Some (canonical_table 104)
  ∧ df_empty (canonical_table 104) = false
  ∧ issubset required_cols (columns (canonical_table 104)) = true
  ∧ ∃ ex w',
      insert_ohlcv_data (Some 1%positive) w_insert = (Raised ex, w')
      ∧ stdout w' = stdout w_insert ∧ database w' = database w_insert
      ∧ (Forall (λ c, is_Some (to_datetime_scalar c))
           (column (canonical_table 104) "date") →
         ex = NameError "np").
Proof.
  do 4 (split; [reflexivity|]).
  apply (insert_raises_past_the_guards 1%positive (canonical_table 104)
           w_insert); reflexivity.
Defined.

Lemma read_failures_are_contained_witness :
  bound VNone = Some None
  ∧ bound (VDate jan2) = Some (Some jan2)
  ∧ ∃ l' w' out,
      fetch_ohlcv_data "TST" VNone (VDate jan2) w_offline = (Normal l', w')
      ∧ heap w_offline !! l' = None
      ∧ heap w' !! l' = Some out
      ∧ (engine w_offline = false →
         out = empty_frame ∧ stdout w' = stdout w_offline ++ [DbNoEngine])
      ∧ (engine w_offline = true →
         Postgres.online (database w_offline) = false →
         out = empty_frame ∧ df_empty out = true
         ∧ stdout w' = stdout w_offline
                       ++ [DbError (SQLAlchemyError "OperationalError")]).
Proof.
  do 2 (split; [reflexivity|]).
  apply (read_failures_are_contained "TST" VNone (VDate jan2) None (Some jan2)
           w_offline); reflexivity.
Defined.

Lemma unreadable_bound_raises_witness :
  engine w_tenth = true
  ∧ "soon" ≠ ""
  ∧ parse_datetime "soon" = None
  ∧ (VStr "soon" = VStr "soon"
     ∨ (is_Some (bound (VStr "soon")) ∧ VNone = VStr "soon"))
  ∧ fetch_ohlcv_data "TST" (VStr "soon") VNone w_tenth
    = (Raised (ValueError "Unknown datetime string format"), w_tenth).
Proof.
  assert (Htext : "soon" ≠ "") by discriminate.
  assert (Hbad : VStr "soon" = VStr "soon"
                 ∨ (is_Some (bound (VStr "soon")) ∧ VNone = VStr "soon"))
    by (left; reflexivity).
  split; [reflexivity|]. split; [exact Htext|]. split; [reflexivity|].
  split; [exact Hbad|].
  exact (unreadable_bound_raises "TST" "soon" (VStr "soon") VNone w_tenth
           eq_refl Htext eq_refl Hbad).
Defined.

End storage_cases_examples.

(** * The moving average: further properties *)

Section sma_properties.
Import Python Indicators.
Local Open Scope Q_scope.

Lemma omap_id_full {A} (l : list (option A)) :
  length (omap id l) = length l ↔ Forall is_Some l.
Proof.
  induction l as [|[x|] l IH]; cbn.
  - split; [constructor|done].
  - rewrite Forall_cons. split.
    + intros [= Hl]. split; [by eexists|by apply IH].
    + intros [_ Hl]. f_equal. by apply IH.
  - pose proof (length_omap_id l). split; [lia|].
    intros Hall. apply Forall_cons in Hall as [[? ?] _]. done.
Qed.

Lemma rolling_mean_at w m (s : Series) i :
  rolling_mean w m s !! i =
  (λ x, (x.1,
         let obs := omap id (drop (S i - w) (take (S i) (snd <$> s))) in
         if bool_decide (m ≤ length obs)%nat then Some (mean obs) else None))
    <$> s !! i.
Proof. unfold rolling_mean. apply list_lookup_imap. Qed.

Lemma window_length {A} (w i : nat) (l : list A) :
  (i < length l)%nat →
  length (drop (S i - w) (take (S i) l)) = Nat.min w (S i).
Proof. intros Hi. rewrite length_drop, length_take. lia. Qed.

(** X17. Where the moving average is defined: for a window w >= 1 not
    longer than the series, the entry at position i is a number exactly
    when i >= w-1 and the w samples i-w+1 .. i are all numbers; one NaN
    among them makes the entry NaN ([min_periods=window]). *)
Theorem sma_defined_iff_window_full (s : Series) (window : Z) (w : World)
    (i : nat) :
  (0 < window)%Z → (window ≤ Z.of_nat (length s))%Z → (i < length s)%nat →
  ∃ r v,
    (calculate_sma (Some s) window w).1 = Normal r
    ∧ (snd <$> r) !! i = Some v
    ∧ (is_Some v ↔
       (window - 1 ≤ Z.of_nat i)%Z
       ∧ Forall is_Some
           (take (Z.to_nat window) (drop (S i - Z.to_nat window) (snd <$> s)))).
Proof.
  intros Hw Hlen Hi.
  assert (Hs : s ≠ []) by (intros ->; simpl in Hlen; lia).
  exists (rolling_mean (Z.to_nat window) (Z.to_nat window) s).
  rewrite calculate_sma_rolling by done.
  rewrite rolling_mean_lookup. destruct (lookup_lt_is_Some_2 _ _ Hi) as [x ->].
  cbn [fmap option_fmap option_map]. eexists.
  split; [done|]. split; [done|]. cbv zeta.
  set (win := drop (S i - Z.to_nat window) (take (S i) (snd <$> s))).
  assert (Hwin : length win = Nat.min (Z.to_nat window) (S i))
    by (apply window_length; by rewrite length_fmap).
  pose proof (length_omap_id win) as Hle.
  case_bool_decide as Hfull.
  - split; [|by eexists]. intros _.
    assert (Hwi : (Z.to_nat window ≤ S i)%nat) by lia.
    split; [lia|]. rewrite <- drop_take_window by done. fold win.
    apply omap_id_full. lia.
  - split; [by intros [? ?]|]. intros [Hwi Hall]. exfalso. apply Hfull.
    rewrite <- drop_take_window in Hall by lia. fold win in Hall.
    apply omap_id_full in Hall. lia.
Qed.

(** X18. A window of one sample gives the series back: every entry of
    [calculate_sma(s, 1)] has the label of the input entry and its value
    (NaN for NaN). *)
Theorem sma_window_one (s : Series) (w : World) :
  s ≠ [] →
  ∃ r, (calculate_sma (Some s) 1 w).1 = Normal r
    ∧ Forall2 (λ x y, y.1 = x.1
                 ∧ match x.2 with
                   | Some q => ∃ m, y.2 = Some m ∧ m == q
                   | None => y.2 = None
                   end) s r.
Proof.
  intros Hs. assert (Hlen : (1 ≤ Z.of_nat (length s))%Z) by (destruct s; [done|simpl; lia]).
  exists (rolling_mean 1 1 s).
  rewrite calculate_sma_rolling by (done || lia). split; [done|].
  apply Forall2_same_length_lookup. split.
  { unfold rolling_mean. by rewrite length_imap. }
  intros i x y Hx Hy. rewrite rolling_mean_at, Hx in Hy. injection Hy as <-.
  split; [done|]. cbn [snd]. cbv zeta.
  change (Z.to_nat 1) with 1%nat.
  assert (Hwin : drop i (take (S i) (snd <$> s)) = [x.2]).
  { rewrite (take_S_r _ _ x.2) by by rewrite list_lookup_fmap, Hx.
    rewrite drop_app_length'; [done|].
    rewrite length_take, length_fmap. apply lookup_lt_Some in Hx. lia. }
  rewrite ?Nat.sub_0_r, Hwin. destruct x.2 as [q|]; cbn; [|done].
  eexists. split; [done|]. unfold mean, Qsum. cbn. field.
Qed.



(** X20. No look-ahead: the entries of the moving average over the first
    N samples do not change when later samples are appended to the
    series. *)
Theorem sma_no_lookahead (s s' : Series) (window : Z) (w w2 : World) :
  (0 < window)%Z → (window ≤ Z.of_nat (length s))%Z →
  ∃ r r',
    (calculate_sma (Some s) window w).1 = Normal r
    ∧ (calculate_sma (Some (s ++ s')) window w2).1 = Normal r'
    ∧ take (length s) r' = r.
Proof.
  intros Hw Hlen.
  assert (Hs : s ≠ []) by (intros ->; simpl in Hlen; lia).
  assert (Hs' : s ++ s' ≠ []) by by destruct s.
  assert (Hlen' : (window ≤ Z.of_nat (length (s ++ s')))%Z)
    by (rewrite length_app; lia).
  exists (rolling_mean (Z.to_nat window) (Z.to_nat window) s),
    (rolling_mean (Z.to_nat window) (Z.to_nat window) (s ++ s')).
  rewrite !calculate_sma_rolling by done.
  split; [done|]. split; [done|].
  apply list_eq. intros i. destruct (decide (i < length s)%nat) as [Hi|Hi].
  - rewrite lookup_take_lt by done. rewrite !rolling_mean_at.
    rewrite lookup_app_l by done. rewrite fmap_app.
    rewrite (take_app_le (snd <$> s)) by (rewrite length_fmap; lia). done.
  - rewrite lookup_take_ge by lia. symmetry. apply lookup_ge_None.
    unfold rolling_mean. rewrite length_imap. lia.
Qed.

(** X21. [calculate_sma] never raises and prints exactly one line, for
    every argument; it changes nothing else.  For None and for the empty
    series the result is the empty series and the line is the report of an
    invalid input. *)
Theorem calculate_sma_prints_one_line data_series window w :
  ∃ r m,
    calculate_sma data_series window w
    = (Normal r, mkWorld (heap w) (stdout w ++ [m]) (engine w) (database w))
    ∧ (data_series = None ∨ data_series = Some [] →
       r = [] ∧ m = IndicatorInvalid).
Proof.
  destruct data_series as [s|]; [|by exists [], IndicatorInvalid].
  unfold calculate_sma.
  destruct (bool_decide (s = [])) eqn:Hs; cbn [orb].
  { by exists [], IndicatorInvalid. }
  apply bool_decide_eq_false in Hs.
  destruct (window <=? 0)%Z.
  { exists [], IndicatorInvalid. split; [done|]. by intros [|[= ->]]. }
  destruct (Z.of_nat (length s) <? window)%Z.
  - eexists _, _. split; [done|]. by intros [|[= ->]].
  - eexists _, _. split; [done|]. by intros [|[= ->]].
Qed.

End sma_properties.

Section sma_examples.
Import Python Indicators Examples Scenarios.
Local Open Scope Q_scope.

Lemma sma_defined_iff_window_full_witness :
  (0 < 2)%Z ∧ (2 ≤ Z.of_nat (length gapped))%Z ∧ (3 < length gapped)%nat
  ∧ ∃ r v,
      (calculate_sma (Some gapped) 2 w_raw).1 = Normal r
      ∧ (snd <$> r) !! 3%nat = Some v
      ∧ (is_Some v ↔
         (2 - 1 ≤ Z.of_nat 3)%Z
         ∧ Forall is_Some
             (take (Z.to_nat 2) (drop (4 - Z.to_nat 2) (snd <$> gapped)))).
Proof.
  assert (H1 : (0 < 2)%Z) by lia.
  assert (H2 : (2 ≤ Z.of_nat (length gapped))%Z) by (simpl; lia).
  assert (H3 : (3 < length gapped)%nat) by (simpl; lia).
  split; [exact H1|]. split; [exact H2|]. split; [exact H3|].
  exact (sma_defined_iff_window_full gapped 2 w_raw 3 H1 H2 H3).
Defined.

Lemma sma_window_one_witness :
  gapped ≠ []
  ∧ ∃ r, (calculate_sma (Some gapped) 1 w_raw).1 = Normal r
      ∧ Forall2 (λ x y, y.1 = x.1
                   ∧ match x.2 with
                     | Some q => ∃ m, y.2 = Some m ∧ m == q
                     | None => y.2 = None
                     end) gapped r.
Proof.
  assert (H1 : gapped ≠ []) by discriminate.
  split; [exact H1|]. exact (sma_window_one gapped w_raw H1).
Defined.


Lemma sma_no_lookahead_witness :
  (0 < 2)%Z ∧ (2 ≤ Z.of_nat (length samples))%Z
  ∧ ∃ r r',
      (calculate_sma (Some samples) 2 w_raw).1 = Normal r
      ∧ (calculate_sma (Some (samples ++ gapped)) 2 w_raw).1 = Normal r'
      ∧ take (length samples) r' = r.
Proof.
  assert (H1 : (0 < 2)%Z) by lia.
  assert (H2 : (2 ≤ Z.of_nat (length samples))%Z) by (simpl; lia).
  split; [exact H1|]. split; [exact H2|].
  exact (sma_no_lookahead samples gapped 2 w_raw w_raw H1 H2).
Defined.

End sma_examples.

(** * Integral values on the read path *)

Section float_integers.
Import Float.
Local Open Scope Q_scope.

Lemma round_half_even_integer (x : Q) (k : Z) :
  x == inject_Z k → round_half_even x = k.
Proof.
  intros Hx. unfold round_half_even.
  assert (Hf : Qfloor x = k) by (rewrite Hx; apply Qfloor_Z).
  rewrite Hf.
  assert (Hc : (x - inject_Z k ?= 1 # 2) = Lt).
  { apply Qlt_alt. rewrite Hx.
    setoid_replace (inject_Z k - inject_Z k) with 0 using relation Qeq
      by ring.
    reflexivity. }
  by rewrite Hc.
Qed.

Lemma pow2_nonneg_integer (e : Z) :
  (0 <= e)%Z → pow2 e == inject_Z (2 ^ e).
Proof. intros He. unfold pow2. by rewrite Zpower_Qpower. Qed.

Lemma binade_integer (n : Z) :
  (0 < n)%Z → binade (inject_Z n) = Z.log2 n.
Proof.
  intros Hn. unfold binade. cbn [Qnum Qden inject_Z].
  change (Z.log2 1) with 0%Z. rewrite Z.sub_0_r.
  assert (Hle : Qle_bool (pow2 (Z.log2 n)) (inject_Z n) = true).
  { apply Qle_bool_iff. rewrite pow2_nonneg_integer by apply Z.log2_nonneg.
    rewrite <- Zle_Qle. by apply Z.log2_spec. }
  by rewrite Hle.
Qed.

Lemma round_pos_integer (n : Z) :
  (0 < n < 2 ^ 53)%Z → round_pos (inject_Z n) == inject_Z n.
Proof.
  intros [Hn Hlt]. unfold round_pos. rewrite binade_integer by done.
  set (b := Z.log2 n).
  assert (Hb : (0 <= b <= 52)%Z).
  { split; [apply Z.log2_nonneg|].
    assert (b < 53)%Z by (apply Z.log2_lt_pow2; done). lia. }
  set (u := pow2 (b - 52)). set (p := pow2 (52 - b)).
  assert (Hu : u * p == 1).
  { unfold u, p, pow2. rewrite <- Qpower_plus by done.
    by replace (b - 52 + (52 - b))%Z with 0%Z by lia. }
  assert (Hu0 : ¬ u == 0).
  { pose proof (pow2_pos (b - 52)) as Hpos. fold u in Hpos. lra. }
  assert (Hp : inject_Z (2 ^ (52 - b)) == p).
  { unfold p. symmetry. apply pow2_nonneg_integer. lia. }
  assert (Hq : inject_Z n / u == inject_Z (n * 2 ^ (52 - b))).
  { rewrite inject_Z_mult, Hp. apply (Qmult_inj_r _ _ u Hu0).
    rewrite (Qmult_comm (inject_Z n / u)), Qmult_div_r by done.
    rewrite <- Qmult_assoc, (Qmult_comm p u), Hu. ring. }
  rewrite (round_half_even_integer _ _ Hq).
  rewrite inject_Z_mult, Hp.
  rewrite <- Qmult_assoc, (Qmult_comm p u), Hu. ring.
Qed.

Lemma float64_integer (n : Z) :
  (Z.abs n < 2 ^ 53)%Z → float64 (inject_Z n) == inject_Z n.
Proof.
  intros Hn. unfold float64.
  destruct (inject_Z n ?= 0) eqn:Hc.
  - apply Qeq_alt in Hc. by rewrite Hc.
  - apply Qlt_alt in Hc. change 0 with (inject_Z 0) in Hc.
    rewrite <- Zlt_Qlt in Hc.
    change (- inject_Z n) with (inject_Z (- n)).
    rewrite round_pos_integer by lia. rewrite inject_Z_opp. lra.
  - apply Qgt_alt in Hc. change 0 with (inject_Z 0) in Hc.
    rewrite <- Zlt_Qlt in Hc. apply round_pos_integer. lia.
Qed.

End float_integers.

Section integral_reads.
Context `{Parsers}.
Import Python Pandas Database DatabaseSpec.

(** X22. Integral values are read back exactly: in the frame that
    [fetch_ohlcv_data] returns, a field whose stored value is an integer
    of magnitude below 2^53 (a share volume, say) is the float equal to
    that integer; the conversion to binary64 loses nothing there. *)
Theorem integral_values_read_exactly t start_date end_date lo hi w :
  engine w = true →
  Postgres.online (database w) = true →
  bound start_date = Some lo →
  bound end_date = Some hi →
  ∃ l' w' out,
    fetch_ohlcv_data t start_date end_date w = (Normal l', w')
    ∧ heap w' !! l' = Some out
    ∧ Forall2 (λ r x, ∀ c n,
                 (c, Some (inject_Z n)) ∈ numeric_fields r →
                 (Z.abs n < 2 ^ 53)%Z →
                 ∃ q, cell x.2 c = VNum q ∧ (q == inject_Z n)%Q)
        (selected t lo hi (database w)) (rows out).
Proof.
  intros He Hon Hlo Hhi.
  destruct (fetch_spec t _ _ lo hi w He Hon Hlo Hhi)
    as (l' & w' & Hrun & _ & Hheap & _).
  exists l', w', (frame_of_result (selected t lo hi (database w))).
  split; [done|]. split; [by rewrite Hheap, lookup_insert_eq|].
  unfold frame_of_result. cbn [rows]. apply Forall2_fmap_r, Forall_Forall2_diag.
  apply Forall_forall. intros r _ c n Hc Hn. unfold numeric_fields in Hc.
  cbn [snd]. exists (Float.float64 (inject_Z n)).
  split; [|by apply float64_integer].
  repeat (apply elem_of_cons in Hc as [[= -> Hv]|Hc]);
    [..|by apply elem_of_nil in Hc];
    unfold cell; cbn; rewrite <- Hv; done.
Qed.

End integral_reads.

Section integral_reads_examples.
Import Python Pandas Database DatabaseSpec Examples.

Lemma integral_values_read_exactly_witness :
  engine w_tenth = true
  ∧ Postgres.online (database w_tenth) = true
  ∧ bound VNone = Some None
  ∧ bound VNone = Some None
  ∧ ∃ l' w' out,
      fetch_ohlcv_data "TST" VNone VNone w_tenth = (Normal l', w')
      ∧ heap w' !! l' = Some out
      ∧ Forall2 (λ r x, ∀ c n,
                   (c, Some (inject_Z n)) ∈ numeric_fields r →
                   (Z.abs n < 2 ^ 53)%Z →
                   ∃ q, cell x.2 c = VNum q ∧ (q == inject_Z n)%Q)
          (selected "TST" None None (database w_tenth)) (rows out).
Proof.
  do 4 (split; [reflexivity|]).
  apply (integral_values_read_exactly "TST" VNone VNone None None w_tenth);
    reflexivity.
Defined.

End integral_reads_examples.

(** * The upsert statement and the select statement *)

Section statements.
Import Postgres.




End statements.

Section statements_examples.
Import Postgres Examples.


End statements_examples.

(** * Reasoning about the runs of a script *)

Section process_rules.
Import Python Process.

Lemma holds_bind {A B} (c : Sc A) (k : A → Sc B)
    (Q : Outcome B → State → Prop) s :
  holds c (λ o s', match o with
                   | Normal a => holds (k a) Q s'
                   | Raised e => Q (Raised e) s'
                   end) s →
  holds (c ≫= k) Q s.
Proof.
  unfold holds, mbind, Sc_bind. destruct (c s) as [[a|e] s']; simpl; auto.
Qed.

Lemma holds_ret {A} (a : A) (Q : Outcome A → State → Prop) s :
  Q (Normal a) s → holds (mret a) Q s.
Proof. done. Qed.

Lemma holds_echo l (Q : Outcome unit → State → Prop) s :
  Q (Normal ()) (mkState (world s) (console s ++ [l])) → holds (echo l) Q s.
Proof. done. Qed.

Lemma holds_try_except {A} (body : Sc A) (cls : Exn → bool)
    (h : Exn → Sc A) (Q : Outcome A → State → Prop) s :
  holds body (λ o s', match o with
                      | Normal a => Q (Normal a) s'
                      | Raised e =>
                          if cls e then holds (h e) Q s' else Q (Raised e) s'
                      end) s →
  holds (Process.try_except body cls h) Q s.
Proof.
  unfold holds, Process.try_except.
  destruct (body s) as [[a|e] s']; simpl; [done|]. by destruct (cls e).
Qed.

Lemma holds_call {A} (c : Py A) (Q : Outcome A → State → Prop) s :
  wp c (λ o w',
          Q o (mkState w'
                 (console s
                  ++ (Logged <$> drop (length (stdout (world s))) (stdout w')))))
    (world s) →
  holds (call c) Q s.
Proof. done. Qed.

(** A step that prints nothing. *)
Lemma holds_call_silent {A} (c : Py A) (Q : Outcome A → State → Prop) s :
  wp c (λ o w', stdout w' = stdout (world s) ∧ Q o (mkState w' (console s)))
    (world s) →
  holds (call c) Q s.
Proof.
  intros Hwp. apply holds_call. eapply wp_mono; [exact Hwp|].
  intros o w' [-> HQ]. cbn beta. by rewrite drop_all, app_nil_r.
Qed.

Lemma holds_mono {A} (c : Sc A) (Q1 Q2 : Outcome A → State → Prop) s :
  holds c Q1 s → (∀ o s', Q1 o s' → Q2 o s') → holds c Q2 s.
Proof. unfold holds. auto. Qed.

Lemma holds_run {A} (c : Sc A) (Q : Outcome A → State → Prop) s :
  holds c Q s → ∃ o s', c s = (o, s') ∧ Q o s'.
Proof. unfold holds. intros HQ. destruct (c s) as [o s']. eauto. Qed.

End process_rules.

Ltac sc_seq := apply holds_bind.
Ltac sc_proj :=
  cbn [Process.world Process.console Python.heap Python.stdout Python.engine
       Python.database].
Tactic Notation "sc_proj" "in" hyp(H) :=
  cbn [Process.world Process.console Python.heap Python.stdout Python.engine
       Python.database] in H.
Ltac sc_pd :=
  apply holds_bind; apply holds_call_silent; apply wp_load_global;
  cbn [Pandas.inb existsb String.eqb Ascii.eqb Bool.eqb orb];
  (split; [reflexivity|]).

(** * Table creation *)

Section create_tables.
Import Python Process DatabaseSetup.

Lemma create_db_tables_run (s : State) :
  ∃ s',
    create_db_tables s
    = (Normal (engine (world s) && Postgres.online (database (world s))), s')
    ∧ world s' = world s
    ∧ console s'
      = console s
        ++ (if engine (world s) then
              if Postgres.online (database (world s)) then
                [DbCreateAttempt; DbCreateDone]
              else
                [DbCreateAttempt;
                 DbCreateError (SQLAlchemyError "OperationalError")]
            else [DbCreateNoEngine]).
Proof.
  destruct s as [[h out e db] con]. unfold create_db_tables.
  unfold mbind, Sc_bind, call, Database.get_engine. sc_proj. cbn [fst snd].
  rewrite drop_all, app_nil_r.
  destruct e; cbn [negb andb].
  2:{ eexists. split; [reflexivity|]. done. }
  unfold Process.try_except, mbind, Sc_bind, echo, call, Database.execute,
    create_all.
  sc_proj. destruct (Postgres.online db) eqn:Hon; cbn [negb fst snd].
  - sc_proj. rewrite drop_all, app_nil_r. eexists. split; [reflexivity|].
    sc_proj. split; [done|]. by rewrite <- app_assoc.
  - sc_proj. rewrite drop_all, app_nil_r. eexists. split; [reflexivity|].
    sc_proj. split; [done|]. by rewrite <- app_assoc.
Qed.

(** X24. [create_db_tables] never raises: it returns True exactly when
    the engine is set up and the database can be reached, and False
    otherwise, after printing why (a connection error is caught and
    reported); it leaves the rows of the table and the objects of the
    caller as they are. *)
Theorem create_db_tables_never_raises (s : State) :
  ∃ ok s',
    create_db_tables s = (Normal ok, s')
    ∧ (ok = true ↔ engine (world s) = true
                   ∧ Postgres.online (database (world s)) = true)
    ∧ world s' = world s
    ∧ (engine (world s) = false →
       console s' = console s ++ [DbCreateNoEngine])
    ∧ (engine (world s) = true → Postgres.online (database (world s)) = false →
       console s' = console s
         ++ [DbCreateAttempt;
             DbCreateError (SQLAlchemyError "OperationalError")])
    ∧ (ok = true → console s' = console s ++ [DbCreateAttempt; DbCreateDone]).
Proof.
  destruct (create_db_tables_run s) as (s' & Hrun & Hw & Hcon).
  exists (engine (world s) && Postgres.online (database (world s))), s'.
  split; [done|]. split; [apply andb_true_iff|]. split; [done|].
  rewrite Hcon. split; [by intros ->|]. split; [by intros -> ->|].
  by intros [-> ->]%andb_true_iff.
Qed.

End create_tables.

(** * The fetcher *)

Section fetcher_run.
Context `{Parsers}.
Context (history : string → Cell → Timestamp → Outcome DataFrame).
Import Python Pandas Process Fetchers.

Lemma select_present (d : DataFrame) (req : list string) :
  select (filter (λ col, inb col (columns d) = true) req) d
  = Normal (mkDF (index_class d) (index_name d)
              (filter (λ col, inb col (columns d) = true) req)
              ((λ x, (x.1, list_to_map
                             ((λ c, (c, cell x.2 c))
                                <$> filter (λ col, inb col (columns d) = true) req)))
                 <$> rows d)).
Proof.
  apply select_subset. apply issubset_spec. intros c Hc.
  by apply list_elem_of_filter in Hc as [? _].
Qed.

Lemma fetch_yfinance_run ticker start_date end_date s :
  holds (fetch_yfinance_data history ticker start_date end_date)
    (λ o s',
       ∃ l d, o = Normal l
         ∧ heap (world s) !! l = None
         ∧ heap (world s') !! l = Some d
         ∧ heap (world s) ⊆ heap (world s')
         ∧ database (world s') = database (world s)
         ∧ engine (world s') = engine (world s)
         ∧ stdout (world s') = stdout (world s)
         ∧ match answer_of history ticker start_date end_date with
           | Some d0 =>
               fetched_from d0 d
               ∧ console s'
                 = console s ++ [FetcherFetching ticker start_date end_date;
                                 FetcherFetched (length (rows d0)) ticker]
           | None =>
               d = empty_frame
               ∧ ∃ line, console s'
                   = console s ++ [FetcherFetching ticker start_date end_date;
                                   line]
                   ∧ (line = FetcherNoData ticker ∨ ∃ e, line = FetcherError ticker e)
           end) s.
Proof.
  destruct s as [[h out e db] con]. unfold fetch_yfinance_data, answer_of.
  sc_seq. apply holds_echo. sc_proj.
  assert (Hfail : ∀ ex h',
    h ⊆ h' →
    holds (echo (FetcherError ticker ex);; call (pd;; new empty_frame))
      (λ o s',
         ∃ l d, o = Normal l ∧ h !! l = None
           ∧ heap (world s') !! l = Some d
           ∧ h ⊆ heap (world s')
           ∧ database (world s') = db ∧ engine (world s') = e
           ∧ stdout (world s') = out
           ∧ d = empty_frame
           ∧ ∃ line, console s'
               = con ++ [FetcherFetching ticker start_date end_date; line]
               ∧ (line = FetcherNoData ticker ∨ ∃ e, line = FetcherError ticker e))
      (mkState (mkWorld h' out e db)
         (con ++ [FetcherFetching ticker start_date end_date]))).
  { intros ex h' Hh'. sc_seq. apply holds_echo. sc_proj.
    apply holds_call_silent. wp_pd. apply wp_new. intros l Hl. sc_proj.
    cbn [heap world] in Hl. split; [done|]. sc_proj.
    exists l, empty_frame. split; [done|].
    split; [by eapply lookup_weaken_None|].
    split; [apply lookup_insert_eq|].
    split; [by apply insert_subseteq_r; [eapply lookup_weaken_None|]|].
    do 4 (split; [done|]). eexists. split; [by rewrite <- app_assoc|].
    right. eauto. }
  apply holds_try_except. sc_pd.
  sc_seq. apply holds_call_silent.
  destruct (to_datetime_scalar end_date) as [ts|].
  2:{ unfold wp, raise. cbn [fst snd]. split; [done|].
      cbn [except_Exception]. by apply Hfail. }
  apply wp_ret. split; [done|]. sc_proj.
  sc_seq. apply holds_call_silent. apply wp_load_global.
  cbn [Pandas.inb existsb String.eqb Ascii.eqb Bool.eqb orb].
  split; [reflexivity|]. sc_proj.
  sc_seq. apply holds_call_silent. apply wp_load_global.
  cbn [Pandas.inb existsb String.eqb Ascii.eqb Bool.eqb orb].
  split; [reflexivity|]. sc_proj.
  sc_seq. apply holds_call_silent. wp_seq. apply wp_lift.
  destruct (history ticker start_date (add_days ts 1)) as [d0|ex].
  2:{ sc_proj. split; [done|]. cbn [except_Exception]. by apply Hfail. }
  apply wp_new. intros l0 Hl0. sc_proj. cbn [world heap] in Hl0.
  split; [done|].
  sc_seq. apply holds_call_silent. eapply wp_deref; [apply lookup_insert_eq|].
  split; [done|]. sc_proj.
  destruct (df_empty d0) eqn:Hempty.
  { sc_seq. apply holds_echo. sc_proj.
    apply holds_call_silent. wp_pd. apply wp_new. intros l Hl. sc_proj.
    cbn [world heap] in Hl. apply lookup_insert_None in Hl as [Hl Hne].
    split; [done|]. sc_proj.
    exists l, empty_frame. split; [done|]. split; [done|].
    split; [apply lookup_insert_eq|].
    split; [do 2 (apply insert_subseteq_r; [done|]); done|].
    do 4 (split; [done|]). eexists. split; [by rewrite <- app_assoc|].
    by left. }
  sc_seq. apply holds_call_silent. eapply wp_inplace; [apply lookup_insert_eq|].
  sc_proj. rewrite insert_insert_eq. split; [done|]. sc_proj.
  sc_pd. sc_proj.
  sc_seq. apply holds_call_silent. eapply wp_deref; [apply lookup_insert_eq|].
  split; [done|]. sc_proj.
  sc_seq. apply holds_call_silent. apply wp_lift.
  assert (Hidx : index (rename_columns d0) = index d0).
  { unfold index, rename_columns. cbn [rows]. by rewrite <- list_fmap_compose. }
  rewrite Hidx.
  destruct (to_datetime (index d0)) as [stamps|ex] eqn:Hstamps.
  2:{ sc_proj. split; [done|]. cbn [except_Exception].
      apply Hfail. by apply insert_subseteq. }
  sc_proj. split; [done|].
  sc_seq. apply holds_call_silent. eapply wp_inplace; [apply lookup_insert_eq|].
  destruct (set_index_array (date_part <$> stamps) (rename_columns d0))
    as [d2|ex] eqn:Hset.
  2:{ exfalso. apply to_datetime_Normal in Hstamps as [-> _].
      unfold set_index_array, rename_columns, index in Hset. cbn [rows] in Hset.
      by rewrite bool_decide_true in Hset by by rewrite !length_fmap. }
  sc_proj. rewrite insert_insert_eq. split; [done|]. sc_proj.
  sc_seq. apply holds_call_silent. eapply wp_inplace; [apply lookup_insert_eq|].
  sc_proj. rewrite insert_insert_eq. split; [done|]. sc_proj.
  sc_seq. apply holds_call_silent. eapply wp_deref; [apply lookup_insert_eq|].
  split; [done|]. sc_proj.
  sc_seq. apply holds_call_silent. eapply wp_fresh_from; [apply lookup_insert_eq|].
  cbn [set_index_name columns].
  rewrite (select_present (mkDF (index_class d2) (Some "date") (columns d2) (rows d2))).
  intros l Hl. cbn [world heap] in Hl. apply lookup_insert_None in Hl as [Hl Hne].
  sc_proj. split; [done|]. sc_proj.
  sc_seq. apply holds_call_silent. eapply wp_deref; [apply lookup_insert_eq|].
  split; [done|]. sc_proj.
  sc_seq. apply holds_echo. sc_proj.
  sc_seq. apply holds_call_silent. apply wp_load_global.
  cbn [Pandas.inb existsb String.eqb Ascii.eqb Bool.eqb orb].
  split; [reflexivity|]. sc_proj.
  apply holds_ret. sc_proj.
  eexists l, _. split; [done|]. split; [done|].
  split; [apply lookup_insert_eq|].
  split; [do 2 (apply insert_subseteq_r; [done|]); done|].
  do 3 (split; [done|]). split.
  - exists stamps, d2. split; [done|]. split; [done|].
    cbn [set_index_name columns].
    apply (select_present (mkDF (index_class d2) (Some "date") (columns d2) (rows d2))).
  - cbn [rows]. rewrite length_fmap.
    assert (Hlen : length (rows d2) = length (rows d0)).
    { apply to_datetime_Normal in Hstamps as [-> _].
      unfold set_index_array in Hset. destruct (bool_decide _); [|done].
      injection Hset as <-. cbn [rows rename_columns].
      rewrite length_zip_with, !length_fmap. unfold index.
      rewrite !length_fmap. lia. }
    by rewrite Hlen, <- app_assoc.
Qed.

End fetcher_run.

Section fetcher_theorems.
Context `{Parsers}.
Context (history : string → Cell → Timestamp → Outcome DataFrame).
Import Python Pandas Process Fetchers CleanerSpec.

Lemma cell_list_to_map (f : string → Cell) (cols : list string) c :
  c ∈ cols → cell (list_to_map ((λ c, (c, f c)) <$> cols)) c = f c.
Proof.
  intros Hc. unfold cell. induction cols as [|c' cols IH].
  { by apply elem_of_nil in Hc. }
  cbn [fmap list_fmap list_to_map foldr].
  destruct (decide (c' = c)) as [->|Hne]; [by rewrite lookup_insert_eq|].
  rewrite lookup_insert_ne by done. apply IH.
  by apply elem_of_cons in Hc as [->|Hc].
Qed.

Lemma fetched_from_rows d0 d :
  fetched_from d0 d →
  let cols := filter (λ col, inb col (rename_label <$> columns d0) = true)
                required_cols in
  d = mkDF (class_of ((λ c, date_part (VTime (stamp c))) <$> index d0))
        (Some "date") cols
        ((λ x, (date_part (VTime (stamp x.1)),
                list_to_map
                  ((λ c, (c, cell (list_to_map
                                     ((λ c0, (rename_label c0, cell x.2 c0))
                                        <$> columns d0)) c))
                     <$> cols)))
           <$> rows d0).
Proof.
  intros (stamps & d2 & Hstamps & Hset & Hsel). cbv zeta.
  pose proof (select_present (set_index_name "date" d2) required_cols) as Hsp.
  cbn [set_index_name columns] in Hsp.
  rewrite Hsp in Hsel. injection Hsel as <-. clear Hsp.
  apply to_datetime_Normal in Hstamps as [-> _].
  unfold set_index_array in Hset.
  rewrite bool_decide_true in Hset
    by (unfold rename_columns, index; cbn [rows]; by rewrite !length_fmap).
  injection Hset as <-.
  cbn [set_index_name rename_columns index_class index_name columns rows].
  rewrite <- !list_fmap_compose. f_equal.
  unfold index. rewrite <- !list_fmap_compose.
  rewrite zip_with_fmap_l, zip_with_fmap_r, zip_with_diag.
  rewrite <- list_fmap_compose. by apply list_fmap_ext.
Qed.

Lemma fetched_from_index_named_date d0 d :
  fetched_from d0 d →
  index_name d = Some "date" ∧ inb "date" (columns d) = false
  ∧ CleanerCases.well_formed d = true
  ∧ Forall (λ c, is_Some (to_datetime_scalar c)) (index d).
Proof.
  intros Hd. rewrite (fetched_from_rows d0 d Hd). cbn [index_name columns].
  split; [done|]. split.
  { apply inb_false. rewrite list_elem_of_filter. unfold required_cols.
    intros [_ Hin].
    repeat match type of Hin with
           | _ ∈ _ :: _ =>
               apply elem_of_cons in Hin as [Hin|Hin]; [discriminate Hin|]
           end.
    by apply elem_of_nil in Hin. }
  assert (Hidx : index (mkDF (class_of ((λ c, date_part (VTime (stamp c))) <$> index d0))
        (Some "date") (filter (λ col, inb col (rename_label <$> columns d0) = true)
                required_cols)
        ((λ x, (date_part (VTime (stamp x.1)),
                list_to_map
                  ((λ c, (c, cell (list_to_map
                                     ((λ c0, (rename_label c0, cell x.2 c0))
                                        <$> columns d0)) c))
                     <$> filter (λ col, inb col (rename_label <$> columns d0) = true)
                required_cols)))
           <$> rows d0)) = (λ c, date_part (VTime (stamp c))) <$> index d0).
  { unfold index. cbn [rows]. by rewrite <- !list_fmap_compose. }
  split.
  - unfold CleanerCases.well_formed, isinstance_DatetimeIndex.
    rewrite Hidx. cbn [index_class]. unfold class_of.
    by destruct (forallb is_time _).
  - rewrite Hidx. apply Forall_fmap, Forall_forall. intros c _. cbn.
    by destruct (stamp c); eexists.
Qed.

(** X25. [fetch_yfinance_data] never raises: whatever the service
    answers, it returns a frame that did not exist before and changes no
    frame and no stored row.  When the end date cannot be read, when the
    service fails or when it has no data for the period, the frame is a
    new empty DataFrame. *)
Theorem fetch_yfinance_never_raises ticker start_date end_date s :
  ∃ l s' d,
    fetch_yfinance_data history ticker start_date end_date s = (Normal l, s')
    ∧ heap (world s) !! l = None
    ∧ heap (world s') !! l = Some d
    ∧ heap (world s) ⊆ heap (world s')
    ∧ database (world s') = database (world s)
    ∧ (to_datetime_scalar end_date = None
       ∨ (∃ ts e, to_datetime_scalar end_date = Some ts
                  ∧ history ticker start_date (add_days ts 1) = Raised e)
       ∨ (∃ ts d0, to_datetime_scalar end_date = Some ts
                   ∧ history ticker start_date (add_days ts 1) = Normal d0
                   ∧ df_empty d0 = true) →
       d = empty_frame ∧ df_empty d = true).
Proof.
  destruct (holds_run _ _ _ (fetch_yfinance_run history ticker start_date end_date s))
    as (o & s' & Hrun & l & d & -> & Hl & Hd & Hh & Hdb & _ & _ & Hans).
  exists l, s', d. do 5 (split; [done|]).
  intros Hfail.
  assert (Hnone : answer_of history ticker start_date end_date = None).
  { unfold answer_of.
    destruct Hfail as [->|[(ts & e & -> & ->)|(ts & d0 & -> & -> & ->)]]; done. }
  rewrite Hnone in Hans. by destruct Hans as [-> _].
Qed.

(** X26. The frame that [fetch_yfinance_data] makes of an answer with
    data: its index is named "date" and holds the calendar dates of the
    labels of the answer, its columns are those of open, high, low, close
    and volume that the answer has (under either spelling), in this
    order, it has one row per row of the answer, and a cell of one of
    these columns is the cell of the answer (the labels of the answer
    being distinct after renaming). *)
Theorem fetched_frame_shape ticker start_date end_date ts d0 s :
  to_datetime_scalar end_date = Some ts →
  history ticker start_date (add_days ts 1) = Normal d0 →
  df_empty d0 = false →
  Forall (λ c, is_Some (to_datetime_scalar c)) (index d0) →
  ∃ l s' d,
    fetch_yfinance_data history ticker start_date end_date s = (Normal l, s')
    ∧ heap (world s') !! l = Some d
    ∧ index_name d = Some "date"
    ∧ index d = (λ c, date_part (VTime (stamp c))) <$> index d0
    ∧ columns d = filter (λ col, inb col (rename_label <$> columns d0) = true)
                    required_cols
    ∧ length (rows d) = length (rows d0)
    ∧ (NoDup (rename_label <$> columns d0) →
       ∀ i x0 c0, rows d0 !! i = Some x0 → c0 ∈ columns d0 →
         rename_label c0 ∈ required_cols →
         ∃ x, rows d !! i = Some x
              ∧ cell x.2 (rename_label c0) = cell x0.2 c0).
Proof.
  intros Hend Hanswer Hempty Hlabels.
  destruct (holds_run _ _ _ (fetch_yfinance_run history ticker start_date end_date s))
    as (o & s' & Hrun & l & d & -> & Hl & Hd & Hh & Hdb & _ & _ & Hans).
  destruct (to_datetime_parses _ Hlabels) as [stamps Hstamps].
  unfold answer_of in Hans. rewrite Hend, Hanswer, Hempty, Hstamps in Hans.
  destruct Hans as [Hfrom _]. pose proof (fetched_from_rows d0 d Hfrom) as Hshape.
  cbv zeta in Hshape.
  exists l, s', d. split; [done|]. split; [done|].
  rewrite Hshape. cbn [index_name columns rows].
  split; [done|].
  split; [unfold index; cbn [rows]; by rewrite <- !list_fmap_compose|].
  split; [done|]. split; [by rewrite length_fmap|].
  intros Hnd i x0 c0 Hx0 Hc0 Hreq. rewrite list_lookup_fmap, Hx0.
  eexists. split; [done|]. cbn [snd].
  rewrite cell_list_to_map.
  2:{ apply list_elem_of_filter. split; [|done]. apply inb_spec.
      apply list_elem_of_fmap. eauto. }
  unfold cell at 1. erewrite elem_of_list_to_map_1; [done| |].
  - by rewrite <- list_fmap_compose.
  - apply list_elem_of_fmap. eauto.
Qed.

End fetcher_theorems.

(** * The pipeline: fetch, clean, store *)

Section pipeline.
Context `{Parsers}.
Context (history : string → Cell → Timestamp → Outcome DataFrame).
Import Python Pandas Process CleanerSpec CleanerCases.

(** The exits open to a frame whose index is named "date" and is the
    source of the dates. *)
Lemma named_date_exit d :
  index_name d = Some "date" →
  inb "date" (columns d) = false →
  Forall (λ c, is_Some (to_datetime_scalar c)) (index d) →
  insert_label d = "date"
  ∧ (exit_of d = NoData ∨ exit_of d = MissingColumns
     ∨ exit_of d = BecameEmpty ∨ exit_of d = ResetRaises)
  ∧ (issubset DataCleaner.required_cols (columns d) = true →
     kept d ≠ [] → exit_of d = ResetRaises).
Proof.
  intros Hname Hdate Hlabels.
  assert (Hsrc : date_source d ≠ FromColumn)
    by (unfold date_source; rewrite Hdate; by destruct (isinstance_DatetimeIndex d)).
  assert (Hlab : insert_label d = "date").
  { unfold insert_label, reset_name. rewrite Hname. by destruct (date_source d). }
  assert (Hclash : label_clash d = true).
  { unfold label_clash. rewrite Hlab. apply inb_add_column_same. }
  assert (Hvals : ∃ out, to_datetime (date_values d) = Normal out).
  { unfold date_values. destruct (date_source d); [by exists []|done|].
    by apply to_datetime_parses. }
  destruct Hvals as [out Hvals].
  split; [done|]. unfold exit_of. rewrite Hvals, Hclash. split.
  - destruct (df_empty d); [by left|].
    destruct (negb (issubset DataCleaner.required_cols (columns d)));
      [by right; left|].
    destruct (bool_decide (kept d = [])); [by right; right; left|by do 3 right].
  - intros Hsub Hk. rewrite (not_empty d), Hsub, bool_decide_false by done. done.
Qed.

(** X27. What the fetcher returns, the cleaner cannot clean: for every
    answer of the service, [clean_ohlcv_data] applied to the frame that
    [fetch_yfinance_data] has returned gives None or raises ValueError at
    [reset_index]; it never returns a table.  It raises whenever the frame
    has the five columns and a row whose five cells parse.  (The fetcher
    names the index "date", line 45; the cleaner adds a "date" column,
    line 42, and then resets the index, line 99.  The labels of the
    answer are distinct after renaming.) *)
Theorem fetched_frame_is_not_cleaned ticker start_date end_date s l s' t :
  (∀ d0, Fetchers.answer_of history ticker start_date end_date = Some d0 →
         NoDup (Fetchers.rename_label <$> columns d0)) →
  Fetchers.fetch_yfinance_data history ticker start_date end_date s
  = (Normal l, s') →
  ∃ d o,
    heap (world s') !! l = Some d
    ∧ (DataCleaner.clean_ohlcv_data (Some l) t (world s')).1 = o
    ∧ (o = Normal None
       ∨ o = Raised (ValueError "cannot insert date, already exists"))
    ∧ (issubset DataCleaner.required_cols (columns d) = true →
       (∃ x, x ∈ rows d ∧ complete x.2 = true) →
       o = Raised (ValueError "cannot insert date, already exists")).
Proof.
  intros _ Hrun.
  pose proof (fetch_yfinance_run history ticker start_date end_date s) as Hf.
  unfold holds in Hf. rewrite Hrun in Hf. cbn [fst snd] in Hf.
  destruct Hf as (l0 & d & [= <-] & _ & Hd & _ & _ & _ & _ & Hans).
  exists d, (DataCleaner.clean_ohlcv_data (Some l) t (world s')).1.
  split; [done|]. split; [done|].
  destruct (Fetchers.answer_of history ticker start_date end_date) as [d0|].
  - destruct Hans as [Hfrom _].
    destruct (fetched_from_index_named_date d0 d Hfrom)
      as (Hname & Hdate & Hwf & Hlabels).
    destruct (named_date_exit d Hname Hdate Hlabels) as (Hlab & Hexits & Hraise).
    destruct (clean_exit t l d (world s') Hd Hwf) as (r & Ho & _).
    unfold outcome_is in Ho. rewrite Hlab in Ho. split.
    + destruct Hexits as [He|[He|[He|He]]]; rewrite He in Ho;
        destruct Ho as [-> _]; first [by left | by right].
    + intros Hsub Hrow. apply has_complete_row in Hrow.
      rewrite (Hraise Hsub Hrow) in Ho. by destruct Ho as [-> _].
  - destruct Hans as [-> _].
    destruct (clean_exit t l empty_frame (world s') Hd eq_refl) as (r & Ho & _).
    unfold outcome_is in Ho. change (exit_of empty_frame) with NoData in Ho.
    destruct Ho as [-> _].
    split; [by left|]. intros _ (x & Hx & _). by apply elem_of_nil in Hx.
Qed.

(** X28. What the cleaner returns, the storage engine does not store:
    with the engine set up, [insert_ohlcv_data] applied to a table that
    [clean_ohlcv_data] has returned raises NameError for [np]; the table
    [ohlcv_data] is as it was before the two calls. *)
Theorem cleaned_table_is_not_stored t l d w l' w' :
  heap w !! l = Some d →
  DataCleaner.clean_ohlcv_data (Some l) t w = (Normal (Some l'), w') →
  engine w = true →
  ∃ w'',
    Database.insert_ohlcv_data (Some l') w' = (Raised (NameError "np"), w'')
    ∧ database w'' = database w
    ∧ stdout w'' = stdout w'.
Proof.
  intros Hl Hrun He.
  destruct (clean_returns_table _ _ _ _ _ _ Hl Hrun) as (_ & Hout & _ & Hk & _).
  assert (Hsame : engine w' = engine w ∧ database w' = database w).
  { destruct w as [h out e db].
    pose proof (clean_spec t l d h out e db Hl) as Hwp.
    eapply wp_run in Hwp; [|exact Hrun]. by destruct Hwp as (_ & ? & ? & _). }
  destruct Hsame as [He' Hdb'].
  destruct (to_datetime_parses (column (cleaned t d) "date")) as [ds Hdates].
  { fold (dates (cleaned t d)). rewrite dates_cleaned. apply Forall_fmap.
    apply Forall_forall. intros x _. apply date_key_parses. }
  destruct (insert_raises_NameError l' (cleaned t d) w' ds)
    as (w'' & Hins & Hdb & Hstd & _); try done.
  - congruence.
  - unfold df_empty, cleaned. cbn [rows columns]. by destruct (kept d).
  - exists w''. split; [done|]. split; [congruence|done].
Qed.

End pipeline.

Section pipeline_examples.
Import Python Pandas Process Fetchers CleanerSpec Examples Scenarios.

Lemma fetched_frame_shape_witness :
  to_datetime_scalar (VDate jan2) = Some (Stamp jan2 0)
  ∧ service "TST" (VDate jan1) (add_days (Stamp jan2 0) 1) = Normal quotes
  ∧ df_empty quotes = false
  ∧ Forall (λ c, is_Some (to_datetime_scalar c)) (index quotes)
  ∧ ∃ l s' d,
      fetch_yfinance_data service "TST" (VDate jan1) (VDate jan2) s_start
      = (Normal l, s')
      ∧ heap (world s') !! l = Some d
      ∧ index_name d = Some "date"
      ∧ index d = (λ c, date_part (VTime (stamp c))) <$> index quotes
      ∧ columns d
        = filter (λ col, inb col (rename_label <$> columns quotes) = true)
            required_cols
      ∧ length (rows d) = length (rows quotes)
      ∧ (NoDup (rename_label <$> columns quotes) →
         ∀ i x0 c0, rows quotes !! i = Some x0 → c0 ∈ columns quotes →
           rename_label c0 ∈ required_cols →
           ∃ x, rows d !! i = Some x
                ∧ cell x.2 (rename_label c0) = cell x0.2 c0).
Proof.
  assert (Hlabels : Forall (λ c, is_Some (to_datetime_scalar c)) (index quotes))
    by (repeat constructor; by eexists).
  do 3 (split; [reflexivity|]). split; [exact Hlabels|].
  apply (fetched_frame_shape service "TST" (VDate jan1) (VDate jan2)
           (Stamp jan2 0) quotes s_start);
    [reflexivity..|exact Hlabels].
Defined.

Lemma fetched_frame_is_not_cleaned_witness :
  (∀ d0, answer_of service "TST" (VDate jan1) (VDate jan2) = Some d0 →
         NoDup (rename_label <$> columns d0))
  ∧ fetch_yfinance_data service "TST" (VDate jan1) (VDate jan2) s_start
    = (Normal 2%positive, s_fetched)
  ∧ ∃ d o,
      heap (world s_fetched) !! 2%positive = Some d
      ∧ (DataCleaner.clean_ohlcv_data (Some 2%positive) "TST"
           (world s_fetched)).1 = o
      ∧ (o = Normal None
         ∨ o = Raised (ValueError "cannot insert date, already exists"))
      ∧ (issubset DataCleaner.required_cols (columns d) = true →
         (∃ x, x ∈ rows d ∧ complete x.2 = true) →
         o = Raised (ValueError "cannot insert date, already exists")).
Proof.
  assert (Hnd : ∀ d0,
            answer_of service "TST" (VDate jan1) (VDate jan2) = Some d0 →
            NoDup (rename_label <$> columns d0)).
  { intros d0 [= <-]. apply (bool_decide_unpack _). vm_compute. exact I. }
  assert (Hrun : fetch_yfinance_data service "TST" (VDate jan1) (VDate jan2)
                   s_start = (Normal 2%positive, s_fetched))
    by (vm_compute; reflexivity).
  split; [exact Hnd|]. split; [exact Hrun|].
  exact (fetched_frame_is_not_cleaned service "TST" (VDate jan1) (VDate jan2)
           s_start 2%positive s_fetched "TST" Hnd Hrun).
Defined.

Lemma cleaned_table_is_not_stored_witness :
  heap w_raw !! 1%positive = Some raw
  ∧ DataCleaner.clean_ohlcv_data (Some 1%positive) "TST" w_raw
    = (Normal (Some 3%positive), w_raw')
  ∧ engine w_raw = true
  ∧ ∃ w'',
      Database.insert_ohlcv_data (Some 3%positive) w_raw'
      = (Raised (NameError "np"), w'')
      ∧ database w'' = database w_raw
      ∧ stdout w'' = stdout w_raw'.
Proof.
  assert (Hrun : DataCleaner.clean_ohlcv_data (Some 1%positive) "TST" w_raw
                 = (Normal (Some 3%positive), w_raw'))
    by (vm_compute; reflexivity).
  split; [reflexivity|]. split; [exact Hrun|]. split; [reflexivity|].
  exact (cleaned_table_is_not_stored "TST" 1%positive raw w_raw 3%positive
           w_raw' eq_refl Hrun eq_refl).
Defined.

(** What the script prints for one ticker, with the service answering
    [quotes]: the fetch succeeds, the cleaner raises, the ticker is counted
    as failed. *)
Example store_run :
  (RunFetchAndStore.main service ["TST"] (VDate jan1) (VDate jan2) s_start).1
  = Normal Completed
  ∧ console
      (RunFetchAndStore.main service ["TST"] (VDate jan1) (VDate jan2)
         s_start).2
    = [StoreBanner; DbCreateAttempt; DbCreateDone; StoreTickers ["TST"];
       StoreDateRange (VDate jan1) (VDate jan2); StoreProcessing "TST";
       FetcherFetching "TST" (VDate jan1) (VDate jan2);
       FetcherFetched 1 "TST";
       Logged (CleanerCleaning "TST" 1); Logged (CleanerUsedIndex "TST");
       Logged (CleanerFinished "TST" 1);
       StoreUnexpected "TST"
         (ValueError "cannot insert date, already exists");
       StoreFinished "TST" false; StoreSummary 1 0 1].
Proof. split; vm_compute; reflexivity. Qed.

End pipeline_examples.

(** * The scripts *)

Section store_script.
Context `{Parsers}.
Context (history : string → Cell → Timestamp → Outcome DataFrame).
Import Python Pandas Process CleanerSpec RunFetchAndStore.

(** No ticker is a success: the frame of the fetcher is empty, or the
    cleaner gives None for it, or raises. *)
Lemma process_run START_DATE END_DATE ticker s :
  holds (process history START_DATE END_DATE ticker)
    (λ o s', o = Normal false
       ∧ database (world s') = database (world s)
       ∧ engine (world s') = engine (world s)) s.
Proof.
  unfold process. sc_seq. apply holds_echo.
  sc_seq. apply holds_try_except. sc_seq.
  eapply holds_mono; [apply fetch_yfinance_run|].
  intros o s1 (l & d & -> & _ & Hd & _ & Hdb & He & _ & Hans).
  sc_proj in Hdb. sc_proj in He. sc_proj. rewrite <- Hdb, <- He. clear Hdb He.
  destruct s1 as [[h1 out1 e1 db1] con1]. sc_proj. cbn [world heap] in Hd.
  assert (Hdone : ∀ (b : Line) w2 con2,
    database w2 = db1 → engine w2 = e1 →
    holds (echo b;; mret false ≫= λ success : bool,
             echo (StoreFinished ticker success);; mret success)
      (λ o s', o = Normal false ∧ database (world s') = db1
               ∧ engine (world s') = e1)
      (mkState w2 con2)).
  { intros b w2 con2 Hdb2 He2. done. }
  sc_seq. apply holds_call_silent. eapply wp_deref; [exact Hd|].
  split; [done|]. sc_proj.
  destruct (df_empty d) eqn:Hempty; cbn [negb].
  { sc_seq. apply holds_echo. apply holds_ret. sc_proj. done. }
  assert (Hname : index_name d = Some "date").
  { destruct (Fetchers.answer_of history ticker START_DATE END_DATE) as [d0|].
    - destruct Hans as [Hfrom _].
      by destruct (fetched_from_index_named_date d0 d Hfrom) as (? & _).
    - destruct Hans as [-> _]. done. }
  sc_seq. apply holds_call.
  eapply wp_mono; [exact (clean_spec ticker l d h1 out1 e1 db1 Hd)|].
  intros o w2 (_ & He2 & Hdb2 & Htable). sc_proj.
  destruct o as [[l'|]|ex].
  - exfalso. destruct (Htable l' eq_refl) as (_ & _ & _ & _ & Hfree & _).
    unfold reset_name in Hfree. rewrite Hname in Hfree.
    by rewrite inb_add_column_same in Hfree.
  - sc_seq. apply holds_ret.
    sc_seq. apply holds_echo. apply holds_ret. sc_proj. done.
  - cbn [except_Exception]. sc_seq. apply holds_echo. apply holds_ret.
    sc_proj. done.
Qed.

Lemma process_all_run START_DATE END_DATE tickers : ∀ total_success total_fail s,
  holds (process_all history START_DATE END_DATE tickers total_success total_fail)
    (λ o s', o = Normal (total_success, (total_fail + length tickers)%nat)
       ∧ database (world s') = database (world s)
       ∧ engine (world s') = engine (world s)) s.
Proof.
  induction tickers as [|ticker tickers IH]; intros a b s; cbn [process_all].
  { apply holds_ret. by rewrite Nat.add_0_r. }
  sc_seq. eapply holds_mono; [apply process_run|].
  intros o s1 (-> & Hdb & He). eapply holds_mono; [apply IH|].
  intros o s2 (-> & Hdb2 & He2). cbn [length].
  split; [f_equal; f_equal; lia|]. split; congruence.
Qed.

(** X29. The pipeline script stores nothing.  Whatever the service
    answers for whatever tickers, [run_fetch_and_store.py] does not raise
    and leaves the table [ohlcv_data] as it found it.  When the tables
    cannot be set up it exits with code 1; otherwise it runs to its end
    and its summary counts no ticker as successful and every ticker as
    failed.  (The frames the service answers with have labels that are
    distinct after renaming.) *)
Theorem run_fetch_and_store_stores_nothing TICKERS START_DATE END_DATE s :
  (∀ ticker start_date end_date d0,
     history ticker start_date end_date = Normal d0 →
     NoDup (Fetchers.rename_label <$> columns d0)) →
  ∃ status s',
    main history TICKERS START_DATE END_DATE s = (Normal status, s')
    ∧ database (world s') = database (world s)
    ∧ (if engine (world s) && Postgres.online (database (world s)) then
         status = Completed
         ∧ ∃ before,
             console s'
             = before ++ [StoreSummary (length TICKERS) 0 (length TICKERS)]
       else
         status = SystemExit 1
         ∧ ∃ before, console s' = before ++ [StoreHalting]).
Proof.
  intros _.
  enough (Hm : holds (main history TICKERS START_DATE END_DATE)
            (λ o s', ∃ status, o = Normal status
               ∧ database (world s') = database (world s)
               ∧ (if engine (world s) && Postgres.online (database (world s)) then
                    status = Completed
                    ∧ ∃ before,
                        console s'
                        = before ++ [StoreSummary (length TICKERS) 0 (length TICKERS)]
                  else
                    status = SystemExit 1
                    ∧ ∃ before, console s' = before ++ [StoreHalting])) s).
  { apply holds_run in Hm as (o & s' & Hrun & status & -> & Hm).
    by exists status, s'. }
  unfold main. sc_seq. apply holds_echo. sc_seq.
  match goal with |- holds _ _ ?s0 =>
    destruct (create_db_tables_run s0) as (s1 & Hrun & Hw & _) end.
  unfold holds at 1. rewrite Hrun. cbn [fst snd]. sc_proj in Hw. sc_proj.
  destruct (engine (world s) && Postgres.online (database (world s))); cbn [negb].
  2:{ sc_seq. apply holds_echo. apply holds_ret. sc_proj. rewrite Hw.
      exists (SystemExit 1). split; [done|]. split; [done|]. split; [done|]. eauto. }
  sc_seq. apply holds_echo. sc_seq. apply holds_echo. sc_seq.
  eapply holds_mono; [apply process_all_run|].
  intros o s2 (-> & Hdb & He). sc_proj in Hdb. rewrite Hw in Hdb.
  sc_seq. apply holds_echo. apply holds_ret. sc_proj.
  exists Completed. split; [done|]. split; [done|]. split; [done|]. eauto.
Qed.

End store_script.

Section visualize_script.
Context `{Parsers}.
Import Python Pandas Process Database DatabaseSpec DatabaseCases RunVisualize.

Context (today : Z) (strftime : Z → string).

Lemma frame_of_result_empty rs :
  df_empty (frame_of_result rs) = bool_decide (rs = []).
Proof. by destruct rs. Qed.

Lemma call_pd_raises {A} (k : unit → Sc A) s :
  (call pd ≫= k) s = (Raised (NameError "pd"), s).
Proof.
  destruct s as [w con]. unfold mbind, Sc_bind, call. cbn.
  by rewrite drop_all, app_nil_r.
Qed.

Lemma bind_raises {A B} (c : Sc A) (k : A → Sc B) s e s' :
  c s = (Raised e, s') → (c ≫= k) s = (Raised e, s').
Proof. intros Hc. unfold mbind, Sc_bind. by rewrite Hc. Qed.

Lemma holds_pd_raises {A} (k : unit → Sc A)
    (Q : Outcome A → State → Prop) s :
  Q (Raised (NameError "pd")) s → holds (call pd ≫= k) Q s.
Proof. intros HQ. unfold holds. by rewrite call_pd_raises. Qed.

Lemma main_run dfd pas (args : Args) s :
  holds (main today strftime dfd pas args)
    (λ o s',
       database (world s') = database (world s)
       ∧ if given (start args) then
           o = Normal (SystemExit 1) ∨ o = Raised (NameError "pd")
           ∨ ∃ arg, o = Raised (bound_error arg)
       else o = Raised (NameError "pd") ∧ s' = s) s.
Proof.
  unfold main, date_range. destruct (given (start args)) eqn:Hstart.
  2:{ apply holds_bind. by apply holds_pd_raises. }
  sc_seq. apply holds_ret. cbn [fst snd].
  sc_seq. apply holds_echo. sc_seq. apply holds_echo. sc_proj.
  sc_seq. apply holds_call. eapply wp_mono; [apply fetch_run|].
  intros o w' (Hdb & _ & _ & Ho). sc_proj. sc_proj in Ho. sc_proj in Hdb.
  assert (Hend : ∀ l' con,
    heap w' !! l' = Some empty_frame →
    holds (call (deref l') ≫= λ d,
             if df_empty d then
               echo (VisualizeNoData (upper (ticker args)));; mret (SystemExit 1)
             else
               call pd;;
               pas l' (upper (ticker args)) (window args)
                 (VStr (default "" (start args)))
                 (if given (end_ args) then VStr (default "" (end_ args))
                  else VStr (strftime today));;
               echo VisualizeComplete;; mret Completed)
      (λ o s', database (world s') = database (world s)
         ∧ (o = Normal (SystemExit 1) ∨ o = Raised (NameError "pd")
            ∨ ∃ arg, o = Raised (bound_error arg)))
      (mkState w' con)).
  { intros l' con Hl'. sc_seq. apply holds_call_silent.
    eapply wp_deref; [exact Hl'|]. split; [done|]. sc_proj.
    change (df_empty empty_frame) with true. cbv iota.
    sc_seq. apply holds_echo. apply holds_ret. sc_proj. split; [done|]. by left. }
  destruct (engine (world s)).
  2:{ destruct Ho as (l' & -> & _ & Hheap & _). apply Hend.
      by rewrite Hheap, lookup_insert_eq. }
  destruct (bound _) as [lo|].
  2:{ destruct Ho as [-> ->]. split; [done|]. right. right. eauto. }
  destruct (bound _) as [hi|].
  2:{ destruct Ho as [-> ->]. split; [done|]. right. right. eauto. }
  destruct Ho as (l' & -> & _ & Ho).
  destruct (Postgres.online (database (world s))); destruct Ho as [Hheap _].
  2:{ apply Hend. by rewrite Hheap, lookup_insert_eq. }
  sc_seq. apply holds_call_silent.
  eapply wp_deref; [sc_proj; rewrite Hheap; apply lookup_insert_eq|].
  split; [done|].
  sc_proj. rewrite frame_of_result_empty. case_bool_decide.
  - sc_seq. apply holds_echo. apply holds_ret. sc_proj. split; [done|]. by left.
  - apply holds_pd_raises. sc_proj. split; [done|]. right. by left.
Qed.

(** X30. The visualization script never gets to the plot.  pandas is not
    among the imports of [run_visualize.py], and the script looks [pd] up
    at line 35 (when no start date is given) and at line 53 (once data
    has been fetched).  So every run ends in NameError for [pd], in
    [sys.exit(1)] ("no data found"), or in the error of a date that
    cannot be read; none ends normally, none changes the table, and the
    outcome does not depend on what lines 35-37 and 53-69 would do
    after the lookup. *)
Theorem run_visualize_never_plots dfd pas (args : Args) s :
  ∃ o s',
    main today strftime dfd pas args s = (o, s')
    ∧ o ≠ Normal Completed
    ∧ database (world s') = database (world s)
    ∧ (given (start args) = false → o = Raised (NameError "pd") ∧ s' = s)
    ∧ (given (start args) = true →
       o = Normal (SystemExit 1) ∨ o = Raised (NameError "pd")
       ∨ ∃ arg, o = Raised (bound_error arg))
    ∧ ∀ dfd' pas', main today strftime dfd' pas' args s = (o, s').
Proof.
  destruct (holds_run _ _ _ (main_run dfd pas args s)) as (o & s' & Hrun & Hdb & Ho).
  exists o, s'. split; [done|].
  assert (Hcases : o = Normal (SystemExit 1) ∨ o = Raised (NameError "pd")
                   ∨ ∃ arg, o = Raised (bound_error arg)).
  { destruct (given (start args)); [done|]. destruct Ho as [-> _]. by right; left. }
  split.
  { destruct Hcases as [->|[->|[arg ->]]]; done. }
  split; [done|]. split.
  { intros Hs. by rewrite Hs in Ho. }
  split; [done|].
  intros dfd' pas'. rewrite <- Hrun. unfold main, date_range.
  destruct (given (start args)).
  2:{ etrans; [apply bind_raises, call_pd_raises|].
      symmetry. apply bind_raises, call_pd_raises. }
  unfold mbind, Sc_bind, mret, Sc_ret, echo. cbn [fst snd]. sc_proj.
  match goal with |- context [call ?c ?s0] => destruct (call c s0) as [[l'|ex] s1] end;
    [|done].
  destruct (call (deref l') s1) as [[d|ex] s2]; [|done].
  destruct (df_empty d); [done|].
  pose proof (call_pd_raises (λ _, mret ()) s2) as Hpd.
  unfold mbind, Sc_bind in Hpd.
  destruct (call pd s2) as [[[]|ex] s3]; [done|done].
Qed.

End visualize_script.

Section scripts_examples.
Import Python Pandas Process Examples Scenarios RunFetchAndStore.

Lemma run_fetch_and_store_stores_nothing_witness :
  (∀ ticker start_date end_date d0,
     service ticker start_date end_date = Normal d0 →
     NoDup (Fetchers.rename_label <$> columns d0))
  ∧ ∃ status s',
      main service ["TST"; "SPY"] (VDate jan1) (VDate jan2) s_start
      = (Normal status, s')
      ∧ database (world s') = database (world s_start)
      ∧ (if engine (world s_start)
            && Postgres.online (database (world s_start)) then
           status = Completed
           ∧ ∃ before,
               console s'
               = before ++ [StoreSummary (length ["TST"; "SPY"]) 0
                              (length ["TST"; "SPY"])]
         else
           status = SystemExit 1
           ∧ ∃ before, console s' = before ++ [StoreHalting]).
Proof.
  assert (Hnd : ∀ ticker start_date end_date d0,
            service ticker start_date end_date = Normal d0 →
            NoDup (Fetchers.rename_label <$> columns d0)).
  { intros ? ? ? d0 [= <-]. apply (bool_decide_unpack _). vm_compute. exact I. }
  split; [exact Hnd|].
  exact (run_fetch_and_store_stores_nothing service ["TST"; "SPY"]
           (VDate jan1) (VDate jan2) s_start Hnd).
Defined.

End scripts_examples.
